(** * IMS weather service: cache, aggregation and forecast resolution

    A shallow embedding of the TypeScript sources of the service: the
    cache ([src/cache.ts]), the date and aggregation utilities
    ([src/utils.ts]), the station client and, listed after it in the same
    file, the server with its [/api/forecast] route ([src/imsApi.ts]), the
    feed adapter ([src/forecastAdapter.ts]) and the fallback generator
    ([fallbackForecast.ts]); together with the properties the
    specification states about them, each proved, or refuted and restated.

    Conventions of the embedding:
    - a JavaScript [number] that is an instant or a count is a [Z]; a
      measured value is a [Q] (exact rationals stand in for doubles; no
      property below depends on IEEE rounding);
    - a [Date] is its epoch-millisecond count; a [YYYY-MM-DD] date string
      is the day number it denotes, rendered by [JS.isoDate];
    - [Map] and the cache directory are [gmap]s from keys to entries;
    - [async] functions that can reject return [JS.result];
    - [Date.now()] reads the clock of the world the code runs in. *)

From Stdlib Require Import ZArith QArith List String Ascii Bool Lia DecimalString.
From Stdlib Require Import Sorted Permutation.
From stdpp Require Import gmap strings.

Set Warnings "-register-all".
Open Scope Z_scope.

(** ** The JavaScript runtime, as far as the sources use it *)

Module JS.

(** A thrown exception carries its message. *)
Definition error := string.

(** The outcome of an [await]: a value, or a rejection. *)
Inductive result (A : Type) : Type :=
| Ok (a : A)
| Throw (e : error).
Arguments Ok {A} a.
Arguments Throw {A} e.

Definition bind {A B} (r : result A) (k : A -> result B) : result B :=
  match r with
  | Ok a => k a
  | Throw e => Throw e
  end.

(** [try { body } catch { handler }] *)
Definition try_catch {A} (body : result A) (handler : error -> A) : A :=
  match body with
  | Ok a => a
  | Throw e => handler e
  end.

(** [Promise.all]: rejects with the first rejection, otherwise keeps
    every value in order. *)
Fixpoint promise_all {A} (ps : list (result A)) : result (list A) :=
  match ps with
  | [] => Ok []
  | p :: ps' =>
      bind p (fun a => bind (promise_all ps') (fun rest => Ok (a :: rest)))
  end.

(** Values a cache slot can hold: they include [null], and [if (v)]
    tests their truthiness. *)
Class Value (V : Type) := {
  null : V;
  truthy : V -> bool;
  truthy_null : truthy null = false
}.

(** JSON data, the values that survive [JSON.stringify]/[JSON.parse]. *)
Inductive json : Type :=
| JNull
| JBool (b : bool)
| JNum (n : Z)
| JStr (s : string)
| JArr (items : list json)
| JObj (fields : list (string * json)).

Definition json_truthy (v : json) : bool :=
  match v with
  | JNull => false
  | JBool b => b
  | JNum n => negb (n =? 0)
  | JStr s => negb (String.eqb s "")
  | JArr _ => true
  | JObj _ => true
  end.

#[export] Instance json_value : Value json :=
  {| null := JNull; truthy := json_truthy; truthy_null := eq_refl |}.

(** [String(n)] for an integer [n]. *)
Definition string_of_Z (n : Z) : string :=
  match n with
  | Z0 => "0"
  | Zpos p => NilZero.string_of_uint (Pos.to_uint p)
  | Zneg p => "-" +:+ NilZero.string_of_uint (Pos.to_uint p)
  end.

(** *** Numbers to text *)

Fixpoint zeros (n : nat) : string :=
  match n with
  | O => ""
  | S n' => "0" +:+ zeros n'
  end.

(** [s.padStart(n, '0')] *)
Definition padStart (n : nat) (s : string) : string :=
  zeros (n - String.length s) +:+ s.

(** [x.toFixed(digits)] for a number below 1e21: the sign, then the
    integer nearest to [|x| * 10^digits] (the larger one on a tie) with
    the decimal point put back. *)
Definition toFixed (digits : nat) (x : Q) : string :=
  let negative := (Qnum x <? 0) in
  let a := Z.abs (Qnum x) in
  let b := Zpos (Qden x) in
  let n := (2 * a * 10 ^ Z.of_nat digits + b) / (2 * b) in
  let m := padStart (S digits) (string_of_Z n) in
  let k := (String.length m - digits)%nat in
  let body :=
    match digits with
    | O => m
    | _ => substring 0 k m +:+ "." +:+ substring k digits m
    end in
  if negative then "-" +:+ body else body.

(** [parseInt(s)]: leading blanks (the ASCII ones), a sign, then the
    longest run of digits, hexadecimal after a [0x] prefix and decimal
    otherwise; [None] is [NaN]. *)
Definition digitValue (radix : Z) (c : ascii) : option Z :=
  let n := Z.of_nat (nat_of_ascii c) in
  let v :=
    if (48 <=? n) && (n <=? 57) then n - 48
    else if (97 <=? n) && (n <=? 122) then n - 87
    else if (65 <=? n) && (n <=? 90) then n - 55
    else radix in
  if v <? radix then Some v else None.

Fixpoint parseDigits (radix : Z) (s : string) (acc : option Z) : option Z :=
  match s with
  | EmptyString => acc
  | String c rest =>
      match digitValue radix c with
      | Some dgt =>
          parseDigits radix rest
            (Some (match acc with Some a => radix * a + dgt | None => dgt end))
      | None => acc
      end
  end.

Fixpoint skipBlanks (s : string) : string :=
  match s with
  | String c rest =>
      if (nat_of_ascii c =? 32)%nat
         || ((9 <=? nat_of_ascii c)%nat && (nat_of_ascii c <=? 13)%nat)
      then skipBlanks rest else s
  | EmptyString => s
  end.

Definition parseUnsigned (s : string) : option Z :=
  match s with
  | String "0"%char (String "x"%char rest) => parseDigits 16 rest None
  | String "0"%char (String "X"%char rest) => parseDigits 16 rest None
  | _ => parseDigits 10 s None
  end.

Definition parseInt (s : string) : option Z :=
  match skipBlanks s with
  | String "-"%char rest => option_map Z.opp (parseUnsigned rest)
  | String "+"%char rest => parseUnsigned rest
  | t => parseUnsigned t
  end.

(** *** Dates

    A [Date] is its time value, the milliseconds since the epoch. The
    calendar fields are those of the proleptic Gregorian calendar. *)

Definition msPerDay : Z := 1000 * 60 * 60 * 24.
Definition msPerHour : Z := 1000 * 60 * 60.

(** Year, month (1 to 12) and day of month of a day number. *)
Definition civilFromDays (days : Z) : Z * Z * Z :=
  let z := days + 719468 in
  let era := z / 146097 in
  let doe := z - era * 146097 in
  let yoe := (doe - doe / 1460 + doe / 36524 - doe / 146096) / 365 in
  let doy := doe - (365 * yoe + yoe / 4 - yoe / 100) in
  let mp := (5 * doy + 2) / 153 in
  let d := doy - (153 * mp + 2) / 5 + 1 in
  let m := if mp <? 10 then mp + 3 else mp - 9 in
  let y := yoe + era * 400 + (if m <=? 2 then 1 else 0) in
  (y, m, d).

Definition getUTCFullYear (ms : Z) : Z := fst (fst (civilFromDays (ms / msPerDay))).
(** [getUTCMonth() + 1] *)
Definition getUTCMonth1 (ms : Z) : Z := snd (fst (civilFromDays (ms / msPerDay))).
Definition getUTCDate (ms : Z) : Z := snd (civilFromDays (ms / msPerDay)).
Definition getUTCHours (ms : Z) : Z := (ms mod msPerDay) / msPerHour.

(** [d.toISOString().split('T')[0]] *)
Definition isoYear (y : Z) : string :=
  if (0 <=? y) && (y <=? 9999) then padStart 4 (string_of_Z y)
  else (if y <? 0 then "-" else "+") +:+ padStart 6 (string_of_Z (Z.abs y)).

Definition isoDateOfMs (ms : Z) : string :=
  isoYear (getUTCFullYear ms) +:+ "-" +:+ padStart 2 (string_of_Z (getUTCMonth1 ms))
    +:+ "-" +:+ padStart 2 (string_of_Z (getUTCDate ms)).

(** The [YYYY-MM-DD] string of a day number, and the time value
    [new Date(s).getTime()] of such a string: midnight UTC of that day. *)
Definition isoDate (day : Z) : string := isoDateOfMs (day * msPerDay).
Definition dateOfDay (day : Z) : Z := day * msPerDay.

(** [Math.ceil(a / b)] for integers, [b > 0]. *)
Definition ceilDiv (a b : Z) : Z := - ((- a) / b).

(** *** Pseudo-random numbers: [Math.random()] hands out the draws of a
    fixed sequence one after the other. *)
Record Rng := { draws : nat -> Q; position : nat }.

Definition random (g : Rng) : Q * Rng :=
  (draws g (position g), {| draws := draws g; position := S (position g) |}).

(** *** Objects used as dictionaries

    [Record<string, A>] with non-numeric keys: the properties in the
    order of their creation, one per key. *)
Definition Dict (A : Type) := list (string * A).

Fixpoint dictGet {A} (key : string) (o : Dict A) : option A :=
  match o with
  | [] => None
  | (k, a) :: rest => if String.eqb k key then Some a else dictGet key rest
  end.

(** [if (!o[key]) { o[key] = fresh }] for property values that are
    objects (always truthy). *)
Definition dictEnsure {A} (key : string) (fresh : A) (o : Dict A) : Dict A :=
  match dictGet key o with
  | Some _ => o
  | None => o ++ [(key, fresh)]
  end.

(** In-place mutation of the object stored under [key]. *)
Definition dictUpdate {A} (key : string) (f : A -> A) (o : Dict A) : Dict A :=
  map (fun '(k, a) => if String.eqb k key then (k, f a) else (k, a)) o.

(** [Object.values(o)] *)
Definition dictValues {A} (o : Dict A) : list A := map snd o.

(** [xs.sort((a, b) => key(a).localeCompare(key(b)))]: a stable sort;
    on the digit-and-punctuation keys built here the collation order is
    the code-unit order. *)
Fixpoint insertBy {A} (key : A -> string) (x : A) (l : list A) : list A :=
  match l with
  | [] => [x]
  | y :: rest =>
      if String.leb (key y) (key x) then y :: insertBy key x rest
      else x :: y :: rest
  end.

Definition sortBy {A} (key : A -> string) (l : list A) : list A :=
  fold_right (insertBy key) [] l.

(** [xs.reduce((a, b) => a + b, 0)] *)
Definition sum (xs : list Q) : Q := fold_left Qplus xs 0%Q.

Definition average (xs : list Q) : Q :=
  (sum xs / inject_Z (Z.of_nat (length xs)))%Q.

(** [Math.min(...xs)] and [Math.max(...xs)] of a non-empty array. *)
Definition qmin (a b : Q) : Q := if Qle_bool a b then a else b.
Definition qmax (a b : Q) : Q := if Qle_bool a b then b else a.

Definition Math_min (xs : list Q) : option Q :=
  match xs with
  | [] => None
  | x :: rest => Some (fold_left qmin rest x)
  end.

Definition Math_max (xs : list Q) : option Q :=
  match xs with
  | [] => None
  | x :: rest => Some (fold_left qmax rest x)
  end.

End JS.

Export JS(result, Ok, Throw).

(** ** src/cache.ts *)

Module Cache.
Import JS.

Inductive CacheType := stations | forecast.

(** [stationId?: number | string] *)
Inductive StationIdParam :=
| IdNumber (n : Z)
| IdString (s : string).

Record CacheParams := {
  stationId : option StationIdParam;
  from : option string;
  to : option string
}.

Definition noParams : CacheParams :=
  {| stationId := None; from := None; to := None |}.

Record CacheEntry (T : Type) := {
  data : T;
  timestamp : Z
}.
Arguments data {T} _.
Arguments timestamp {T} _.

Definition CACHE_DURATIONS (type : CacheType) : Z :=
  match type with
  | stations => 48 * 60 * 60 * 1000
  | forecast => 24 * 60 * 60 * 1000
  end.

(** How a template literal renders an optional parameter. *)
Definition renderId (p : option StationIdParam) : string :=
  match p with
  | None => "undefined"
  | Some (IdNumber n) => string_of_Z n
  | Some (IdString s) => s
  end.

Definition renderStr (p : option string) : string :=
  match p with
  | None => "undefined"
  | Some s => s
  end.

Definition getCacheKey (type : CacheType) (params : CacheParams) : option string :=
  match type with
  | stations => Some "stations_list"
  | forecast =>
      Some ("forecast_" +:+ renderId (stationId params) +:+ "_"
            +:+ renderStr (from params) +:+ "_" +:+ renderStr (to params))
  end.

Definition isExpired (now timestamp duration : Z) : bool :=
  duration <? now - timestamp.

Section Tiers.
Context {T : Type} `{Value T}.

(** The state the module works on: the in-process [memoryCache], the
    files of the cache directory (one entry per key), whether the
    directory can be read and written at all, the clock, and a count
    of the producer calls made so far. *)
Record World := {
  memoryCache : gmap string (CacheEntry T);
  files : gmap string (CacheEntry T);
  disk_ok : bool;
  clock : Z;
  fetcherCalls : nat
}.

Definition withMemory (m : gmap string (CacheEntry T)) (w : World) : World :=
  {| memoryCache := m; files := files w; disk_ok := disk_ok w;
     clock := clock w; fetcherCalls := fetcherCalls w |}.

Definition withFiles (f : gmap string (CacheEntry T)) (w : World) : World :=
  {| memoryCache := memoryCache w; files := f; disk_ok := disk_ok w;
     clock := clock w; fetcherCalls := fetcherCalls w |}.

(** Time passing between two calls. *)
Definition advance (dt : Z) (w : World) : World :=
  {| memoryCache := memoryCache w; files := files w; disk_ok := disk_ok w;
     clock := clock w + dt; fetcherCalls := fetcherCalls w |}.

Definition countFetch (w : World) : World :=
  {| memoryCache := memoryCache w; files := files w; disk_ok := disk_ok w;
     clock := clock w; fetcherCalls := S (fetcherCalls w) |}.

Definition getFromMemory (key : string) (duration : Z) (w : World) : T * World :=
  match memoryCache w !! key with
  | None => (null, w)
  | Some cached =>
      if isExpired (clock w) (timestamp cached) duration
      then (null, withMemory (delete key (memoryCache w)) w)
      else (data cached, w)
  end.

Definition setInMemory (key : string) (d : T) (w : World) : World :=
  withMemory (<[key := {| data := d; timestamp := clock w |}]> (memoryCache w)) w.

(** Reading a missing file, or any file of an unusable directory,
    throws inside the [try]; the [catch] answers [null]. *)
Definition getFromFile (key : string) (duration : Z) (w : World) : T * World :=
  if disk_ok w then
    match files w !! key with
    | None => (null, w)
    | Some cached =>
        if isExpired (clock w) (timestamp cached) duration
        then (null, withFiles (delete key (files w)) w)
        else (data cached, setInMemory key (data cached) w)
    end
  else (null, w).

(** A failed write is logged and swallowed. *)
Definition setInFile (key : string) (d : T) (w : World) : World :=
  if disk_ok w
  then withFiles (<[key := {| data := d; timestamp := clock w |}]> (files w)) w
  else w.

(** [options]: the producer, given by the outcome of calling it, and
    the duration override. *)
Record CacheOptions := {
  fetcher : option (result T);
  duration : option Z
}.

Definition noOptions : CacheOptions := {| fetcher := None; duration := None |}.

(** [options.duration || CACHE_DURATIONS[type]] *)
Definition effectiveDuration (type : CacheType) (options : CacheOptions) : Z :=
  match duration options with
  | Some d => if d =? 0 then CACHE_DURATIONS type else d
  | None => CACHE_DURATIONS type
  end.

Definition get (type : CacheType) (params : CacheParams) (options : CacheOptions)
    (w : World) : result T * World :=
  match getCacheKey type params with
  | None => (Ok null, w)
  | Some key =>
      let d := effectiveDuration type options in
      let '(memoryData, w1) := getFromMemory key d w in
      if truthy memoryData then (Ok memoryData, w1)
      else
        let '(fileData, w2) := getFromFile key d w1 in
        if truthy fileData then (Ok fileData, w2)
        else
          match fetcher options with
          | Some produced =>
              let w3 := countFetch w2 in
              match produced with
              | Ok d' => (Ok d', setInFile key d' (setInMemory key d' w3))
              | Throw e => (Throw e, w3)
              end
          | None => (Ok null, w2)
          end
  end.

Definition set (type : CacheType) (d : T) (params : CacheParams) (w : World) : World :=
  match getCacheKey type params with
  | None => w
  | Some key => setInFile key d (setInMemory key d w)
  end.

(** [clear]: the memory table is emptied; the files are removed
    unless the directory cannot be listed. *)
Definition clear (w : World) : World :=
  let w1 := withMemory ∅ w in
  if disk_ok w1 then withFiles ∅ w1 else w1.

End Tiers.

Arguments World T : clear implicits.
Arguments CacheOptions T : clear implicits.

End Cache.

(** ** src/imsApi.ts *)

Module ImsApi.
Import JS.

Record ChannelValue := {
  value : Q;
  status : string;
  valid : bool
}.

(** [datetime] is kept as the instant the string denotes. *)
Record DataReading := {
  datetime : Z;
  channels : list ChannelValue
}.

Module StationDataResponse.
Record t := {
  stationId : Z;
  channelId : Z;
  data : option (list DataReading)
}.
End StationDataResponse.

Module ChannelDataItem.
Record t := {
  channelId : Z;
  data : option StationDataResponse.t
}.
End ChannelDataItem.

Module Station.
Record t := {
  stationId : Z;
  name : string;
  latitude : Q;
  longitude : Q
}.
End Station.

(** The upstream call [getStationData(stationId, channelId, from, to)]:
    a station id ([None] is [NaN]), a channel id and two dates in, a
    response or a rejection out. *)
Definition Upstream := option Z -> Z -> Z -> Z -> result StationDataResponse.t.

Definition getStationDataMultiChannel (getStationData : Upstream)
    (stationId : option Z) (channelIds : list Z) (fromDate toDate : Z)
    : result (list ChannelDataItem.t) :=
  let dataPromises :=
    map (fun channelId =>
           Ok (try_catch
                 (bind (getStationData stationId channelId fromDate toDate)
                    (fun data =>
                       Ok (Some {| ChannelDataItem.channelId := channelId;
                                   ChannelDataItem.data := Some data |})))
                 (fun _ => None)))
        channelIds in
  bind (promise_all dataPromises)
    (fun results => Ok (omap (fun r => r) results)).

End ImsApi.

(** ** src/utils.ts *)

Module Utils.
Import JS ImsApi.

(** [from] and [to] are [YYYY-MM-DD] strings, kept as day numbers. *)
Record DateRange := {
  from : Z;
  to : Z
}.

Module HourlyForecast.
Record t := {
  time : string;
  temp : option string;
  humidity : option string;
  windSpeed : option string;
  windDir : option string;
  rain : option string
}.
End HourlyForecast.

Module DailyForecast.
Record t := {
  date : string;
  tempMin : option string;
  tempMax : option string;
  tempCurrent : option string;
  humidity : option string;
  windSpeed : option string;
  rain : option string
}.
End DailyForecast.

Module HourlyDataAccumulator.
Record t := {
  time : string;
  temp : list Q;
  humidity : list Q;
  windSpeed : list Q;
  windDir : list Q;
  rain : list Q
}.
End HourlyDataAccumulator.

Module DailyDataAccumulator.
Record t := {
  date : string;
  temps : list Q;
  lastTemp : option Q;
  lastTempTime : option Z;
  humidity : list Q;
  windSpeed : list Q;
  rain : list Q
}.
End DailyDataAccumulator.

(** [today]: midnight UTC of the current day, as a day number. *)
Definition todayOf (now : Z) : Z := now / msPerDay.

(** Looking backwards, for historical data. [setUTCDate(d - n)] on a
    copy of [today] moves it [n] days back. *)
Definition getDateRange (now : Z) (period : string) : DateRange :=
  let today := todayOf now in
  let startDate :=
    if String.eqb period "today" then today - 2
    else if String.eqb period "week" then today - 7
    else if String.eqb period "month" then today - 30
    else today - 2 in
  {| from := startDate; to := today |}.

(** Modelled from the spec: [getForecastDateRange], which the forecast
    route calls and [tests/unit/utils.test.js] exercises, is missing from
    the [utils.ts] at hand. The specification describes it as the
    forward-looking window with today as its start; the repository's
    tests fix the distance from start to end at 1, 6 and 29 days for
    [today], [week] and [month], and at 1 day for any other period, and
    [docs/XML_FEED_README.md] lists the function with these offsets. *)
Definition getForecastDateRange (now : Z) (period : string) : DateRange :=
  let today := todayOf now in
  let endDate :=
    if String.eqb period "today" then today + 1
    else if String.eqb period "week" then today + 6
    else if String.eqb period "month" then today + 29
    else today + 1 in
  {| from := today; to := endDate |}.

Section LocalTime.
(** The offset of the server's local time from UTC, in milliseconds,
    at a given instant. *)
Variable tz : Z -> Z.

Definition localTime (ms : Z) : Z := ms + tz ms.

Definition dayKey (ms : Z) : string :=
  string_of_Z (getUTCFullYear (localTime ms)) +:+ "-"
    +:+ padStart 2 (string_of_Z (getUTCMonth1 (localTime ms))) +:+ "-"
    +:+ padStart 2 (string_of_Z (getUTCDate (localTime ms))).

Definition hourKey (ms : Z) : string :=
  dayKey ms +:+ " " +:+ padStart 2 (string_of_Z (getUTCHours (localTime ms))) +:+ ":00".

(** *** aggregateHourly *)

Definition freshHour (key : string) : HourlyDataAccumulator.t :=
  {| HourlyDataAccumulator.time := key;
     HourlyDataAccumulator.temp := [];
     HourlyDataAccumulator.humidity := [];
     HourlyDataAccumulator.windSpeed := [];
     HourlyDataAccumulator.windDir := [];
     HourlyDataAccumulator.rain := [] |}.

(** The [switch (channel.channelId)] of the hourly pass. *)
Definition pushHourly (channelId : Z) (v : Q) (h : HourlyDataAccumulator.t)
    : HourlyDataAccumulator.t :=
  let '(HourlyDataAccumulator.Build_t time temp humidity windSpeed windDir rain) := h in
  if channelId =? 7 then
    HourlyDataAccumulator.Build_t time (temp ++ [v]) humidity windSpeed windDir rain
  else if channelId =? 8 then
    HourlyDataAccumulator.Build_t time temp (humidity ++ [v]) windSpeed windDir rain
  else if channelId =? 4 then
    HourlyDataAccumulator.Build_t time temp humidity (windSpeed ++ [v]) windDir rain
  else if channelId =? 5 then
    HourlyDataAccumulator.Build_t time temp humidity windSpeed (windDir ++ [v]) rain
  else if channelId =? 1 then
    HourlyDataAccumulator.Build_t time temp humidity windSpeed windDir (rain ++ [v])
  else h.

(** The body of the inner [forEach]. *)
Definition hourlyReading (channelId : Z) (hourlyData : Dict HourlyDataAccumulator.t)
    (reading : DataReading) : Dict HourlyDataAccumulator.t :=
  let key := hourKey (datetime reading) in
  let hourlyData := dictEnsure key (freshHour key) hourlyData in
  match channels reading with
  | first :: _ => dictUpdate key (pushHourly channelId (value first)) hourlyData
  | [] => hourlyData
  end.

(** The body of the outer [forEach]. *)
Definition hourlyChannel (hourlyData : Dict HourlyDataAccumulator.t)
    (channel : ChannelDataItem.t) : Dict HourlyDataAccumulator.t :=
  match ChannelDataItem.data channel with
  | Some response =>
      match StationDataResponse.data response with
      | Some readings =>
          fold_left (hourlyReading (ChannelDataItem.channelId channel)) readings hourlyData
      | None => hourlyData
      end
  | None => hourlyData
  end.

Definition ifAny (xs : list Q) (f : list Q -> string) : option string :=
  match xs with
  | [] => None
  | _ => Some (f xs)
  end.

Definition finishHour (hour : HourlyDataAccumulator.t) : HourlyForecast.t :=
  {| HourlyForecast.time := HourlyDataAccumulator.time hour;
     HourlyForecast.temp :=
       ifAny (HourlyDataAccumulator.temp hour) (fun xs => toFixed 1 (average xs));
     HourlyForecast.humidity :=
       ifAny (HourlyDataAccumulator.humidity hour) (fun xs => toFixed 0 (average xs));
     HourlyForecast.windSpeed :=
       ifAny (HourlyDataAccumulator.windSpeed hour) (fun xs => toFixed 1 (average xs));
     HourlyForecast.windDir :=
       ifAny (HourlyDataAccumulator.windDir hour) (fun xs => toFixed 0 (average xs));
     HourlyForecast.rain :=
       ifAny (HourlyDataAccumulator.rain hour) (fun xs => toFixed 1 (sum xs)) |}.

Definition aggregateHourly (channels : list ChannelDataItem.t) : list HourlyForecast.t :=
  let hourlyData := fold_left hourlyChannel channels [] in
  sortBy HourlyForecast.time (map finishHour (dictValues hourlyData)).

(** *** aggregateDaily *)

Definition freshDay (key : string) : DailyDataAccumulator.t :=
  {| DailyDataAccumulator.date := key;
     DailyDataAccumulator.temps := [];
     DailyDataAccumulator.lastTemp := None;
     DailyDataAccumulator.lastTempTime := None;
     DailyDataAccumulator.humidity := [];
     DailyDataAccumulator.windSpeed := [];
     DailyDataAccumulator.rain := [] |}.

(** [!lastTempTime || readingTime > lastTempTime] *)
Definition isLater (readingTime : Z) (lastTempTime : option Z) : bool :=
  match lastTempTime with
  | None => true
  | Some t => t <? readingTime
  end.

(** The [switch (channel.channelId)] of the daily pass. *)
Definition pushDaily (channelId : Z) (v : Q) (readingTime : Z) (d : DailyDataAccumulator.t)
    : DailyDataAccumulator.t :=
  let '(DailyDataAccumulator.Build_t date temps lastTemp lastTempTime
          humidity windSpeed rain) := d in
  if channelId =? 7 then
    if isLater readingTime lastTempTime then
      DailyDataAccumulator.Build_t date (temps ++ [v]) (Some v) (Some readingTime)
        humidity windSpeed rain
    else
      DailyDataAccumulator.Build_t date (temps ++ [v]) lastTemp lastTempTime
        humidity windSpeed rain
  else if channelId =? 8 then
    DailyDataAccumulator.Build_t date temps lastTemp lastTempTime
      (humidity ++ [v]) windSpeed rain
  else if channelId =? 4 then
    DailyDataAccumulator.Build_t date temps lastTemp lastTempTime
      humidity (windSpeed ++ [v]) rain
  else if channelId =? 1 then
    DailyDataAccumulator.Build_t date temps lastTemp lastTempTime
      humidity windSpeed (rain ++ [v])
  else d.

Definition dailyReading (channelId : Z) (dailyData : Dict DailyDataAccumulator.t)
    (reading : DataReading) : Dict DailyDataAccumulator.t :=
  let key := dayKey (datetime reading) in
  let dailyData := dictEnsure key (freshDay key) dailyData in
  match channels reading with
  | first :: _ =>
      dictUpdate key (pushDaily channelId (value first) (datetime reading)) dailyData
  | [] => dailyData
  end.

Definition dailyChannel (dailyData : Dict DailyDataAccumulator.t)
    (channel : ChannelDataItem.t) : Dict DailyDataAccumulator.t :=
  match ChannelDataItem.data channel with
  | Some response =>
      match StationDataResponse.data response with
      | Some readings =>
          fold_left (dailyReading (ChannelDataItem.channelId channel)) readings dailyData
      | None => dailyData
      end
  | None => dailyData
  end.

Definition finishDay (day : DailyDataAccumulator.t) : DailyForecast.t :=
  {| DailyForecast.date := DailyDataAccumulator.date day;
     DailyForecast.tempMin :=
       option_map (toFixed 1) (Math_min (DailyDataAccumulator.temps day));
     DailyForecast.tempMax :=
       option_map (toFixed 1) (Math_max (DailyDataAccumulator.temps day));
     DailyForecast.tempCurrent :=
       option_map (toFixed 1) (DailyDataAccumulator.lastTemp day);
     DailyForecast.humidity :=
       ifAny (DailyDataAccumulator.humidity day) (fun xs => toFixed 0 (average xs));
     DailyForecast.windSpeed :=
       ifAny (DailyDataAccumulator.windSpeed day) (fun xs => toFixed 1 (average xs));
     DailyForecast.rain :=
       ifAny (DailyDataAccumulator.rain day) (fun xs => toFixed 1 (sum xs)) |}.

Definition aggregateDaily (channels : list ChannelDataItem.t) : list DailyForecast.t :=
  let dailyData := fold_left dailyChannel channels [] in
  sortBy DailyForecast.date (map finishDay (dictValues dailyData)).

End LocalTime.

End Utils.

(** ** src/fallbackForecast.ts *)

Module FallbackForecast.
Import JS Utils.

(** What a forecast route hands out: hourly or daily points. *)
Inductive Forecast :=
| Hourly (points : list HourlyForecast.t)
| Daily (points : list DailyForecast.t).

Definition forecastLength (f : Forecast) : Z :=
  match f with
  | Hourly points => Z.of_nat (length points)
  | Daily points => Z.of_nat (length points)
  end.

Section Generator.
(** [Math.sin] and [Math.PI] of the runtime. *)
Variable Math_sin : Q -> Q.
Variable Math_PI : Q.

(** One turn of the daily [while] loop: the entry pushed and the
    generator state after its draws. *)
Definition dailyEntry (currentDate dayIndex : Z) (baseTemp : Q) (g : Rng)
    : DailyForecast.t * Rng :=
  let dateStr := isoDateOfMs currentDate in
  let tempVariation := (Math_sin (inject_Z dayIndex * (1 # 2)) * 3)%Q in
  let '(r1, g) := random g in
  let dailyVariation := (r1 * 2 - 1)%Q in
  let tempMin := toFixed 1 (baseTemp + tempVariation - 3 + dailyVariation)%Q in
  let tempMax := toFixed 1 (baseTemp + tempVariation + 5 + dailyVariation)%Q in
  let tempCurrent := toFixed 1 (baseTemp + tempVariation + dailyVariation)%Q in
  let '(r2, g) := random g in
  let humidity := toFixed 0 (60 + r2 * 20)%Q in
  let '(r3, g) := random g in
  let windSpeed := toFixed 1 (2 + r3 * 5)%Q in
  let '(r4, g) := random g in
  let '(rain, g) :=
    if Qle_bool (1 # 5) r4 then (None, g)
    else let '(r5, g) := random g in (Some (toFixed 1 (r5 * 5)%Q), g) in
  ({| DailyForecast.date := dateStr;
      DailyForecast.tempMin := Some tempMin;
      DailyForecast.tempMax := Some tempMax;
      DailyForecast.tempCurrent := Some tempCurrent;
      DailyForecast.humidity := Some humidity;
      DailyForecast.windSpeed := Some windSpeed;
      DailyForecast.rain := rain |}, g).

(** [while (currentDate <= to) { ...; currentDate.setUTCDate(+1); dayIndex++ }];
    [None] when the turns allowed run out before the loop ends. *)
Fixpoint dailyLoop (fuel : nat) (currentDate to dayIndex : Z) (baseTemp : Q) (g : Rng)
    (forecasts : list DailyForecast.t) : option (list DailyForecast.t * Rng) :=
  if currentDate <=? to then
    match fuel with
    | O => None
    | S fuel' =>
        let '(entry, g') := dailyEntry currentDate dayIndex baseTemp g in
        dailyLoop fuel' (currentDate + msPerDay) to (dayIndex + 1) baseTemp g'
          (forecasts ++ [entry])
    end
  else Some (forecasts, g).

Definition generateFallbackDailyForecast (fromDate toDate : Z) (baseTemp : Q) (g : Rng)
    : option (list DailyForecast.t * Rng) :=
  dailyLoop (Z.to_nat (toDate - fromDate + 1))
    (dateOfDay fromDate) (dateOfDay toDate) 0 baseTemp g [].

Definition hourlyEntry (currentHour : Z) (baseTemp : Q) (g : Rng)
    : HourlyForecast.t * Rng :=
  let timeStr :=
    string_of_Z (getUTCFullYear currentHour) +:+ "-"
      +:+ padStart 2 (string_of_Z (getUTCMonth1 currentHour)) +:+ "-"
      +:+ padStart 2 (string_of_Z (getUTCDate currentHour)) +:+ " "
      +:+ padStart 2 (string_of_Z (getUTCHours currentHour)) +:+ ":00" in
  let hourOfDay := getUTCHours currentHour in
  let dailyTempCurve :=
    (Math_sin (inject_Z (hourOfDay - 6) * Math_PI / 12) * 4)%Q in
  let '(r1, g) := random g in
  let temp := toFixed 1 (baseTemp + dailyTempCurve + r1 * 2 - 1)%Q in
  let '(r2, g) := random g in
  let humidity := toFixed 0 (70 - dailyTempCurve * 2 + r2 * 10)%Q in
  let '(r3, g) := random g in
  let windSpeed := toFixed 1 (3 + r3 * 4)%Q in
  let '(r4, g) := random g in
  let windDir := toFixed 0 (r4 * 360)%Q in
  let '(r5, g) := random g in
  let '(rain, g) :=
    if Qle_bool (1 # 10) r5 then (None, g)
    else let '(r6, g) := random g in (Some (toFixed 1 (r6 * 2)%Q), g) in
  ({| HourlyForecast.time := timeStr;
      HourlyForecast.temp := Some temp;
      HourlyForecast.humidity := Some humidity;
      HourlyForecast.windSpeed := Some windSpeed;
      HourlyForecast.windDir := Some windDir;
      HourlyForecast.rain := rain |}, g).

Fixpoint hourlyLoop (fuel : nat) (currentHour to : Z) (baseTemp : Q) (g : Rng)
    (forecasts : list HourlyForecast.t) : option (list HourlyForecast.t * Rng) :=
  if currentHour <=? to then
    match fuel with
    | O => None
    | S fuel' =>
        let '(entry, g') := hourlyEntry currentHour baseTemp g in
        hourlyLoop fuel' (currentHour + msPerHour) to baseTemp g' (forecasts ++ [entry])
    end
  else Some (forecasts, g).

(** From [fromDate + 'T00:00:00Z'] to [toDate + 'T23:59:59Z']. *)
Definition generateFallbackHourlyForecast (fromDate toDate : Z) (baseTemp : Q) (g : Rng)
    : option (list HourlyForecast.t * Rng) :=
  hourlyLoop (Z.to_nat ((toDate - fromDate + 1) * 24))
    (dateOfDay fromDate) (dateOfDay toDate + msPerDay - 1000) baseTemp g [].

Definition generateFallbackForecast (period : string) (fromDate toDate : Z)
    (baseTemp : Q) (g : Rng) : option (Forecast * Rng) :=
  if String.eqb period "today" then
    option_map (fun '(points, g') => (Hourly points, g'))
      (generateFallbackHourlyForecast fromDate toDate baseTemp g)
  else
    option_map (fun '(points, g') => (Daily points, g'))
      (generateFallbackDailyForecast fromDate toDate baseTemp g).

End Generator.

End FallbackForecast.

(** ** src/xmlParser.ts and src/forecastAdapter.ts *)

Module ForecastAdapter.
Import JS Utils FallbackForecast.

Record ParsedForecast := {
  title : string;
  description : string;
  pubDate : string
}.

Record ExtractedForecastData := {
  temp : option string;
  tempMin : option string;
  tempMax : option string;
  humidity : option string;
  windSpeed : option string;
  windDir : option string;
  rain : option string;
  forecastText : string;
  date : option string
}.

(** [a || b] on strings that may be undefined: an empty string is falsy. *)
Definition orElse (a : option string) (b : string) : string :=
  match a with
  | Some s => if String.eqb s "" then b else s
  | None => b
  end.

(** [s.split('T')[0]] *)
Fixpoint beforeT (s : string) : string :=
  match s with
  | EmptyString => EmptyString
  | String c rest => if Ascii.eqb c "T" then EmptyString else String c (beforeT rest)
  end.

Section Adapter.
(** The regular-expression heuristics of [extractForecastData], which
    read numbers out of the free text of a feed item. *)
Variable extractForecastData : ParsedForecast -> ExtractedForecastData.

Definition hourlyEntryAt (extracted : ExtractedForecastData) (now : Z) (i : nat)
    : HourlyForecast.t :=
  let hour := now + Z.of_nat i * 60 * 60 * 1000 in
  {| HourlyForecast.time :=
       isoDateOfMs hour +:+ " " +:+ padStart 2 (string_of_Z (getUTCHours hour)) +:+ ":00";
     HourlyForecast.temp := Some (orElse (temp extracted) "N/A");
     HourlyForecast.humidity := Some (orElse (humidity extracted) "N/A");
     HourlyForecast.windSpeed := Some (orElse (windSpeed extracted) "N/A");
     HourlyForecast.windDir := Some (orElse (windDir extracted) "N/A");
     HourlyForecast.rain := Some (orElse (rain extracted) "0.0") |}.

Definition convertToHourlyFormat (now : Z) (forecasts : list ParsedForecast)
    (period : option string) : list HourlyForecast.t :=
  match period, forecasts with
  | Some p, forecast :: _ =>
      if String.eqb p "today"
      then map (hourlyEntryAt (extractForecastData forecast) now) (seq 0 48)
      else []
  | _, _ => []
  end.

Definition convertToDailyFormat (now : Z) (forecasts : list ParsedForecast)
    : list DailyForecast.t :=
  map (fun forecast =>
         let extracted := extractForecastData forecast in
         let day :=
           orElse (date extracted)
             (orElse (Some (beforeT (pubDate forecast))) (isoDateOfMs now)) in
         {| DailyForecast.date := day;
            DailyForecast.tempMin :=
              Some (orElse (tempMin extracted) (orElse (temp extracted) "N/A"));
            DailyForecast.tempMax :=
              Some (orElse (tempMax extracted) (orElse (temp extracted) "N/A"));
            DailyForecast.tempCurrent := Some (orElse (temp extracted) "N/A");
            DailyForecast.humidity := Some (orElse (humidity extracted) "N/A");
            DailyForecast.windSpeed := Some (orElse (windSpeed extracted) "N/A");
            DailyForecast.rain := Some (orElse (rain extracted) "0.0") |})
      forecasts.

(** The JSON body of a forecast answer; [cityId] and [cityName] are
    present in the answer built here only. *)
Record ForecastBody := {
  source : string;
  stationId : string;
  cityId : option string;
  cityName : option string;
  period : option string;
  dateRange : DateRange;
  forecast : Forecast
}.

Definition formatForecastResponse (now : Z) (stationId cityId cityName : string)
    (period : option string) (dateRange : DateRange) (forecasts : list ParsedForecast)
    : ForecastBody :=
  {| source := "xml";
     stationId := stationId;
     cityId := Some cityId;
     cityName := Some cityName;
     period := period;
     dateRange := dateRange;
     forecast :=
       match period with
       | Some "today" => Hourly (convertToHourlyFormat now forecasts period)
       | _ => Daily (convertToDailyFormat now forecasts)
       end |}.

End Adapter.

End ForecastAdapter.

(** ** The server: the [/api/forecast] route *)

Module Server.
Import JS ImsApi Utils FallbackForecast ForecastAdapter.

(** What [findNearestCity] returns. *)
Record City := {
  id : string;
  name : string;
  distance : Q
}.

(** Everything the route obtains from outside its own code: the clock
    and time zone, the awaited station list (through the cache), the
    nearest-city search (floating-point trigonometry), the download
    directory and its parsed feed files, the upstream station service,
    the text heuristics of the adapter, and the runtime's [Math]. *)
Record Env := {
  now : Z;
  tz : Z -> Z;
  stationsLookup : result (option (list Station.t));
  findNearestCity : Q -> Q -> City;
  getMostRecentDownloadDir : option string;
  getCityForecast : string -> string -> result (list ParsedForecast);
  getStationData : Upstream;
  extractForecastData : ParsedForecast -> ExtractedForecastData;
  Math_sin : Q -> Q;
  Math_PI : Q;
  rng : Rng
}.

Inductive Response :=
| Json (body : ForecastBody)
| Status (code : Z) (error : string).

(** [period || 'today'] *)
Definition orToday (period : option string) : string := orElse period "today".

(** [period === 'today'] *)
Definition isToday (period : option string) : bool :=
  match period with
  | Some p => String.eqb p "today"
  | None => false
  end.

Definition channelIds : list Z := [1; 2; 3; 4; 5; 6; 7; 8; 9; 10].

(** The block guarded by [if (downloadDir)]: the feed items when the
    lookup succeeds with at least one item; a rejection is caught and,
    like an empty feed, falls through. *)
Definition tryXmlForecast (env : Env) (nearestCity : City) : option (list ParsedForecast) :=
  match getMostRecentDownloadDir env with
  | Some downloadDir =>
      if String.eqb downloadDir "" then None
      else
        try_catch
          (bind (getCityForecast env (id nearestCity) downloadDir)
             (fun cityForecasts =>
                Ok (match cityForecasts with
                    | [] => None
                    | _ => Some cityForecasts
                    end)))
          (fun _ => None)
  | None => None
  end.

(** Hourly aggregation for [today], daily aggregation otherwise. *)
Definition aggregateFor (env : Env) (period : option string)
    (channels : list ChannelDataItem.t) : Forecast :=
  if isToday period then Hourly (aggregateHourly (tz env) channels)
  else Daily (aggregateDaily (tz env) channels).

Definition expectedDays (dateRange : DateRange) : Z :=
  ceilDiv (dateOfDay (to dateRange) - dateOfDay (from dateRange)) (1000 * 60 * 60 * 24) + 1.

(** [period !== 'today' && forecast.length < Math.min(3, expectedDays)] *)
Definition insufficient (period : option string) (forecast : Forecast)
    (dateRange : DateRange) : bool :=
  negb (isToday period)
  && (forecastLength forecast <? Z.min 3 (expectedDays dateRange)).

(** The part of the route after the feed attempt: fetch the channels,
    aggregate, and replace the result by a generated one when it is too
    short. [None] stands for a generator loop that did not finish. *)
Definition stationForecast (env : Env) (stationId : string) (period : option string)
    (dateRange : DateRange) : result (option Forecast) :=
  bind (getStationDataMultiChannel (getStationData env) (parseInt stationId)
          channelIds (from dateRange) (to dateRange))
    (fun channels =>
       let forecast := aggregateFor env period channels in
       if insufficient period forecast dateRange then
         Ok (option_map fst
               (generateFallbackForecast (Math_sin env) (Math_PI env) (orToday period)
                  (from dateRange) (to dateRange) 20 (rng env)))
       else Ok (Some forecast)).

Definition findStation (stations : option (list Station.t)) (stationId : string)
    : option Station.t :=
  match stations, parseInt stationId with
  | Some l, Some n => List.find (fun s => Station.stationId s =? n) l
  | _, _ => None
  end.

(** [app.get('/api/forecast', ...)]; the outer [catch] answers 500. *)
Definition forecastRoute (env : Env) (stationId period : option string)
    : option Response :=
  match stationId with
  | None => Some (Status 400 "Station ID is required")
  | Some sid =>
      if String.eqb sid "" then Some (Status 400 "Station ID is required")
      else
        let dateRange := getForecastDateRange (now env) (orToday period) in
        match stationsLookup env with
        | Throw _ => Some (Status 500 "Failed to fetch forecast data")
        | Ok stations =>
            match findStation stations sid with
            | None => Some (Status 404 "Station not found")
            | Some station =>
                let nearestCity :=
                  findNearestCity env (Station.latitude station) (Station.longitude station) in
                match tryXmlForecast env nearestCity with
                | Some cityForecasts =>
                    Some (Json (formatForecastResponse (extractForecastData env) (now env)
                                  sid (id nearestCity) (name nearestCity)
                                  period dateRange cityForecasts))
                | None =>
                    match stationForecast env sid period dateRange with
                    | Throw _ => Some (Status 500 "Failed to fetch forecast data")
                    | Ok None => None
                    | Ok (Some forecast) =>
                        Some (Json {| source := "station";
                                      stationId := sid;
                                      cityId := None;
                                      cityName := None;
                                      period := period;
                                      dateRange := dateRange;
                                      forecast := forecast |})
                    end
                end
            end
        end
  end.

End Server.

(** ** Vocabulary of the statements about aggregation *)

Module Readings.
Import JS ImsApi Utils.

(** The readings of an input in the order the two nested [forEach]
    loops visit them, each with the channel id it arrives under. *)
Definition events (channels : list ChannelDataItem.t) : list (Z * DataReading) :=
  flat_map
    (fun channel =>
       match ChannelDataItem.data channel with
       | Some response =>
           match StationDataResponse.data response with
           | Some readings => map (pair (ChannelDataItem.channelId channel)) readings
           | None => []
           end
       | None => []
       end)
    channels.

(** The temperature readings (channel 7, with a first channel value)
    of one calendar day: instants and values, in visiting order. *)
Definition temperatureOfDay (tz : Z -> Z) (channels : list ChannelDataItem.t)
    (day : string) : list (Z * Q) :=
  flat_map
    (fun '(channelId, reading) =>
       if (channelId =? 7) && String.eqb (dayKey tz (datetime reading)) day then
         match ImsApi.channels reading with
         | first :: _ => [(datetime reading, value first)]
         | [] => []
         end
       else [])
    (events channels).

(** The same input with every validity flag recomputed by [g]. *)
Definition reflagValue (g : ChannelValue -> bool) (cv : ChannelValue) : ChannelValue :=
  {| value := value cv; status := status cv; valid := g cv |}.

Definition reflagReading (g : ChannelValue -> bool) (r : DataReading) : DataReading :=
  {| datetime := datetime r; channels := map (reflagValue g) (ImsApi.channels r) |}.

Definition reflagResponse (g : ChannelValue -> bool) (r : StationDataResponse.t)
    : StationDataResponse.t :=
  {| StationDataResponse.stationId := StationDataResponse.stationId r;
     StationDataResponse.channelId := StationDataResponse.channelId r;
     StationDataResponse.data := option_map (map (reflagReading g)) (StationDataResponse.data r) |}.

Definition reflag (g : ChannelValue -> bool) (channels : list ChannelDataItem.t)
    : list ChannelDataItem.t :=
  map (fun channel =>
         {| ChannelDataItem.channelId := ChannelDataItem.channelId channel;
            ChannelDataItem.data := option_map (reflagResponse g) (ChannelDataItem.data channel) |})
      channels.

(** *** The daily pass, one key at a time *)

Section PerDay.
Variable tz : Z -> Z.

Definition keyOf (ev : Z * DataReading) : string := dayKey tz (datetime (snd ev)).

(** What a visited reading does to the accumulator of its own day. *)
Definition applyReading (ev : Z * DataReading) (a : DailyDataAccumulator.t)
    : DailyDataAccumulator.t :=
  match ImsApi.channels (snd ev) with
  | first :: _ => pushDaily (fst ev) (value first) (datetime (snd ev)) a
  | [] => a
  end.

(** The accumulator of day [k] after the readings [evs]. *)
Definition accOf (k : string) (evs : list (Z * DataReading)) : DailyDataAccumulator.t :=
  fold_left (fun a ev => if String.eqb (keyOf ev) k then applyReading ev a else a)
    evs (freshDay k).

Definition temperatureEvent (k : string) (ev : Z * DataReading) : list (Z * Q) :=
  if (fst ev =? 7) && String.eqb (keyOf ev) k then
    match ImsApi.channels (snd ev) with
    | first :: _ => [(datetime (snd ev), value first)]
    | [] => []
    end
  else [].

(** The reading kept as "last": the first one, in visiting order,
    whose instant no other exceeds. *)
Definition later (best : option (Z * Q)) (r : Z * Q) : option (Z * Q) :=
  match best with
  | None => Some r
  | Some b => if fst b <? fst r then Some r else Some b
  end.

Definition latest (rs : list (Z * Q)) : option (Z * Q) := fold_left later rs None.

End PerDay.

End Readings.

(** ** Concrete worlds and requests used by the examples below *)

Module Fixtures.
Import JS Cache.

(** A freshly started process with an empty, usable cache directory. *)
Definition emptyWorld (now : Z) : World json :=
  {| memoryCache := ∅; files := ∅; disk_ok := true; clock := now; fetcherCalls := 0 |}.


Definition paramsA : CacheParams :=
  {| stationId := Some (IdString "1_2"); from := Some "3"; to := Some "4" |}.

Definition paramsB : CacheParams :=
  {| stationId := Some (IdString "1"); from := Some "2_3"; to := Some "4" |}.

Definition producing (v : json) : CacheOptions json :=
  {| fetcher := Some (Ok v); duration := None |}.

Definition failing (e : string) : CacheOptions json :=
  {| fetcher := Some (Throw e); duration := None |}.

Import ImsApi Utils.

(** 11 February 2026, and a server running on UTC. *)
Definition day0 : Z := 20495.
Definition utc : Z -> Z := fun _ => 0.

Definition readingAt (hour : Z) (v : Q) (ok : bool) : DataReading :=
  {| datetime := day0 * msPerDay + hour * msPerHour;
     channels := [{| value := v; status := "1"; valid := ok |}] |}.

Definition channelOf (channelId : Z) (readings : list DataReading) : ChannelDataItem.t :=
  {| ChannelDataItem.channelId := channelId;
     ChannelDataItem.data :=
       Some {| StationDataResponse.stationId := 178;
               StationDataResponse.channelId := channelId;
               StationDataResponse.data := Some readings |} |}.

(** Temperature at 08:00, 14:00 and 20:00 of one day. *)
Definition threeReadings : list ChannelDataItem.t :=
  [channelOf 7 [readingAt 8 14 true; readingAt 14 22 true; readingAt 20 18 true]].

(** A single temperature reading flagged invalid. *)
Definition invalidReading : list ChannelDataItem.t :=
  [channelOf 7 [readingAt 8 99 false]].

Import ForecastAdapter Server.

Definition station178 : Station.t :=
  {| Station.stationId := 178; Station.name := "TEL AVIV COAST";
     Station.latitude := 32058 # 1000; Station.longitude := 34759 # 1000 |}.

Definition telaviv : City :=
  {| id := "telaviv"; name := "Tel Aviv"; distance := 4 |}.

Definition noExtraction (f : ParsedForecast) : ExtractedForecastData :=
  {| temp := None; tempMin := None; tempMax := None; humidity := None;
     windSpeed := None; windDir := None; rain := None;
     forecastText := description f; date := None |}.

(** A server at midnight of 11 February 2026 that knows station 178,
    has no downloaded feed, and reaches the given upstream. *)
Definition envWith (upstream : Upstream) : Env :=
  {| now := day0 * msPerDay;
     tz := utc;
     stationsLookup := Ok (Some [station178]);
     findNearestCity := fun _ _ => telaviv;
     getMostRecentDownloadDir := None;
     getCityForecast := fun _ _ => Throw "ENOENT";
     getStationData := upstream;
     extractForecastData := noExtraction;
     Math_sin := fun _ => 0%Q;
     Math_PI := 355 # 113;
     rng := {| draws := fun _ => 1 # 2; position := 0 |} |}.

(** The upstream fails on every channel. *)
Definition upstreamDown : Upstream := fun _ _ _ _ => Throw "IMS API error: 503".

(** The upstream has one reading a day, for three days, on every channel. *)
Definition upstreamThreeDays : Upstream :=
  fun _ channelId _ _ =>
    Ok {| StationDataResponse.stationId := 178;
          StationDataResponse.channelId := channelId;
          StationDataResponse.data :=
            Some [ {| datetime := day0 * msPerDay;
                      channels := [{| value := 15; status := "1"; valid := true |}] |};
                   {| datetime := (day0 + 1) * msPerDay;
                      channels := [{| value := 16; status := "1"; valid := true |}] |};
                   {| datetime := (day0 + 2) * msPerDay;
                      channels := [{| value := 17; status := "1"; valid := true |}] |} ] |}.

(** The same server with a downloaded feed for the nearest city. *)
Definition envWithFeed : Env :=
  {| now := day0 * msPerDay;
     tz := utc;
     stationsLookup := Ok (Some [station178]);
     findNearestCity := fun _ _ => telaviv;
     getMostRecentDownloadDir := Some "xml-downloads/2026-02-11";
     getCityForecast := fun _ _ =>
       Ok [{| title := "Tel Aviv"; description := "Partly cloudy";
              pubDate := "2026-02-11T06:00:00Z" |}];
     getStationData := upstreamDown;
     extractForecastData := noExtraction;
     Math_sin := fun _ => 0%Q;
     Math_PI := 355 # 113;
     rng := {| draws := fun _ => 1 # 2; position := 0 |} |}.

End Fixtures.

(** ** Vocabulary of the statements about buckets *)

Module Buckets.
Import JS ImsApi Utils Readings.

Section Generic.
Context {E A : Type}.
Variable key : E -> string.
Variable apply : E -> A -> A.
Variable fresh : string -> A.

(** One visited item: make sure its bucket exists, then change it. *)
Definition foldStep (D : Dict A) (ev : E) : Dict A :=
  dictUpdate (key ev) (apply ev) (dictEnsure (key ev) (fresh (key ev)) D).

(** The bucket of key [k] after the items [evs]. *)
Definition bucketOf (k : string) (evs : list E) : A :=
  fold_left (fun a ev => if String.eqb (key ev) k then apply ev a else a) evs (fresh k).

End Generic.

(** The values read on one channel within one bucket, in visiting
    order; [key] tells the bucket of a reading. *)
Definition valuesIn (key : Z * DataReading -> string) (channelId : Z) (k : string)
    (evs : list (Z * DataReading)) : list Q :=
  flat_map
    (fun ev =>
       if (fst ev =? channelId) && String.eqb (key ev) k then
         match ImsApi.channels (snd ev) with
         | first :: _ => [value first]
         | [] => []
         end
       else [])
    evs.

Section Hourly.
Variable tz : Z -> Z.

Definition hourOf (ev : Z * DataReading) : string := hourKey tz (datetime (snd ev)).

Definition applyHourly (ev : Z * DataReading) (a : HourlyDataAccumulator.t)
    : HourlyDataAccumulator.t :=
  match ImsApi.channels (snd ev) with
  | first :: _ => pushHourly (fst ev) (value first) a
  | [] => a
  end.

End Hourly.

(** Keys in strictly ascending code-unit order, neighbour by neighbour. *)
Definition ascendingBy {A} (key : A -> string) (l : list A) : Prop :=
  Sorted (fun a b => String.ltb (key a) (key b) = true) l.

End Buckets.

(** ** Vocabulary of the statements about generated series *)

Module Stamps.
Import JS.

(** The text [YYYY-MM-DD HH:00] the hourly generator writes for an
    instant, from its UTC fields. *)
Definition hourStamp (ms : Z) : string :=
  string_of_Z (getUTCFullYear ms) +:+ "-"
    +:+ padStart 2 (string_of_Z (getUTCMonth1 ms)) +:+ "-"
    +:+ padStart 2 (string_of_Z (getUTCDate ms)) +:+ " "
    +:+ padStart 2 (string_of_Z (getUTCHours ms)) +:+ ":00".

(** The text the feed adapter writes for an instant:
    [toISOString().slice(0, 13)] with the [T] replaced by a blank. *)
Definition isoHourStamp (ms : Z) : string :=
  isoDateOfMs ms +:+ " " +:+ padStart 2 (string_of_Z (getUTCHours ms)) +:+ ":00".

End Stamps.

(** ** Numbers that may be infinite or not a number *)

Module Floats.
Import JS.

(** A JavaScript number where [Infinity] and [NaN] can occur. The
    distances compared here are never negative, so [-Infinity] is left
    out. *)
Inductive Num :=
| NaN
| Finite (q : Q)
| Infinity.

(** [a < b]: false as soon as one side is [NaN]. *)
Definition lt (a b : Num) : bool :=
  match a, b with
  | Finite x, Finite y => negb (Qle_bool y x)
  | Finite _, Infinity => true
  | _, _ => false
  end.

(** [x.toFixed(digits)] *)
Definition toFixedNum (digits : nat) (x : Num) : string :=
  match x with
  | Finite q => toFixed digits q
  | Infinity => "Infinity"
  | NaN => "NaN"
  end.

End Floats.

(** ** [cityStationMapping.ts] *)

Module CityStationMapping.
Import JS Floats.

(** [nameHebrew] is kept as the UTF-8 bytes of the source text. *)
Record City := {
  id : string;
  name : string;
  nameHebrew : string;
  latitude : Q;
  longitude : Q
}.

Definition CITIES : list City :=
  [ {| id := "jerusalem"; name := "Jerusalem"; nameHebrew := "ירושלים";
       latitude := 317683 # 10000; longitude := 352137 # 10000 |};
    {| id := "telaviv"; name := "Tel Aviv"; nameHebrew := "תל אביב";
       latitude := 320853 # 10000; longitude := 347818 # 10000 |};
    {| id := "haifa"; name := "Haifa"; nameHebrew := "חיפה";
       latitude := 327940 # 10000; longitude := 349896 # 10000 |};
    {| id := "beersheva"; name := "Beer Sheva"; nameHebrew := "באר שבע";
       latitude := 312518 # 10000; longitude := 347913 # 10000 |};
    {| id := "eilat"; name := "Eilat"; nameHebrew := "אילת";
       latitude := 295581 # 10000; longitude := 349482 # 10000 |};
    {| id := "tiberias"; name := "Tiberias"; nameHebrew := "טבריה";
       latitude := 327940 # 10000; longitude := 355308 # 10000 |};
    {| id := "nazareth"; name := "Nazareth"; nameHebrew := "נצרת";
       latitude := 327046 # 10000; longitude := 352978 # 10000 |};
    {| id := "afula"; name := "Afula"; nameHebrew := "עפולה";
       latitude := 326074 # 10000; longitude := 352897 # 10000 |};
    {| id := "beitdagan"; name := "Beit Dagan"; nameHebrew := "בית דגן";
       latitude := 320025 # 10000; longitude := 348213 # 10000 |};
    {| id := "zefat"; name := "Zefat"; nameHebrew := "צפת";
       latitude := 329658 # 10000; longitude := 354983 # 10000 |};
    {| id := "lod"; name := "Lod"; nameHebrew := "לוד";
       latitude := 319510 # 10000; longitude := 348880 # 10000 |};
    {| id := "dimona"; name := "Dimona"; nameHebrew := "דימונה";
       latitude := 310686 # 10000; longitude := 350333 # 10000 |};
    {| id := "yotvata"; name := "Yotvata"; nameHebrew := "יטבתה";
       latitude := 299000 # 10000; longitude := 350667 # 10000 |};
    {| id := "deadsea"; name := "Dead Sea"; nameHebrew := "ים המלח";
       latitude := 313547 # 10000; longitude := 354736 # 10000 |};
    {| id := "mitzperamon"; name := "Mitzpe Ramon"; nameHebrew := "מצפה רמון";
       latitude := 306095 # 10000; longitude := 348016 # 10000 |} ].

Section Search.
(** The haversine formula of [calculateDistance], in floating point;
    its first two arguments are the caller's coordinates. *)
Variable calculateDistance : Num -> Num -> Q -> Q -> Num.

(** One turn of the [for ... of CITIES] loop on the pair
    [(nearestCity, minDistance)]. *)
Definition visitCity (latitude' longitude' : Num) (acc : option City * Num) (city : City)
    : option City * Num :=
  let distance := calculateDistance latitude' longitude' (latitude city) (longitude city) in
  if lt distance (snd acc) then (Some city, distance) else acc.

(** The city returned and its [distance]; [CITIES[1]] when the loop
    chose none. *)
Definition findNearestCity (latitude' longitude' : Num) : option City * Num :=
  let '(nearestCity, minDistance) :=
    fold_left (visitCity latitude' longitude') CITIES (None, Infinity) in
  (match nearestCity with
   | Some city => Some city
   | None => nth_error CITIES 1
   end, minDistance).

End Search.

(** [CITIES.find(city => city.id === cityId)] *)
Definition getCityById (cityId : string) : option City :=
  List.find (fun city => String.eqb (id city) cityId) CITIES.

Definition getAllCities : list City := CITIES.

End CityStationMapping.

(** ** [xmlDownloader.ts]: the most recent download *)

Module XmlDownloader.
Import JS.

Definition isDigit (c : ascii) : bool :=
  (48 <=? nat_of_ascii c)%nat && (nat_of_ascii c <=? 57)%nat.

Definition isDash (c : ascii) : bool := Ascii.eqb c "-".

(** [/^\d{4}-\d{2}-\d{2}$/.test(name)] *)
Definition isDateName (name : string) : bool :=
  match list_ascii_of_string name with
  | [y1; y2; y3; y4; s1; m1; m2; s2; d1; d2] =>
      isDigit y1 && isDigit y2 && isDigit y3 && isDigit y4 && isDash s1
      && isDigit m1 && isDigit m2 && isDash s2 && isDigit d1 && isDigit d2
  | _ => false
  end.

(** [/^\d{2}-\d{2}-\d{2}$/.test(name)] *)
Definition isTimeName (name : string) : bool :=
  match list_ascii_of_string name with
  | [h1; h2; s1; m1; m2; s2; c1; c2] =>
      isDigit h1 && isDigit h2 && isDash s1 && isDigit m1 && isDigit m2
      && isDash s2 && isDigit c1 && isDigit c2
  | _ => false
  end.

(** What the function sees of the [data] directory: [None] when it
    does not exist, otherwise what lies in it by name, and for each name
    the names inside it ([None] for a plain file, on which
    [readdirSync] throws). *)
Definition DataDir := option (gmap string (option (list string))).

(** [names.filter(test).sort().reverse()]: the default sort compares
    code units, which on the filtered names are bytes. *)
Definition newestFirst (test : string -> bool) (names : list string) : list string :=
  rev (sortBy (fun name => name) (List.filter test names)).

(** [dataPath] is [path.join(process.cwd(), 'data')]. *)
Definition getMostRecentDownloadDir (dataPath : string) (dataDir : DataDir)
    : result (option string) :=
  match dataDir with
  | None => Ok None
  | Some entries =>
      match newestFirst isDateName (map fst (map_to_list entries)) with
      | [] => Ok None
      | latest :: _ =>
          let latestDateDir := dataPath +:+ "/" +:+ latest in
          match entries !! latest with
          | Some (Some inside) =>
              match newestFirst isTimeName inside with
              | [] => Ok None
              | time :: _ => Ok (Some (latestDateDir +:+ "/" +:+ time))
              end
          | _ => Throw ("ENOTDIR: not a directory, scandir '" +:+ latestDateDir +:+ "'")
          end
      end
  end.

End XmlDownloader.

(** ** [xmlDataManager.ts] *)

Module XmlDataManager.
Import JS Floats.

Record DataStatus := {
  exists' : bool;
  directory : option string;
  age : option Q;
  isStale : bool;
  lastUpdate : option Z;
  staleSinceHours : Num
}.

(** What [metadata.json] of the download directory gives: it is not
    there, reading or parsing it throws, or it is read, with the time
    value of its [timestamp] ([None] when that is [NaN]). *)
Inductive Metadata :=
| NoMetadata
| Unreadable
| Timestamp (getTime : option Z).

Definition STALE_THRESHOLD_HOURS : Q := 6.

(** The status returned on the three paths where the age is not known. *)
Definition ageUnknown (downloadDir : string) : DataStatus :=
  {| exists' := true; directory := Some downloadDir; age := None; isStale := true;
     lastUpdate := None; staleSinceHours := Infinity |}.

Definition getDataStatus (now : Z) (downloadDir : option string) (metadata : Metadata)
    : DataStatus :=
  match downloadDir with
  | Some dir =>
      if String.eqb dir "" then
        {| exists' := false; directory := None; age := None; isStale := true;
           lastUpdate := None; staleSinceHours := Infinity |}
      else
        match metadata with
        | NoMetadata => ageUnknown dir
        | Unreadable => ageUnknown dir
        | Timestamp None => ageUnknown dir
        | Timestamp (Some lastUpdate') =>
            let ageMs := now - lastUpdate' in
            let ageHours := (inject_Z ageMs / inject_Z (1000 * 60 * 60))%Q in
            let stale := negb (Qle_bool ageHours STALE_THRESHOLD_HOURS) in
            {| exists' := true; directory := Some dir; age := Some ageHours;
               isStale := stale; lastUpdate := Some lastUpdate';
               staleSinceHours :=
                 Finite (if stale then ageHours - STALE_THRESHOLD_HOURS else 0)%Q |}
        end
  | None =>
      {| exists' := false; directory := None; age := None; isStale := true;
         lastUpdate := None; staleSinceHours := Infinity |}
  end.




(** [!status.age]: null, or zero. *)
Definition noAge (status : DataStatus) : bool :=
  match age status with
  | Some a => Qeq_bool a 0
  | None => true
  end.

Definition getStatusMessage (status : DataStatus) : string :=
  if negb (exists' status) then "No XML data available"
  else if noAge status then "XML data status unknown"
  else
    match age status with
    | Some a =>
        if isStale status then "XML data is stale (" +:+ toFixed 1 a +:+ "h old)"
        else "XML data is fresh (" +:+ toFixed 1 a +:+ "h old)"
    | None => "XML data status unknown"
    end.

Definition needsUrgentRefresh (status : DataStatus) : bool :=
  negb (exists' status)
  || match age status with
     | Some a => negb (Qle_bool a 12)
     | None => false
     end.

(** The [recommendation] of [/api/admin/data-status]. *)
Definition recommendation (status : DataStatus) : string :=
  if needsUrgentRefresh status then "Data is very stale, refresh recommended"
  else if isStale status then "Data is stale, refresh suggested"
  else "Data is fresh, no action needed".

End XmlDataManager.

(** ** The server: the other routes *)

Module ServerRoutes.
Import JS Cache ImsApi Utils Floats.

(** The server's own [StationDataResponse], before [period] is added. *)
Module StationData.
Record t := {
  stationId : string;
  dateRange : DateRange;
  channels : list ChannelDataItem.t
}.
End StationData.

(** What a forecast slot of the cache holds for this route. *)
Definition Cached := option StationData.t.

#[export] Instance cached_value : Value Cached :=
  {| null := None;
     truthy := fun v => match v with Some _ => true | None => false end;
     truthy_null := eq_refl |}.

Inductive StationDataAnswer :=
| StationDataJson (responseData : Cached) (period : string)
| StationDataStatus (code : Z) (error : string).

Section StationData.
Variable getStationData : Upstream.

(** The [fetcher] of the route, by its outcome. *)
Definition fetchStationData (stationId : string) (dateRange : DateRange) : result Cached :=
  bind (getStationDataMultiChannel getStationData (parseInt stationId) Server.channelIds
          (from dateRange) (to dateRange))
    (fun weatherData =>
       @Ok Cached (Some {| StationData.stationId := stationId;
                           StationData.dateRange := dateRange;
                           StationData.channels := weatherData |})).

Definition cacheParamsOf (stationId : string) (dateRange : DateRange) : CacheParams :=
  {| Cache.stationId := Some (IdString stationId);
     Cache.from := Some (isoDate (from dateRange));
     Cache.to := Some (isoDate (to dateRange)) |}.

(** [app.get('/api/station-data', ...)] *)
Definition stationDataRoute (stationId period : option string) (w : World Cached)
    : StationDataAnswer * World Cached :=
  match stationId with
  | None => (StationDataStatus 400 "Station ID is required", w)
  | Some sid =>
      if String.eqb sid "" then (StationDataStatus 400 "Station ID is required", w)
      else
        let dateRange := getDateRange (clock w) (Server.orToday period) in
        let '(responseData, w') :=
          Cache.get forecast (cacheParamsOf sid dateRange)
            {| fetcher := Some (fetchStationData sid dateRange); duration := None |} w in
        match responseData with
        | Ok data => (StationDataJson data (Server.orToday period), w')
        | Throw _ => (StationDataStatus 500 "Failed to fetch station data", w')
        end
  end.

End StationData.

Inductive NearestAnswer :=
| NearestJson (station : Station.t) (distance : string)
| NearestStatus (code : Z) (error : string).

Section Nearest.
Variable parseFloat : string -> Num.
(** [utils.calculateDistance], the haversine formula in floating point. *)
Variable calculateDistance : Num -> Num -> Q -> Q -> Num.

(** [station.location && station.location.latitude &&
    station.location.longitude]: a coordinate that is zero is falsy. *)
Definition located (station : Station.t) : bool :=
  negb (Qeq_bool (Station.latitude station) 0)
  && negb (Qeq_bool (Station.longitude station) 0).

(** One turn of [stations.forEach] on the pair
    [(nearestStation, minDistance)]. *)
Definition visitStation (userLat userLon : Num) (acc : option Station.t * Num)
    (station : Station.t) : option Station.t * Num :=
  if located station then
    let distance :=
      calculateDistance userLat userLon (Station.latitude station)
        (Station.longitude station) in
    if lt distance (snd acc) then (Some station, distance) else acc
  else acc.

(** [!lat]: missing, or empty. *)
Definition missing (param : option string) : bool :=
  match param with
  | Some text => String.eqb text ""
  | None => true
  end.

(** [app.get('/api/nearest-station', ...)]; [stationsLookup] is the
    awaited [cache.get] of the station list. *)
Definition nearestStationRoute (lat lon : option string)
    (stationsLookup : result (option (list Station.t))) : NearestAnswer :=
  match lat, lon with
  | Some lat', Some lon' =>
      if missing lat || missing lon
      then NearestStatus 400 "Latitude and longitude are required"
      else
        let userLat := parseFloat lat' in
        let userLon := parseFloat lon' in
        match stationsLookup with
        | Throw _ => NearestStatus 500 "Failed to find nearest station"
        | Ok None => NearestStatus 500 "Failed to fetch stations"
        | Ok (Some stationList) =>
            match fold_left (visitStation userLat userLon) stationList (None, Infinity) with
            | (None, _) => NearestStatus 404 "No stations found"
            | (Some nearestStation, minDistance) =>
                NearestJson nearestStation (toFixedNum 2 minDistance)
            end
        end
  | _, _ => NearestStatus 400 "Latitude and longitude are required"
  end.

End Nearest.

Inductive CityForecastAnswer :=
| CityForecastJson (city : CityStationMapping.City)
    (forecasts : list ForecastAdapter.ParsedForecast) (downloadDir : string)
| CityForecastStatus (code : Z) (error : string).

(** [app.get('/api/city-forecast', ...)] *)
Definition cityForecastRoute (city : option string) (getMostRecentDownloadDir : option string)
    (getCityForecast : string -> string -> result (list ForecastAdapter.ParsedForecast))
    : CityForecastAnswer :=
  match city with
  | Some cityId =>
      if String.eqb cityId "" then CityForecastStatus 400 "City ID is required"
      else
        match CityStationMapping.getCityById cityId with
        | None => CityForecastStatus 404 "City not found"
        | Some cityInfo =>
            match getMostRecentDownloadDir with
            | Some downloadDir =>
                if String.eqb downloadDir "" then
                  CityForecastStatus 503 "No XML data available. Run: npm run download-xml"
                else
                  match getCityForecast cityId downloadDir with
                  | Ok forecasts => CityForecastJson cityInfo forecasts downloadDir
                  | Throw _ => CityForecastStatus 500 "Failed to fetch city forecast"
                  end
            | None => CityForecastStatus 503 "No XML data available. Run: npm run download-xml"
            end
        end
  | None => CityForecastStatus 400 "City ID is required"
  end.

End ServerRoutes.

(** ** [xmlParser.ts]: the alert feeds *)

Module XmlParser.
Import JS.

Record ParsedAlert := {
  title : string;
  description : string;
  pubDate : string;
  link : option string;
  severity : option string;
  regions : list string
}.

Definition alertFiles : list string :=
  [ "alerts_country_all.xml";
    "alerts_country_visibility.xml";
    "alerts_country_sea.xml";
    "alerts_north_flood.xml";
    "alerts_north_storm.xml";
    "alerts_north_fire.xml";
    "alerts_center_flood.xml";
    "alerts_center_storm.xml";
    "alerts_center_fire.xml";
    "alerts_south_flood.xml";
    "alerts_south_storm.xml";
    "alerts_south_fire.xml" ].

Section Alerts.
Variable existsSync : string -> bool.
(** [fs.readFileSync(filepath, 'utf8')] followed by [parseAlertFeed]. *)
Variable readAlertFeed : string -> result (list ParsedAlert).
(** [s.trim()] *)
Variable trim : string -> string.

(** One turn of the loop over [alertFiles], on [allAlerts]. *)
Definition visitAlertFile (downloadDir : string) (allAlerts : list ParsedAlert)
    (filename : string) : list ParsedAlert :=
  let filepath := downloadDir +:+ "/" +:+ filename in
  if existsSync filepath then
    try_catch
      (bind (readAlertFeed filepath)
         (fun alerts =>
            Ok (match alerts with
                | first :: _ =>
                    if negb (String.eqb (trim (description first)) "")
                    then allAlerts ++ alerts
                    else allAlerts
                | [] => allAlerts
                end)))
      (fun _ => allAlerts)
  else allAlerts.

Definition getAllAlerts (downloadDir : string) : list ParsedAlert :=
  fold_left (visitAlertFile downloadDir) alertFiles [].

End Alerts.

End XmlParser.

(** ** Further worlds for the examples *)

Module MoreFixtures.
Import JS Cache.

(** A restarted process: nothing in memory, a station list written to
    the cache directory at time 0. *)
Definition restartedWorld (now : Z) : World json :=
  {| memoryCache := ∅;
     files := {[ "stations_list" := {| data := JArr [JNum 178]; timestamp := 0 |} ]};
     disk_ok := true; clock := now; fetcherCalls := 0 |}.

(** A process whose cache directory cannot be read or written. *)
Definition disklessWorld (now : Z) : World json :=
  {| memoryCache := ∅; files := ∅; disk_ok := false; clock := now; fetcherCalls := 0 |}.

Import ImsApi Utils Fixtures.


(** A [data] directory whose newest date directory holds no download,
    next to an older one that holds two. *)
Definition sampleData : gmap string (option (list string)) :=
  {[ "2026-02-10" := Some ["06-00-00"; "18-00-00"];
     "2026-02-11" := Some ["notes"];
     "README.md" := None ]}.

(** A [data] directory with two downloads on one day. *)
Definition olderData : gmap string (option (list string)) :=
  {[ "2026-02-10" := Some ["06-00-00"; "18-00-00"];
     "README.md" := None ]}.

(** A freshly started server with an empty cache, for the
    station-data route. *)
Definition coldStart (now : Z) : Cache.World ServerRoutes.Cached :=
  {| Cache.memoryCache := ∅; Cache.files := ∅; Cache.disk_ok := true;
     Cache.clock := now; Cache.fetcherCalls := 0 |}.

End MoreFixtures.

(** * Properties *)

(** ** The two-level cache *)

Module CacheFacts.
Import JS Cache.

Section Generic.
Context {T : Type} `{Value T}.
Implicit Types (w : World T) (v : T) (key : string).


Lemma isExpired_spec now ts d : isExpired now ts d = false <-> now - ts <= d.
Proof. unfold isExpired. rewrite Z.ltb_ge. reflexivity. Qed.

Lemma isExpired_true now ts d : isExpired now ts d = true <-> d < now - ts.
Proof. unfold isExpired. apply Z.ltb_lt. Qed.



(** A lookup that finds the key in neither tier calls the producer. *)
Lemma get_cold_miss type params options key produced w :
  getCacheKey type params = Some key ->
  memoryCache w !! key = None ->
  files w !! key = None ->
  fetcher options = Some produced ->
  get type params options w =
    match produced with
    | Ok v => (Ok v, setInFile key v (setInMemory key v (countFetch w)))
    | Throw e => (Throw e, countFetch w)
    end.
Proof.
  intros Hk Hm Hf Hp. unfold get. rewrite Hk.
  unfold getFromMemory. rewrite Hm, truthy_null.
  unfold getFromFile. rewrite Hf.
  destruct (disk_ok w); rewrite truthy_null, Hp; reflexivity.
Qed.




(** A valid truthy entry of the memory table is served as it is,
    whatever producer comes with the call. *)
Lemma get_memory_hit type params options key entry w :
  getCacheKey type params = Some key ->
  memoryCache w !! key = Some entry ->
  isExpired (clock w) (timestamp entry) (effectiveDuration type options) = false ->
  truthy (data entry) = true ->
  get type params options w = (Ok (data entry), w).
Proof.
  intros Hk Hm Hexp Hv. unfold get. rewrite Hk.
  unfold getFromMemory. rewrite Hm, Hexp, Hv. reflexivity.
Qed.

(** Whenever [get] calls a producer that returns [v], the world it
    leaves is the world after the two lookups with [v] written to both
    tiers. *)
Lemma get_invokes_producer type params options key v w :
  getCacheKey type params = Some key ->
  fetcher options = Some (Ok v) ->
  fetcherCalls (snd (get type params options w)) <> fetcherCalls w ->
  exists w2,
    get type params options w
      = (Ok v, setInFile key v (setInMemory key v (countFetch w2))) /\
    disk_ok w2 = disk_ok w /\ clock w2 = clock w /\ fetcherCalls w2 = fetcherCalls w.
Proof.
  intros Hk Hp. unfold get. rewrite Hk, Hp.
  set (d := effectiveDuration type options).
  destruct (getFromMemory key d w) as [memoryData w1] eqn:Hmem.
  assert (Hw1 : disk_ok w1 = disk_ok w /\ clock w1 = clock w
                /\ fetcherCalls w1 = fetcherCalls w).
  { unfold getFromMemory in Hmem. destruct (memoryCache w !! key) as [em|];
      [destruct (isExpired _ _ _)|]; injection Hmem as _ <-;
      simpl; repeat split; reflexivity. }
  destruct (truthy memoryData); [simpl; destruct Hw1 as (_ & _ & ->); congruence|].
  destruct (getFromFile key d w1) as [fileData w2] eqn:Hfile.
  assert (Hw2 : disk_ok w2 = disk_ok w1 /\ clock w2 = clock w1
                /\ fetcherCalls w2 = fetcherCalls w1).
  { unfold getFromFile in Hfile. destruct (disk_ok w1) eqn:Hdisk;
      [destruct (files w1 !! key) as [ef|]; [destruct (isExpired _ _ _)|]|];
      injection Hfile as _ <-; simpl; repeat split; auto. }
  destruct Hw1 as (Hd1 & Hc1 & Hn1). destruct Hw2 as (Hd2 & Hc2 & Hn2).
  destruct (truthy fileData); [simpl; congruence|].
  intros _. exists w2. split; [reflexivity|].
  repeat split; congruence.
Qed.

(** C4 (amended). What a producer returns when [get] calls it is
    written to the memory table and to the cache directory, [null] and
    empty results included. A later [get] inside the expiry window serves
    it without calling the producer when it is truthy (an empty array or
    object is); a stored [null] or other falsy result is not served: the
    producer of the later call runs again and its outcome is returned. *)
Theorem producer_result_cached type params options key v w :
  getCacheKey type params = Some key ->
  fetcher options = Some (Ok v) ->
  disk_ok w = true ->
  let w1 := snd (get type params options w) in
  fetcherCalls w1 <> fetcherCalls w ->
  fst (get type params options w) = Ok v /\
  fetcherCalls w1 = S (fetcherCalls w) /\
  memoryCache w1 !! key = Some {| data := v; timestamp := clock w |} /\
  files w1 !! key = Some {| data := v; timestamp := clock w |} /\
  forall dt options', 0 <= dt <= effectiveDuration type options' ->
    let later := get type params options' (advance dt w1) in
    if truthy v
    then fst later = Ok v /\ fetcherCalls (snd later) = fetcherCalls w1
    else match fetcher options' with
         | Some produced' =>
             fst later = produced' /\ fetcherCalls (snd later) = S (fetcherCalls w1)
         | None =>
             fst later = Ok null /\ fetcherCalls (snd later) = fetcherCalls w1
         end.
Proof.
  intros Hk Hp Hd w1 Hcalled. subst w1.
  destruct (get_invokes_producer type params options key v w Hk Hp Hcalled)
    as (w2 & Hget & Hd2 & Hc2 & Hn2).
  rewrite Hd in Hd2. rewrite Hget. clear Hget Hcalled.
  unfold setInFile, setInMemory, countFetch. simpl. rewrite Hd2, Hc2, Hn2. simpl.
  repeat split; try apply lookup_insert_eq.
  intros dt options' [Hdt Hdur].
  set (e := {| data := v; timestamp := clock w |}).
  set (wl := advance dt _).
  assert (Hml : memoryCache wl !! key = Some e) by apply lookup_insert_eq.
  assert (Hfl : files wl !! key = Some e) by apply lookup_insert_eq.
  assert (Hexp : isExpired (clock wl) (timestamp e) (effectiveDuration type options') = false).
  { apply isExpired_spec. simpl. lia. }
  assert (Hdl : disk_ok wl = true) by reflexivity.
  assert (Hcl : fetcherCalls wl = S (fetcherCalls w)) by reflexivity.
  clearbody wl. rewrite <- Hcl.
  destruct (truthy v) eqn:Hv.
  - rewrite (get_memory_hit type params options' key e wl) by assumption.
    split; reflexivity.
  - unfold get. rewrite Hk. unfold getFromMemory. rewrite Hml, Hexp.
    cbn [data e]. rewrite Hv. unfold getFromFile. rewrite Hdl, Hfl, Hexp.
    cbn [data e]. rewrite Hv.
    destruct (fetcher options') as [[v'|err]|]; simpl; split; try reflexivity.
    unfold setInFile. simpl. rewrite Hdl. reflexivity.
Qed.


End Generic.

Import Fixtures.



(** C4, as stated, fails for [null]: the entry is written to both
    tiers, yet the next [get], one second later, calls its producer
    again and returns that producer's result. *)
Lemma null_result_refetched_counterexample :
  let first := get stations noParams (producing JNull) (emptyWorld 1000) in
  let second := get stations noParams (producing (JStr "fresh")) (advance 1000 (snd first)) in
  fst first = Ok JNull /\
  memoryCache (snd first) !! "stations_list" = Some {| data := JNull; timestamp := 1000 |} /\
  files (snd first) !! "stations_list" = Some {| data := JNull; timestamp := 1000 |} /\
  fetcherCalls (snd first) = 1%nat /\
  fst second = Ok (JStr "fresh") /\
  fetcherCalls (snd second) = 2%nat.
Proof. vm_compute. repeat split; reflexivity. Qed.

Lemma producer_result_cached_witness :
  let first := get stations noParams (producing (JArr [])) (emptyWorld 1000) in
  let second := get stations noParams (producing (JStr "fresh")) (advance 1000 (snd first)) in
  fst first = Ok (JArr []) /\
  fst second = Ok (JArr []) /\
  fetcherCalls (snd second) = 1%nat.
Proof.
  assert (Hcalled : fetcherCalls (snd (get stations noParams (producing (JArr []))
                                         (emptyWorld 1000)))
                    <> fetcherCalls (emptyWorld 1000))
    by (vm_compute; intros Heq; discriminate Heq).
  pose proof (producer_result_cached stations noParams (producing (JArr []))
                "stations_list" (JArr []) (emptyWorld 1000)
                eq_refl eq_refl eq_refl Hcalled) as (Hr & Hc & _ & _ & Hlater).
  assert (Hwin : 0 <= 1000 <= effectiveDuration stations (producing (JStr "fresh")))
    by (split; [lia | vm_compute; discriminate]).
  specialize (Hlater 1000 (producing (JStr "fresh")) Hwin).
  simpl in Hlater. destruct Hlater as [Hl1 Hl2].
  split; [exact Hr|]. split; [exact Hl1|]. rewrite Hl2. exact Hc.
Defined.



(** C10. Key derivation for the forecast type is not injective: two
    different parameter sets give the key [forecast_1_2_3_4], so a value
    stored for one is read back for the other and a write for the other
    replaces it, in the memory table and (when the directory is usable)
    on disk. *)
Theorem getCacheKey_forecast_not_injective :
  paramsA <> paramsB /\
  getCacheKey forecast paramsA = Some "forecast_1_2_3_4" /\
  getCacheKey forecast paramsB = Some "forecast_1_2_3_4" /\
  forall (T : Type) (HT : Value T) (w : World T) (a b : T),
    let w1 := set forecast a paramsA w in
    let w2 := set forecast b paramsB w1 in
    memoryCache w1 !! "forecast_1_2_3_4" = Some {| data := a; timestamp := clock w |} /\
    fst (get forecast paramsB noOptions w1) = Ok (if truthy a then a else null) /\
    memoryCache w2 !! "forecast_1_2_3_4" = Some {| data := b; timestamp := clock w |} /\
    files w2 !! "forecast_1_2_3_4" =
      (if disk_ok w then Some {| data := b; timestamp := clock w |}
       else files w !! "forecast_1_2_3_4").
Proof.
  split; [discriminate|]. split; [reflexivity|]. split; [reflexivity|].
  intros T HT w a b w1 w2. subst w1 w2.
  unfold set. change (getCacheKey forecast paramsA) with (Some "forecast_1_2_3_4"%string).
  change (getCacheKey forecast paramsB) with (Some "forecast_1_2_3_4"%string).
  set (key := "forecast_1_2_3_4"%string).
  unfold get. change (getCacheKey forecast paramsB) with (Some key).
  unfold setInFile, setInMemory, getFromMemory, getFromFile, isExpired.
  destruct (disk_ok w) eqn:Hd; simpl; rewrite ?Hd; simpl;
    rewrite ?lookup_insert_eq; simpl;
    replace (clock w - clock w) with 0 by lia; simpl;
    destruct (truthy a) eqn:Ha; simpl; rewrite ?Hd; simpl;
    rewrite ?lookup_insert_eq; simpl;
    replace (clock w - clock w) with 0 by lia; simpl;
    rewrite ?Ha, ?truthy_null; simpl;
    repeat split; try reflexivity.
Qed.

End CacheFacts.

(** ** Aggregation *)

Module AggregationFacts.
Import JS ImsApi Utils Readings.

Lemma fold_left_map_arg {A B C} (f : A -> B -> A) (h : C -> B) (l : list C) (a : A) :
  fold_left f (map h l) a = fold_left (fun acc x => f acc (h x)) l a.
Proof. revert a. induction l as [|x l IH]; intros a; simpl; [reflexivity|apply IH]. Qed.

Lemma fold_left_ext_in {A B} (f g : A -> B -> A) (l : list B) (a : A) :
  (forall acc x, In x l -> f acc x = g acc x) -> fold_left f l a = fold_left g l a.
Proof.
  revert a. induction l as [|x l IH]; intros a Hfg; simpl; [reflexivity|].
  rewrite Hfg by (left; reflexivity). apply IH. intros acc y Hy. apply Hfg. right. exact Hy.
Qed.

(** *** Sorting keeps the elements *)

Lemma In_insertBy {A} (key : A -> string) (x y : A) (l : list A) :
  In y (insertBy key x l) <-> y = x \/ In y l.
Proof.
  induction l as [|z l IH]; simpl.
  - intuition.
  - destruct (String.leb (key z) (key x)); simpl; rewrite ?IH; intuition.
Qed.

Lemma In_sortBy {A} (key : A -> string) (y : A) (l : list A) :
  In y (sortBy key l) <-> In y l.
Proof.
  unfold sortBy. induction l as [|x l IH]; simpl; [reflexivity|].
  rewrite In_insertBy, IH. intuition.
Qed.

(** *** Dictionaries *)

Lemma dictUpdate_id {A} (key : string) (o : Dict A) :
  dictUpdate key (fun a => a) o = o.
Proof.
  unfold dictUpdate. induction o as [|[k a] o IH]; simpl; [reflexivity|].
  rewrite IH. destruct (String.eqb k key); reflexivity.
Qed.

Lemma dictGet_app {A} (key : string) (o1 o2 : Dict A) :
  dictGet key (o1 ++ o2) =
    match dictGet key o1 with Some a => Some a | None => dictGet key o2 end.
Proof.
  induction o1 as [|[k a] o1 IH]; simpl; [reflexivity|].
  destruct (String.eqb k key); [reflexivity|apply IH].
Qed.

Lemma dictGet_update {A} (key k : string) (f : A -> A) (o : Dict A) :
  dictGet k (dictUpdate key f o) =
    if String.eqb k key then option_map f (dictGet k o) else dictGet k o.
Proof.
  unfold dictUpdate. induction o as [|[k' a] o IH]; simpl.
  - destruct (String.eqb k key); reflexivity.
  - destruct (String.eqb k' key) eqn:Hk'; simpl;
      destruct (String.eqb k' k) eqn:Hkk; simpl.
    + apply String.eqb_eq in Hk', Hkk. subst. rewrite String.eqb_refl. reflexivity.
    + exact IH.
    + apply String.eqb_eq in Hkk. subst. rewrite Hk'. reflexivity.
    + exact IH.
Qed.

Lemma In_dictUpdate {A} (key : string) (f : A -> A) (o : Dict A) (k : string) (a : A) :
  In (k, a) (dictUpdate key f o) ->
  exists a0, In (k, a0) o /\ a = if String.eqb k key then f a0 else a0.
Proof.
  unfold dictUpdate. intros Hin. apply in_map_iff in Hin as [[k0 a0] [Heq Hin]].
  exists a0. destruct (String.eqb k0 key) eqn:Hk; injection Heq as <- <-; rewrite Hk; auto.
Qed.

Lemma In_dictEnsure {A} (key : string) (fresh : A) (o : Dict A) (k : string) (a : A) :
  In (k, a) (dictEnsure key fresh o) ->
  In (k, a) o \/ (k = key /\ a = fresh /\ dictGet key o = None).
Proof.
  unfold dictEnsure. destruct (dictGet key o) eqn:Hget; [auto|].
  intros Hin. apply in_app_or in Hin as [Hin|[Heq|[]]]; [auto|].
  inversion Heq; subst. auto.
Qed.

Lemma dictGet_ensure_same {A} (key : string) (fresh : A) (o : Dict A) :
  dictGet key (dictEnsure key fresh o) <> None.
Proof.
  unfold dictEnsure. destruct (dictGet key o) eqn:Hget; [congruence|].
  rewrite dictGet_app, Hget. simpl. rewrite String.eqb_refl. discriminate.
Qed.

Lemma dictGet_ensure_keeps {A} (key k : string) (fresh : A) (o : Dict A) :
  dictGet k o <> None -> dictGet k (dictEnsure key fresh o) <> None.
Proof.
  unfold dictEnsure. destruct (dictGet key o); [auto|].
  rewrite dictGet_app. destruct (dictGet k o); congruence.
Qed.

Lemma dictGet_update_keeps {A} (key k : string) (f : A -> A) (o : Dict A) :
  dictGet k o <> None -> dictGet k (dictUpdate key f o) <> None.
Proof.
  rewrite dictGet_update. destruct (dictGet k o); [|congruence].
  destruct (String.eqb k key); discriminate.
Qed.

(** *** Extremes and the last reading *)

Lemma qmin_le (a b : Q) : (qmin a b <= a)%Q /\ (qmin a b <= b)%Q.
Proof.
  unfold qmin. destruct (Qle_bool a b) eqn:Hab.
  - apply Qle_bool_iff in Hab. split; [apply Qle_refl|exact Hab].
  - split; [|apply Qle_refl]. apply Qlt_le_weak, Qnot_le_lt.
    intros Hle. apply Qle_bool_iff in Hle. congruence.
Qed.

Lemma qmax_ge (a b : Q) : (a <= qmax a b)%Q /\ (b <= qmax a b)%Q.
Proof.
  unfold qmax. destruct (Qle_bool a b) eqn:Hab.
  - apply Qle_bool_iff in Hab. split; [exact Hab|apply Qle_refl].
  - split; [apply Qle_refl|]. apply Qlt_le_weak, Qnot_le_lt.
    intros Hle. apply Qle_bool_iff in Hle. congruence.
Qed.

Lemma fold_qmin_spec (l : list Q) (x : Q) :
  let m := fold_left qmin l x in
  In m (x :: l) /\ forall y, In y (x :: l) -> (m <= y)%Q.
Proof.
  revert x. induction l as [|z l IH]; intros x; simpl.
  - split; [left; reflexivity|]. intros y [<-|[]]. apply Qle_refl.
  - destruct (IH (qmin x z)) as [Hin Hle]. split.
    + destruct Hin as [Heq|Hin]; [|right; right; exact Hin].
      rewrite <- Heq. unfold qmin. destruct (Qle_bool x z); auto.
    + intros y [<-|[<-|Hy]].
      * eapply Qle_trans; [apply Hle; left; reflexivity|apply (proj1 (qmin_le x z))].
      * eapply Qle_trans; [apply Hle; left; reflexivity|apply (proj2 (qmin_le x z))].
      * apply Hle. right. exact Hy.
Qed.

Lemma fold_qmax_spec (l : list Q) (x : Q) :
  let m := fold_left qmax l x in
  In m (x :: l) /\ forall y, In y (x :: l) -> (y <= m)%Q.
Proof.
  revert x. induction l as [|z l IH]; intros x; simpl.
  - split; [left; reflexivity|]. intros y [<-|[]]. apply Qle_refl.
  - destruct (IH (qmax x z)) as [Hin Hle]. split.
    + destruct Hin as [Heq|Hin]; [|right; right; exact Hin].
      rewrite <- Heq. unfold qmax. destruct (Qle_bool x z); auto.
    + intros y [<-|[<-|Hy]].
      * eapply Qle_trans; [apply (proj1 (qmax_ge x z))|apply Hle; left; reflexivity].
      * eapply Qle_trans; [apply (proj2 (qmax_ge x z))|apply Hle; left; reflexivity].
      * apply Hle. right. exact Hy.
Qed.

Lemma Math_min_spec (l : list Q) :
  match Math_min l with
  | None => l = []
  | Some m => In m l /\ forall y, In y l -> (m <= y)%Q
  end.
Proof. destruct l as [|x l]; simpl; [reflexivity|apply fold_qmin_spec]. Qed.

Lemma Math_max_spec (l : list Q) :
  match Math_max l with
  | None => l = []
  | Some m => In m l /\ forall y, In y l -> (y <= m)%Q
  end.
Proof. destruct l as [|x l]; simpl; [reflexivity|apply fold_qmax_spec]. Qed.

Lemma latest_snoc (rs : list (Z * Q)) (r : Z * Q) :
  latest (rs ++ [r]) = later (latest rs) r.
Proof. unfold latest. rewrite fold_left_app. reflexivity. Qed.

Lemma latest_spec (rs : list (Z * Q)) :
  match latest rs with
  | None => rs = []
  | Some last => In last rs /\ forall r, In r rs -> fst r <= fst last
  end.
Proof.
  induction rs as [|r rs IH] using rev_ind; [reflexivity|].
  rewrite latest_snoc. destruct (latest rs) as [b|]; simpl.
  - destruct IH as [Hin Hmax]. destruct (fst b <? fst r) eqn:Hlt.
    + apply Z.ltb_lt in Hlt. split; [apply in_or_app; right; left; reflexivity|].
      intros r' Hr'. apply in_app_or in Hr' as [Hr'|[<-|[]]]; [|lia].
      specialize (Hmax r' Hr'). lia.
    + apply Z.ltb_ge in Hlt. split; [apply in_or_app; left; exact Hin|].
      intros r' Hr'. apply in_app_or in Hr' as [Hr'|[<-|[]]]; [auto|lia].
  - subst rs. simpl. split; [left; reflexivity|]. intros r' [<-|[]]. lia.
Qed.

Section Daily.
Variable tz : Z -> Z.

Local Abbreviation dailyStep :=
  (fun (D : Dict DailyDataAccumulator.t) (ev : Z * DataReading) =>
     dailyReading tz (fst ev) D (snd ev)).

(** The nested loops visit the readings in the order of [events]. *)
Lemma dailyChannel_events (channels : list ChannelDataItem.t)
    (D : Dict DailyDataAccumulator.t) :
  fold_left (dailyChannel tz) channels D = fold_left dailyStep (events channels) D.
Proof.
  revert D. induction channels as [|channel channels IH]; intros D; [reflexivity|].
  unfold events. simpl. rewrite fold_left_app. fold (events channels).
  rewrite <- IH. f_equal. unfold dailyChannel.
  destruct (ChannelDataItem.data channel) as [response|]; [|reflexivity].
  destruct (StationDataResponse.data response) as [readings|]; [|reflexivity].
  rewrite fold_left_map_arg. reflexivity.
Qed.

Lemma dailyStep_eq (D : Dict DailyDataAccumulator.t) (ev : Z * DataReading) :
  dailyReading tz (fst ev) D (snd ev) =
    dictUpdate (keyOf tz ev) (applyReading ev)
      (dictEnsure (keyOf tz ev) (freshDay (keyOf tz ev)) D).
Proof.
  destruct ev as [cid r]. unfold dailyReading, applyReading, keyOf. simpl.
  destruct (ImsApi.channels r); [symmetry; apply dictUpdate_id|reflexivity].
Qed.

Lemma accOf_snoc (k : string) (evs : list (Z * DataReading)) (ev : Z * DataReading) :
  accOf tz k (evs ++ [ev]) =
    if String.eqb (keyOf tz ev) k then applyReading ev (accOf tz k evs)
    else accOf tz k evs.
Proof. unfold accOf. rewrite fold_left_app. reflexivity. Qed.

Lemma accOf_absent (k : string) (evs : list (Z * DataReading)) :
  (forall ev, In ev evs -> String.eqb (keyOf tz ev) k = false) ->
  accOf tz k evs = freshDay k.
Proof.
  induction evs as [|ev evs IH] using rev_ind; intros Habs; [reflexivity|].
  rewrite accOf_snoc, Habs by (apply in_or_app; right; left; reflexivity).
  apply IH. intros ev' Hin. apply Habs. apply in_or_app. left. exact Hin.
Qed.

(** After any prefix of the visit, the dictionary holds, under each
    key, the accumulator of that day, and every day met has a key. *)
Lemma daily_fold_invariant (evs : list (Z * DataReading)) :
  let D := fold_left dailyStep evs [] in
  (forall k a, In (k, a) D -> a = accOf tz k evs) /\
  (forall ev, In ev evs -> dictGet (keyOf tz ev) D <> None).
Proof.
  induction evs as [|ev evs IH] using rev_ind; cbn zeta.
  - split; [intros k a []|intros ev []].
  - rewrite fold_left_app. cbn [fold_left]. cbn zeta in IH. destruct IH as [IH1 IH2].
    set (D := fold_left dailyStep evs []) in *.
    rewrite dailyStep_eq. split.
    + intros k a Hin.
      apply In_dictUpdate in Hin as [a0 [Hin ->]].
      rewrite accOf_snoc, (String.eqb_sym (keyOf tz ev) k).
      apply In_dictEnsure in Hin as [Hin|(-> & -> & Hnone)].
      * rewrite (IH1 k a0 Hin). reflexivity.
      * rewrite String.eqb_refl. f_equal. symmetry. apply accOf_absent.
        intros ev' Hin'. destruct (String.eqb (keyOf tz ev') (keyOf tz ev)) eqn:Heq;
          [|reflexivity].
        apply String.eqb_eq in Heq. specialize (IH2 ev' Hin').
        rewrite Heq in IH2. contradiction.
    + intros ev' Hin. apply dictGet_update_keeps.
      apply in_app_or in Hin as [Hin|[<-|[]]].
      * apply dictGet_ensure_keeps. apply IH2. exact Hin.
      * apply dictGet_ensure_same.
Qed.

(** The temperature fields of a day's accumulator, read off the
    temperature readings of that day. *)
Lemma accOf_fields (k : string) (evs : list (Z * DataReading)) :
  let a := accOf tz k evs in
  let rs := flat_map (temperatureEvent tz k) evs in
  DailyDataAccumulator.date a = k /\
  DailyDataAccumulator.temps a = map snd rs /\
  match latest rs with
  | None =>
      DailyDataAccumulator.lastTemp a = None /\
      DailyDataAccumulator.lastTempTime a = None
  | Some r =>
      DailyDataAccumulator.lastTemp a = Some (snd r) /\
      DailyDataAccumulator.lastTempTime a = Some (fst r)
  end.
Proof.
  induction evs as [|ev evs IH] using rev_ind; cbn zeta.
  - repeat split.
  - cbn zeta in IH. destruct IH as (Hdate & Htemps & Hlast).
    rewrite accOf_snoc, flat_map_app. cbn [flat_map]. rewrite app_nil_r.
    remember (flat_map (temperatureEvent tz k) evs) as rs eqn:Hrs.
    unfold temperatureEvent.
    destruct (String.eqb (keyOf tz ev) k) eqn:Hk;
      [rewrite andb_true_r|rewrite andb_false_r, app_nil_r; auto].
    unfold applyReading.
    destruct (ImsApi.channels (snd ev)) as [|first rest];
      [destruct (fst ev =? 7); rewrite app_nil_r; auto|].
    destruct (accOf tz k evs) as [date temps lastTemp lastTempTime hum ws rain].
    simpl in Hdate, Htemps, Hlast. unfold pushDaily.
    destruct (fst ev =? 7) eqn:H7.
    + rewrite map_app, latest_snoc. simpl.
      destruct (latest rs) as [b|]; destruct Hlast as [-> ->]; simpl.
      * destruct (fst b <? datetime (snd ev)); simpl; subst; auto.
      * subst; auto.
    + rewrite app_nil_r.
      destruct (fst ev =? 8); [simpl; auto|].
      destruct (fst ev =? 4); [simpl; auto|].
      destruct (fst ev =? 1); simpl; auto.
Qed.

Lemma temperatureOfDay_events (channels : list ChannelDataItem.t) (k : string) :
  temperatureOfDay tz channels k = flat_map (temperatureEvent tz k) (events channels).
Proof.
  unfold temperatureOfDay. apply flat_map_ext. intros [cid r]. reflexivity.
Qed.

(** Every bucket of the output is the finished accumulator of its day. *)
Lemma aggregateDaily_bucket (channels : list ChannelDataItem.t) (day : DailyForecast.t) :
  In day (aggregateDaily tz channels) ->
  day = finishDay (accOf tz (DailyForecast.date day) (events channels)).
Proof.
  unfold aggregateDaily. rewrite In_sortBy, dailyChannel_events.
  unfold dictValues. rewrite map_map. intros Hin.
  apply in_map_iff in Hin as [[k a] [<- Hin]]. simpl.
  apply (proj1 (daily_fold_invariant (events channels))) in Hin. subst a.
  rewrite (proj1 (accOf_fields k (events channels))). reflexivity.
Qed.

(** C7. In every day bucket of [aggregateDaily], [tempMin] and [tempMax]
    are the least and the greatest temperature value read that day, and
    [tempCurrent] is the value of a reading of that day whose instant no
    other reading of the day exceeds (the latest one; not an average, not
    the maximum); a day without temperature readings has all three
    [null]. On the readings (08:00, 14.0), (14:00, 22.0), (20:00, 18.0) the
    bucket shows 14.0, 22.0 and 18.0. *)
Theorem aggregateDaily_min_max_current (channels : list ChannelDataItem.t) :
  (forall day, In day (aggregateDaily tz channels) ->
     let rs := temperatureOfDay tz channels (DailyForecast.date day) in
     match rs with
     | [] =>
         DailyForecast.tempMin day = None /\
         DailyForecast.tempMax day = None /\
         DailyForecast.tempCurrent day = None
     | _ :: _ =>
         exists lo hi last,
           In lo rs /\ In hi rs /\ In last rs /\
           (forall r, In r rs ->
              (snd lo <= snd r)%Q /\ (snd r <= snd hi)%Q /\ fst r <= fst last) /\
           DailyForecast.tempMin day = Some (toFixed 1 (snd lo)) /\
           DailyForecast.tempMax day = Some (toFixed 1 (snd hi)) /\
           DailyForecast.tempCurrent day = Some (toFixed 1 (snd last))
     end) /\
  aggregateDaily Fixtures.utc Fixtures.threeReadings =
    [{| DailyForecast.date := "2026-02-11";
        DailyForecast.tempMin := Some "14.0"%string;
        DailyForecast.tempMax := Some "22.0"%string;
        DailyForecast.tempCurrent := Some "18.0"%string;
        DailyForecast.humidity := None;
        DailyForecast.windSpeed := None;
        DailyForecast.rain := None |}].
Proof.
  split; [|vm_compute; reflexivity].
  intros day Hin rs. apply aggregateDaily_bucket in Hin.
  subst rs. rewrite temperatureOfDay_events.
  set (k := DailyForecast.date day) in *.
  destruct (accOf_fields k (events channels)) as (_ & Htemps & Hlast).
  cbn zeta in Htemps, Hlast.
  set (rs := flat_map (temperatureEvent tz k) (events channels)) in *.
  set (a := accOf tz k (events channels)) in *.
  pose proof (Math_min_spec (DailyDataAccumulator.temps a)) as Hmin.
  pose proof (Math_max_spec (DailyDataAccumulator.temps a)) as Hmax.
  pose proof (latest_spec rs) as Hlatest.
  rewrite Hin. unfold finishDay. cbn [DailyForecast.tempMin DailyForecast.tempMax
    DailyForecast.tempCurrent].
  rewrite Htemps in *.
  destruct rs as [|r0 rs'] eqn:Hrs.
  - destruct (latest []) eqn:Hl; [destruct Hlatest as [[] _]|].
    destruct Hlast as [-> _]. repeat split.
  - destruct (latest (r0 :: rs')) as [last|]; [|discriminate].
    destruct (Math_min (map snd (r0 :: rs'))) as [m|]; [|discriminate].
    destruct (Math_max (map snd (r0 :: rs'))) as [M|]; [|discriminate].
    destruct Hmin as [Hmin_in Hmin_le]. destruct Hmax as [Hmax_in Hmax_le].
    destruct Hlatest as [Hlast_in Hlast_le]. destruct Hlast as [Hlt _].
    apply in_map_iff in Hmin_in as [lo [<- Hlo]].
    apply in_map_iff in Hmax_in as [hi [<- Hhi]].
    exists lo, hi, last. rewrite Hlt. repeat split; auto.
    + apply Hmin_le. apply in_map. assumption.
    + apply Hmax_le. apply in_map. assumption.
Qed.

End Daily.

Lemma aggregateDaily_min_max_current_witness :
  let day := {| DailyForecast.date := "2026-02-11";
                DailyForecast.tempMin := Some "14.0"%string;
                DailyForecast.tempMax := Some "22.0"%string;
                DailyForecast.tempCurrent := Some "18.0"%string;
                DailyForecast.humidity := None;
                DailyForecast.windSpeed := None;
                DailyForecast.rain := None |} in
  In day (aggregateDaily Fixtures.utc Fixtures.threeReadings) /\
  exists lo hi last : Z * Q,
    DailyForecast.tempMin day = Some (toFixed 1 (snd lo)) /\
    DailyForecast.tempMax day = Some (toFixed 1 (snd hi)) /\
    DailyForecast.tempCurrent day = Some (toFixed 1 (snd last)).
Proof.
  intros day.
  assert (Hin : In day (aggregateDaily Fixtures.utc Fixtures.threeReadings))
    by (vm_compute; left; reflexivity).
  split; [exact Hin|].
  pose proof (proj1 (aggregateDaily_min_max_current Fixtures.utc Fixtures.threeReadings)
                day Hin) as Hday.
  cbn zeta in Hday.
  destruct (temperatureOfDay Fixtures.utc Fixtures.threeReadings (DailyForecast.date day))
    as [|r0 rs'] eqn:Hrs; [vm_compute in Hrs; discriminate Hrs|].
  destruct Hday as (lo & hi & last & _ & _ & _ & _ & Hmin & Hmax & Hcur).
  exists lo, hi, last. exact (conj Hmin (conj Hmax Hcur)).
Defined.

(** *** The validity flag *)

Section Validity.
Variable tz : Z -> Z.
Variable g : ChannelValue -> bool.

Lemma hourlyChannel_reflag (D : Dict HourlyDataAccumulator.t) (channel : ChannelDataItem.t) :
  hourlyChannel tz D
    {| ChannelDataItem.channelId := ChannelDataItem.channelId channel;
       ChannelDataItem.data := option_map (reflagResponse g) (ChannelDataItem.data channel) |}
  = hourlyChannel tz D channel.
Proof.
  unfold hourlyChannel. simpl.
  destruct (ChannelDataItem.data channel) as [response|]; [|reflexivity]. simpl.
  destruct (StationDataResponse.data response) as [readings|]; [|reflexivity]. simpl.
  rewrite fold_left_map_arg. apply fold_left_ext_in. intros acc r _.
  unfold hourlyReading. simpl. destruct (ImsApi.channels r); reflexivity.
Qed.

Lemma dailyChannel_reflag (D : Dict DailyDataAccumulator.t) (channel : ChannelDataItem.t) :
  dailyChannel tz D
    {| ChannelDataItem.channelId := ChannelDataItem.channelId channel;
       ChannelDataItem.data := option_map (reflagResponse g) (ChannelDataItem.data channel) |}
  = dailyChannel tz D channel.
Proof.
  unfold dailyChannel. simpl.
  destruct (ChannelDataItem.data channel) as [response|]; [|reflexivity]. simpl.
  destruct (StationDataResponse.data response) as [readings|]; [|reflexivity]. simpl.
  rewrite fold_left_map_arg. apply fold_left_ext_in. intros acc r _.
  unfold dailyReading. simpl. destruct (ImsApi.channels r); reflexivity.
Qed.

(** C6 (amended). Neither aggregation consults the validity flag: two
    inputs that differ only in the flags of their readings aggregate to
    the same output, so a reading flagged invalid enters the average, sum,
    minimum, maximum and "current" value of its bucket exactly as a valid
    one does. *)
Theorem aggregation_ignores_validity (channels : list ChannelDataItem.t) :
  aggregateHourly tz (reflag g channels) = aggregateHourly tz channels /\
  aggregateDaily tz (reflag g channels) = aggregateDaily tz channels.
Proof.
  unfold aggregateHourly, aggregateDaily, reflag. split.
  - rewrite fold_left_map_arg.
    rewrite (fold_left_ext_in _ (hourlyChannel tz)); [reflexivity|].
    intros acc channel _. apply hourlyChannel_reflag.
  - rewrite fold_left_map_arg.
    rewrite (fold_left_ext_in _ (dailyChannel tz)); [reflexivity|].
    intros acc channel _. apply dailyChannel_reflag.
Qed.

End Validity.

(** C6, as stated, fails: the only reading of the input is flagged
    invalid, yet its value 99 is the hourly temperature and the daily
    minimum, maximum and current temperature; with the reading left out
    there would be no bucket at all. *)
Lemma invalid_reading_aggregated_counterexample :
  Fixtures.invalidReading =
    [Fixtures.channelOf 7
       [{| datetime := Fixtures.day0 * msPerDay + 8 * msPerHour;
           channels := [{| value := 99; status := "1"; valid := false |}] |}]] /\
  aggregateHourly Fixtures.utc Fixtures.invalidReading =
    [{| HourlyForecast.time := "2026-02-11 08:00";
        HourlyForecast.temp := Some "99.0"%string;
        HourlyForecast.humidity := None;
        HourlyForecast.windSpeed := None;
        HourlyForecast.windDir := None;
        HourlyForecast.rain := None |}] /\
  aggregateDaily Fixtures.utc Fixtures.invalidReading =
    [{| DailyForecast.date := "2026-02-11";
        DailyForecast.tempMin := Some "99.0"%string;
        DailyForecast.tempMax := Some "99.0"%string;
        DailyForecast.tempCurrent := Some "99.0"%string;
        DailyForecast.humidity := None;
        DailyForecast.windSpeed := None;
        DailyForecast.rain := None |}] /\
  aggregateHourly Fixtures.utc [Fixtures.channelOf 7 []] = [] /\
  aggregateDaily Fixtures.utc [Fixtures.channelOf 7 []] = [].
Proof. repeat split; vm_compute; reflexivity. Qed.

End AggregationFacts.

(** ** The multi-channel fetch *)

Module ImsApiFacts.
Import JS ImsApi.

Lemma promise_all_resolved {A B} (f : A -> B) (l : list A) :
  promise_all (map (fun x => Ok (f x)) l) = Ok (map f l).
Proof.
  induction l as [|x l IH]; simpl; [reflexivity|]. rewrite IH. reflexivity.
Qed.

Lemma omap_id_map {A B} (f : A -> option B) (l : list A) :
  omap (fun r => r) (map f l) = omap f l.
Proof.
  induction l as [|x l IH]; simpl; [reflexivity|].
  destruct (f x); [f_equal|]; exact IH.
Qed.

Lemma omap_pointwise {A B} (f g : A -> option B) (l : list A) :
  (forall x, f x = g x) -> omap f l = omap g l.
Proof.
  intros Hfg. induction l as [|x l IH]; simpl; [reflexivity|].
  rewrite Hfg. destruct (g x); [f_equal|]; exact IH.
Qed.

(** What one channel contributes to the answer. *)
Lemma getStationDataMultiChannel_resolves (getStationData : Upstream)
    (stationId : option Z) (channelIds : list Z) (fromDate toDate : Z) :
  getStationDataMultiChannel getStationData stationId channelIds fromDate toDate =
    Ok (omap (fun channelId =>
                match getStationData stationId channelId fromDate toDate with
                | Ok data => Some {| ChannelDataItem.channelId := channelId;
                                     ChannelDataItem.data := Some data |}
                | Throw _ => None
                end) channelIds).
Proof.
  unfold getStationDataMultiChannel.
  rewrite (promise_all_resolved
             (fun channelId =>
                try_catch
                  (bind (getStationData stationId channelId fromDate toDate)
                     (fun data =>
                        Ok (Some {| ChannelDataItem.channelId := channelId;
                                    ChannelDataItem.data := Some data |})))
                  (fun _ => None))).
  simpl. rewrite omap_id_map. f_equal.
  apply omap_pointwise. intros channelId.
  destruct (getStationData stationId channelId fromDate toDate); reflexivity.
Qed.

(** C9. [getStationDataMultiChannel] always resolves, and with exactly
    the channels whose fetch succeeded, in the order they were asked for:
    a channel whose fetch rejects is left out, and nothing is left when
    every fetch rejects. *)
Theorem getStationDataMultiChannel_drops_failures (getStationData : Upstream)
    (stationId : option Z) (channelIds : list Z) (fromDate toDate : Z) :
  let fetched := fun channelId =>
    match getStationData stationId channelId fromDate toDate with
    | Ok data => Some {| ChannelDataItem.channelId := channelId;
                         ChannelDataItem.data := Some data |}
    | Throw _ => None
    end in
  let answer := getStationDataMultiChannel getStationData stationId channelIds
                  fromDate toDate in
  answer = Ok (omap fetched channelIds) /\
  (forall e, answer <> Throw e) /\
  (forall item,
     In item (omap fetched channelIds) <->
     exists channelId data,
       In channelId channelIds /\
       getStationData stationId channelId fromDate toDate = Ok data /\
       item = {| ChannelDataItem.channelId := channelId;
                 ChannelDataItem.data := Some data |}) /\
  ((forall channelId, In channelId channelIds ->
      exists e, getStationData stationId channelId fromDate toDate = Throw e) ->
   answer = Ok []).
Proof.
  intros fetched answer.
  assert (Hanswer : answer = Ok (omap fetched channelIds))
    by apply getStationDataMultiChannel_resolves.
  split; [exact Hanswer|]. split; [rewrite Hanswer; discriminate|]. split.
  - intros item. rewrite <- list_elem_of_In, list_elem_of_omap. split.
    + intros (channelId & Hin & Hf). subst fetched. simpl in Hf.
      destruct (getStationData stationId channelId fromDate toDate) as [data|e] eqn:Hup;
        [|discriminate].
      injection Hf as <-. exists channelId, data.
      rewrite <- list_elem_of_In. auto.
    + intros (channelId & data & Hin & Hup & ->). exists channelId.
      rewrite list_elem_of_In. split; [exact Hin|].
      subst fetched. simpl. rewrite Hup. reflexivity.
  - intros Hdown. rewrite Hanswer. f_equal. clear Hanswer answer.
    induction channelIds as [|channelId rest IH]; [reflexivity|]. simpl.
    destruct (Hdown channelId (or_introl eq_refl)) as [e He].
    subst fetched. simpl in *. rewrite He. apply IH.
    intros ch Hch. apply Hdown. right. exact Hch.
Qed.

End ImsApiFacts.

(** ** The fallback generator *)

Module FallbackFacts.
Import JS Utils FallbackForecast.

Lemma dateOfDay_next (day : Z) : dateOfDay day + msPerDay = dateOfDay (day + 1).
Proof. unfold dateOfDay. ring. Qed.

Lemma dateOfDay_leb (a b : Z) : (dateOfDay a <=? dateOfDay b) = (a <=? b).
Proof.
  unfold dateOfDay, msPerDay.
  destruct (a <=? b) eqn:Hab; [apply Z.leb_le in Hab; apply Z.leb_le|
                               apply Z.leb_gt in Hab; apply Z.leb_gt]; lia.
Qed.

Section Daily.
Variable Math_sin : Q -> Q.

Lemma dailyEntry_fields (currentDate dayIndex : Z) (baseTemp : Q) (g : Rng) :
  let entry := fst (dailyEntry Math_sin currentDate dayIndex baseTemp g) in
  DailyForecast.date entry = isoDateOfMs currentDate /\
  DailyForecast.tempMin entry <> None /\
  DailyForecast.tempMax entry <> None.
Proof.
  unfold dailyEntry, random. cbn [draws position].
  destruct (Qle_bool _ _); cbn [fst DailyForecast.date DailyForecast.tempMin
    DailyForecast.tempMax]; repeat split; discriminate.
Qed.

(** With one turn allowed per day of the window the loop finishes, and
    it has pushed one entry per day, in order. *)
Lemma dailyLoop_runs (n : nat) :
  forall (current to dayIndex : Z) (baseTemp : Q) (g : Rng)
         (forecasts : list DailyForecast.t),
    Z.of_nat n = to - current + 1 ->
    exists pushed g',
      dailyLoop Math_sin n (dateOfDay current) (dateOfDay to) dayIndex baseTemp g forecasts
        = Some (forecasts ++ pushed, g') /\
      length pushed = n /\
      forall i, (i < n)%nat ->
        exists entry,
          nth_error pushed i = Some entry /\
          DailyForecast.date entry = isoDate (current + Z.of_nat i) /\
          DailyForecast.tempMin entry <> None /\
          DailyForecast.tempMax entry <> None.
Proof.
  induction n as [|n IH]; intros current to dayIndex baseTemp g forecasts Hn.
  - exists [], g. simpl. rewrite dateOfDay_leb.
    replace (current <=? to) with false by (symmetry; apply Z.leb_gt; lia).
    rewrite app_nil_r. repeat split. intros i Hi. inversion Hi.
  - cbn [dailyLoop]. rewrite dateOfDay_leb.
    replace (current <=? to) with true by (symmetry; apply Z.leb_le; lia).
    destruct (dailyEntry Math_sin (dateOfDay current) dayIndex baseTemp g)
      as [entry g1] eqn:Hentry.
    rewrite dateOfDay_next.
    destruct (IH (current + 1) to (dayIndex + 1) baseTemp g1 (forecasts ++ [entry]))
      as (pushed & g' & Hloop & Hlen & Hnth); [lia|].
    exists (entry :: pushed), g'. rewrite Hloop, <- app_assoc. simpl.
    split; [reflexivity|]. split; [congruence|].
    intros [|i] Hi.
    + exists entry. split; [reflexivity|].
      pose proof (dailyEntry_fields (dateOfDay current) dayIndex baseTemp g) as Hf.
      rewrite Hentry in Hf. cbn [fst] in Hf. cbn zeta in Hf.
      rewrite Z.add_0_r. exact Hf.
    + destruct (Hnth i ltac:(lia)) as (e & He & Hdate & Hmin & Hmax).
      exists e. simpl. split; [exact He|]. split; [|auto].
      rewrite Hdate. f_equal. lia.
Qed.

(** The daily generator, on a window that does not end before it
    starts, returns one entry per day of the window. *)
Lemma generateFallbackDailyForecast_covers (fromDate toDate : Z) (baseTemp : Q) (g : Rng) :
  fromDate <= toDate ->
  exists points g',
    generateFallbackDailyForecast Math_sin fromDate toDate baseTemp g = Some (points, g') /\
    Z.of_nat (length points) = toDate - fromDate + 1 /\
    forall i, 0 <= i <= toDate - fromDate ->
      exists entry,
        nth_error points (Z.to_nat i) = Some entry /\
        DailyForecast.date entry = isoDate (fromDate + i) /\
        DailyForecast.tempMin entry <> None /\
        DailyForecast.tempMax entry <> None.
Proof.
  intros Hwin. unfold generateFallbackDailyForecast.
  destruct (dailyLoop_runs (Z.to_nat (toDate - fromDate + 1)) fromDate toDate 0 baseTemp g [])
    as (pushed & g' & Hloop & Hlen & Hnth); [lia|].
  exists pushed, g'. split; [exact Hloop|]. split; [lia|].
  intros i Hi. destruct (Hnth (Z.to_nat i) ltac:(lia)) as (e & He & Hdate & Hmm).
  exists e. split; [exact He|]. split; [|exact Hmm].
  rewrite Hdate. f_equal. lia.
Qed.

End Daily.

Section Hourly.
Variable Math_sin : Q -> Q.
Variable Math_PI : Q.

(** With one turn allowed per hour left in the window the hourly loop
    finishes too. *)
Lemma hourlyLoop_runs (n : nat) :
  forall (currentHour to : Z) (baseTemp : Q) (g : Rng) (forecasts : list HourlyForecast.t),
    currentHour + Z.of_nat n * msPerHour = to + 1000 ->
    exists pushed g',
      hourlyLoop Math_sin Math_PI n currentHour to baseTemp g forecasts
        = Some (forecasts ++ pushed, g') /\
      length pushed = n.
Proof.
  unfold msPerHour.
  induction n as [|n IH]; intros currentHour to baseTemp g forecasts Hn.
  - exists [], g. simpl.
    replace (currentHour <=? to) with false by (symmetry; apply Z.leb_gt; lia).
    rewrite app_nil_r. split; reflexivity.
  - cbn [hourlyLoop].
    replace (currentHour <=? to) with true by (symmetry; apply Z.leb_le; lia).
    destruct (hourlyEntry Math_sin Math_PI currentHour baseTemp g) as [entry g1].
    destruct (IH (currentHour + msPerHour) to baseTemp g1 (forecasts ++ [entry]))
      as (pushed & g' & Hloop & Hlen); [unfold msPerHour; lia|].
    exists (entry :: pushed), g'. rewrite Hloop, <- app_assoc. simpl.
    split; [reflexivity|congruence].
Qed.

(** The generator, on a window that does not end before it starts,
    returns a forecast for either kind of period. *)
Lemma generateFallbackForecast_returns (period : string) (fromDate toDate : Z)
    (baseTemp : Q) (g : Rng) :
  fromDate <= toDate ->
  exists forecast g',
    generateFallbackForecast Math_sin Math_PI period fromDate toDate baseTemp g
      = Some (forecast, g').
Proof.
  intros Hwin. unfold generateFallbackForecast.
  destruct (String.eqb period "today").
  - unfold generateFallbackHourlyForecast.
    destruct (hourlyLoop_runs (Z.to_nat ((toDate - fromDate + 1) * 24))
                (dateOfDay fromDate) (dateOfDay toDate + msPerDay - 1000) baseTemp g [])
      as (pushed & g' & Hloop & _).
    { unfold dateOfDay, msPerDay, msPerHour. lia. }
    rewrite Hloop. simpl. eauto.
  - destruct (generateFallbackDailyForecast_covers Math_sin fromDate toDate baseTemp g Hwin)
      as (points & g' & Hgen & _).
    rewrite Hgen. simpl. eauto.
Qed.

End Hourly.

End FallbackFacts.

(** ** The forecast route *)

Module ResolverFacts.
Import JS ImsApi Utils FallbackForecast ForecastAdapter Server.

Lemma ceilDiv_multiple (k m : Z) : m <> 0 -> ceilDiv (k * m) m = k.
Proof.
  intros Hm. unfold ceilDiv. rewrite <- Z.mul_opp_l, Z.div_mul by exact Hm. lia.
Qed.

Lemma expectedDays_window (dateRange : DateRange) :
  expectedDays dateRange = to dateRange - from dateRange + 1.
Proof.
  unfold expectedDays, dateOfDay, msPerDay.
  rewrite <- Z.mul_sub_distr_r, ceilDiv_multiple by lia. reflexivity.
Qed.

Lemma orToday_named (p : string) : p <> ""%string -> orToday (Some p) = p.
Proof.
  intros Hp. unfold orToday, orElse.
  destruct (String.eqb p "") eqn:Heq; [apply String.eqb_eq in Heq; contradiction|reflexivity].
Qed.

Lemma isToday_other (p : string) : p <> "today"%string -> isToday (Some p) = false.
Proof. intros Hp. simpl. apply String.eqb_neq. exact Hp. Qed.

(** C2. On a request for a multi-day period that reaches the station
    observations, an aggregate with fewer than [min(3, expected)] entries
    is replaced by the generated daily series, and that series covers the
    whole window: as many entries as the window has days (the expected
    count), the i-th one dated with the i-th day, each with [tempMin] and
    [tempMax] set; seven entries for a window of seven days. *)
Theorem insufficient_coverage_is_synthetic (env : Env) (stationId p : string)
    (dateRange : DateRange) (channels : list ChannelDataItem.t) :
  p <> "today"%string ->
  p <> ""%string ->
  from dateRange <= to dateRange ->
  getStationDataMultiChannel (getStationData env) (parseInt stationId) channelIds
    (from dateRange) (to dateRange) = Ok channels ->
  forecastLength (aggregateFor env (Some p) channels) < Z.min 3 (expectedDays dateRange) ->
  exists points,
    stationForecast env stationId (Some p) dateRange = Ok (Some (Daily points)) /\
    option_map fst
      (generateFallbackDailyForecast (Math_sin env) (from dateRange) (to dateRange)
         20 (rng env)) = Some points /\
    Z.of_nat (length points) = expectedDays dateRange /\
    Z.of_nat (length points) = to dateRange - from dateRange + 1 /\
    (to dateRange - from dateRange = 6 -> length points = 7%nat) /\
    forall i, 0 <= i <= to dateRange - from dateRange ->
      exists entry,
        nth_error points (Z.to_nat i) = Some entry /\
        DailyForecast.date entry = isoDate (from dateRange + i) /\
        DailyForecast.tempMin entry <> None /\
        DailyForecast.tempMax entry <> None.
Proof.
  intros Hp Hnamed Hwin Hchannels Hshort.
  destruct (FallbackFacts.generateFallbackDailyForecast_covers (Math_sin env)
              (from dateRange) (to dateRange) 20 (rng env) Hwin)
    as (points & g' & Hgen & Hlen & Hentries).
  exists points. unfold stationForecast. rewrite Hchannels. cbn [bind].
  unfold insufficient. rewrite (isToday_other p Hp).
  replace (_ <? _) with true by (symmetry; apply Z.ltb_lt; exact Hshort).
  cbn [negb andb]. unfold generateFallbackForecast.
  rewrite (orToday_named p Hnamed).
  replace (String.eqb p "today") with false by (symmetry; apply String.eqb_neq; exact Hp).
  rewrite Hgen. cbn [option_map fst].
  split; [reflexivity|]. split; [reflexivity|].
  split; [rewrite expectedDays_window; exact Hlen|].
  split; [exact Hlen|]. split; [lia|exact Hentries].
Qed.

Lemma insufficient_coverage_is_synthetic_witness :
  exists points,
    stationForecast (Fixtures.envWith Fixtures.upstreamDown) "178" (Some "week"%string)
      {| from := 20495; to := 20501 |} = Ok (Some (Daily points)) /\
    length points = 7%nat.
Proof.
  destruct (insufficient_coverage_is_synthetic (Fixtures.envWith Fixtures.upstreamDown)
              "178" "week" {| from := 20495; to := 20501 |} [])
    as (points & Hroute & _ & _ & _ & Hseven & _).
  - discriminate.
  - discriminate.
  - simpl. lia.
  - vm_compute. reflexivity.
  - vm_compute. reflexivity.
  - exists points. split; [exact Hroute|]. apply Hseven. reflexivity.
Defined.

Lemma tryXmlForecast_found (env : Env) (nearestCity : City) (items : list ParsedForecast) :
  tryXmlForecast env nearestCity = Some items ->
  items <> [] /\
  exists downloadDir,
    getMostRecentDownloadDir env = Some downloadDir /\
    getCityForecast env (id nearestCity) downloadDir = Ok items.
Proof.
  unfold tryXmlForecast.
  destruct (getMostRecentDownloadDir env) as [downloadDir|]; [|discriminate].
  destruct (String.eqb downloadDir ""); [discriminate|].
  destruct (getCityForecast env (id nearestCity) downloadDir) as [[|item rest]|e] eqn:Hfeed;
    simpl; try discriminate.
  intros [= <-]. split; [discriminate|]. exists downloadDir. auto.
Qed.

(** C1 (amended). Every forecast body the route sends carries one of two
    tags. It is [xml] exactly when the feed lookup for the nearest city
    returned at least one item. Otherwise it is [station], and this one tag
    covers both remaining tiers: the forecast is the aggregate of the
    station observations when that is long enough, and the generated
    series when it is not. *)
Theorem forecast_source_tag (env : Env) (stationId period : option string)
    (body : ForecastBody) :
  forecastRoute env stationId period = Some (Json body) ->
  exists sid stations station,
    stationId = Some sid /\
    stationsLookup env = Ok stations /\
    findStation stations sid = Some station /\
    let nearestCity :=
      findNearestCity env (Station.latitude station) (Station.longitude station) in
    let window := getForecastDateRange (now env) (orToday period) in
    match tryXmlForecast env nearestCity with
    | Some cityForecasts =>
        source body = "xml"%string /\
        cityForecasts <> [] /\
        body = formatForecastResponse (extractForecastData env) (now env) sid
                 (id nearestCity) (name nearestCity) period window cityForecasts
    | None =>
        source body = "station"%string /\
        exists channels,
          getStationDataMultiChannel (getStationData env) (parseInt sid) channelIds
            (from window) (to window) = Ok channels /\
          if insufficient period (aggregateFor env period channels) window
          then option_map fst
                 (generateFallbackForecast (Math_sin env) (Math_PI env) (orToday period)
                    (from window) (to window) 20 (rng env)) = Some (forecast body)
          else forecast body = aggregateFor env period channels
    end.
Proof.
  unfold forecastRoute. intros Hroute.
  destruct stationId as [sid|]; [|discriminate].
  destruct (String.eqb sid ""); [discriminate|].
  destruct (stationsLookup env) as [stations|e]; [|discriminate].
  destruct (findStation stations sid) as [station|] eqn:Hfind; [|discriminate].
  exists sid, stations, station. repeat (split; [reflexivity|]).
  split; [exact Hfind|]. cbn zeta.
  destruct (tryXmlForecast env _) as [cityForecasts|] eqn:Hxml.
  - injection Hroute as <-. split; [reflexivity|].
    split; [exact (proj1 (tryXmlForecast_found _ _ _ Hxml))|reflexivity].
  - unfold stationForecast in Hroute.
    pose proof (ImsApiFacts.getStationDataMultiChannel_resolves
                  (getStationData env) (parseInt sid) channelIds
                  (from (getForecastDateRange (now env) (orToday period)))
                  (to (getForecastDateRange (now env) (orToday period)))) as Hfetch.
    rewrite Hfetch in Hroute. cbn [bind] in Hroute.
    match type of Hfetch with _ = Ok ?cs => set (channels := cs) in * end.
    destruct (insufficient period (aggregateFor env period channels) _) eqn:Hshort.
    + destruct (option_map fst _) as [generated|] eqn:Hgen; [|discriminate].
      injection Hroute as <-. split; [reflexivity|].
      exists channels. split; [exact Hfetch|]. rewrite Hshort. reflexivity.
    + injection Hroute as <-. split; [reflexivity|].
      exists channels. split; [exact Hfetch|]. rewrite Hshort. reflexivity.
Qed.

Lemma getForecastDateRange_forward (now : Z) (period : string) :
  from (getForecastDateRange now period) = todayOf now /\
  todayOf now < to (getForecastDateRange now period).
Proof.
  unfold getForecastDateRange. split; [reflexivity|]. simpl.
  destruct (String.eqb period "today"); [lia|].
  destruct (String.eqb period "week"); [lia|].
  destruct (String.eqb period "month"); simpl; lia.
Qed.

(** The route always answers: the generator's loops never run out of
    turns on the window the route hands them. *)
Lemma forecastRoute_answers (env : Env) (stationId period : option string) :
  exists response, forecastRoute env stationId period = Some response.
Proof.
  unfold forecastRoute.
  destruct stationId as [sid|]; [|eauto].
  destruct (String.eqb sid ""); [eauto|].
  destruct (stationsLookup env) as [stations|e]; [|eauto].
  destruct (findStation stations sid) as [station|]; [|eauto].
  destruct (tryXmlForecast env _) as [cityForecasts|]; [eauto|].
  unfold stationForecast.
  rewrite ImsApiFacts.getStationDataMultiChannel_resolves.
  cbn [bind].
  destruct (insufficient period _ _); [|eauto].
  destruct (getForecastDateRange_forward (now env) (orToday period)) as [Hfrom Hto].
  destruct (FallbackFacts.generateFallbackForecast_returns (Math_sin env) (Math_PI env)
              (orToday period)
              (from (getForecastDateRange (now env) (orToday period)))
              (to (getForecastDateRange (now env) (orToday period))) 20 (rng env))
    as (forecast & g' & Hgen); [lia|].
  rewrite Hgen. simpl. eauto.
Qed.

(** Every forecast body carries the window of [getForecastDateRange]. *)
Lemma forecastRoute_window (env : Env) (stationId period : option string)
    (body : ForecastBody) :
  forecastRoute env stationId period = Some (Json body) ->
  dateRange body = getForecastDateRange (now env) (orToday period).
Proof.
  unfold forecastRoute.
  destruct stationId as [sid|]; [|discriminate].
  destruct (String.eqb sid ""); [discriminate|].
  destruct (stationsLookup env) as [stations|e]; [|discriminate].
  destruct (findStation stations sid) as [station|]; [|discriminate].
  destruct (tryXmlForecast env _) as [items|]; [intros [= <-]; reflexivity|].
  destruct (stationForecast env sid period _) as [[f|]|e]; try discriminate.
  intros [= <-]. reflexivity.
Qed.

Lemma getDateRange_backward (now : Z) (period : string) :
  to (getDateRange now period) = todayOf now /\
  from (getDateRange now period) < todayOf now.
Proof.
  unfold getDateRange. split; [reflexivity|]. simpl.
  destruct (String.eqb period "today"); [lia|].
  destruct (String.eqb period "week"); [lia|].
  destruct (String.eqb period "month"); simpl; lia.
Qed.

Lemma forecast_source_tag_witness :
  exists body,
    forecastRoute Fixtures.envWithFeed (Some "178"%string) (Some "week"%string)
      = Some (Json body) /\
    source body = "xml"%string.
Proof.
  destruct (forecastRoute_answers Fixtures.envWithFeed (Some "178"%string)
              (Some "week"%string)) as [response Hroute].
  destruct response as [body|code err]; [|vm_compute in Hroute; discriminate Hroute].
  exists body. split; [exact Hroute|].
  destruct (forecast_source_tag Fixtures.envWithFeed _ _ body Hroute)
    as (sid & stations & station & _ & _ & _ & Htag).
  cbn zeta in Htag.
  destruct (tryXmlForecast Fixtures.envWithFeed _) as [items|] eqn:Hxml;
    [exact (proj1 Htag)|vm_compute in Hxml; discriminate Hxml].
Defined.

(** C1, as stated, fails on its third tier: with the upstream down the
    week's forecast is the generated series (the aggregate is empty, fewer
    than three entries), and its tag is [station], the very tag of a
    forecast aggregated from three days of observations; no answer is
    tagged [synthetic]. *)
Lemma synthetic_tagged_station_counterexample :
  let down := Fixtures.envWith Fixtures.upstreamDown in
  let up := Fixtures.envWith Fixtures.upstreamThreeDays in
  let window := {| from := 20495; to := 20501 |} in
  (exists body points,
     forecastRoute down (Some "178"%string) (Some "week"%string) = Some (Json body) /\
     getStationDataMultiChannel (getStationData down) (parseInt "178") channelIds
       20495 20501 = Ok [] /\
     insufficient (Some "week"%string) (aggregateFor down (Some "week"%string) []) window
       = true /\
     option_map fst
       (generateFallbackForecast (Math_sin down) (Math_PI down) "week" 20495 20501 20
          (rng down)) = Some (forecast body) /\
     forecast body = Daily points /\ length points = 7%nat /\
     source body = "station"%string /\
     source body <> "synthetic"%string) /\
  (exists body,
     forecastRoute up (Some "178"%string) (Some "week"%string) = Some (Json body) /\
     forecastLength (forecast body) = 3 /\
     source body = "station"%string).
Proof.
  split.
  - eexists. eexists. split; [vm_compute; reflexivity|].
    repeat split; try (vm_compute; reflexivity). discriminate.
  - eexists. split; [vm_compute; reflexivity|]. split; reflexivity.
Qed.

End ResolverFacts.

(** ** The two date windows *)

Module DateRangeFacts.
Import JS Utils ForecastAdapter Server.

(** C8 (amended). Two utilities, each with a period argument, compute
    the two windows. [getDateRange] looks backwards and ends today: 2, 7
    or 30 days back for [today], [week], [month]. [getForecastDateRange]
    looks forwards and starts today: it ends 1, 6 or 29 days ahead (2, 7 or
    30 days in all). Neither computes the other's window. The forecast
    route takes its window from [getForecastDateRange]. *)
Theorem date_range_conventions (now : Z) :
  let today := todayOf now in
  getDateRange now "today" = {| from := today - 2; to := today |} /\
  getDateRange now "week" = {| from := today - 7; to := today |} /\
  getDateRange now "month" = {| from := today - 30; to := today |} /\
  getForecastDateRange now "today" = {| from := today; to := today + 1 |} /\
  getForecastDateRange now "week" = {| from := today; to := today + 6 |} /\
  getForecastDateRange now "month" = {| from := today; to := today + 29 |} /\
  (forall period,
     to (getDateRange now period) = today /\ from (getDateRange now period) < today) /\
  (forall period,
     from (getForecastDateRange now period) = today /\
     today < to (getForecastDateRange now period)) /\
  (forall env stationId period body,
     Server.now env = now ->
     forecastRoute env stationId period = Some (Json body) ->
     dateRange body = getForecastDateRange now (orToday period) /\
     from (dateRange body) = today).
Proof.
  intros today. repeat (split; [reflexivity|]). split; [|split].
  - intros period. apply ResolverFacts.getDateRange_backward.
  - intros period. apply ResolverFacts.getForecastDateRange_forward.
  - intros env stationId period body <- Hroute.
    pose proof (ResolverFacts.forecastRoute_window env stationId period body Hroute)
      as Hwindow.
    split; [exact Hwindow|]. rewrite Hwindow. reflexivity.
Qed.

Lemma date_range_conventions_witness :
  exists body,
    forecastRoute (Fixtures.envWith Fixtures.upstreamDown) (Some "178"%string)
      (Some "week"%string) = Some (Json body) /\
    dateRange body = {| from := 20495; to := 20501 |}.
Proof.
  destruct (ResolverFacts.forecastRoute_answers (Fixtures.envWith Fixtures.upstreamDown)
              (Some "178"%string) (Some "week"%string)) as [response Hroute].
  destruct response as [body|code err]; [|vm_compute in Hroute; discriminate Hroute].
  exists body. split; [exact Hroute|].
  destruct (date_range_conventions (Fixtures.day0 * msPerDay)) as (_ & _ & _ & _ & _ & _ & _ & _ & Huse).
  destruct (Huse (Fixtures.envWith Fixtures.upstreamDown) _ _ body eq_refl Hroute) as [Hwin _].
  rewrite Hwin. vm_compute. reflexivity.
Defined.

(** C8, as stated, fails: there is no single utility behind both
    windows. [getDateRange], whatever its period argument, returns a
    window that ends today and starts earlier. On 11 February 2026 its
    window for [week] runs from 4 to 11 February, the forecast route's
    from 11 to 17 February, and no period makes [getDateRange] return the
    latter or [getForecastDateRange] the former. *)
Lemma single_date_utility_counterexample :
  let now := Fixtures.day0 * msPerDay in
  (forall period,
     to (getDateRange now period) = todayOf now /\
     from (getDateRange now period) <> todayOf now) /\
  getDateRange now "week" = {| from := 20488; to := 20495 |} /\
  isoDate 20488 = "2026-02-04"%string /\ isoDate 20495 = "2026-02-11"%string /\
  getForecastDateRange now "week" = {| from := 20495; to := 20501 |} /\
  isoDate 20501 = "2026-02-17"%string /\
  (forall period, getDateRange now period <> getForecastDateRange now "week") /\
  (forall period, getForecastDateRange now period <> getDateRange now "week").
Proof.
  intros now. split.
  { intros period. destruct (ResolverFacts.getDateRange_backward now period) as [Hto Hfrom].
    split; [exact Hto|lia]. }
  repeat (split; [vm_compute; reflexivity|]). split.
  - intros period Heq.
    pose proof (proj1 (ResolverFacts.getDateRange_backward now period)) as Hto.
    rewrite Heq in Hto. vm_compute in Hto. discriminate Hto.
  - intros period Heq.
    pose proof (proj1 (ResolverFacts.getForecastDateRange_forward now period)) as Hfrom.
    rewrite Heq in Hfrom. vm_compute in Hfrom. discriminate Hfrom.
Qed.

End DateRangeFacts.

(** ** More on the cache: tiers, keys and failures *)

Module CacheExtras.
Import JS Cache CacheFacts.

Section Generic.
Context {T : Type} `{Value T}.
Implicit Types (w : World T) (v : T) (key : string).

(** X1. A read served by the cache directory copies the entry into the
    memory table under a new timestamp, so the value stays readable for a
    whole further duration, also after the file itself has expired. The
    file is left as it is and no producer runs. *)
Theorem file_hit_refreshes_memory type params options key entry w :
  getCacheKey type params = Some key ->
  memoryCache w !! key = None ->
  disk_ok w = true ->
  files w !! key = Some entry ->
  truthy (data entry) = true ->
  clock w - timestamp entry <= effectiveDuration type options ->
  let r := get type params options w in
  fst r = Ok (data entry) /\
  fetcherCalls (snd r) = fetcherCalls w /\
  files (snd r) = files w /\
  memoryCache (snd r) !! key = Some {| data := data entry; timestamp := clock w |} /\
  forall dt, 0 <= dt <= effectiveDuration type options ->
    get type params options (advance dt (snd r)) = (Ok (data entry), advance dt (snd r)).
Proof.
  intros Hk Hm Hd Hf Hv Hfresh r.
  assert (Hr : r = (Ok (data entry), setInMemory key (data entry) w)).
  { subst r. unfold get. rewrite Hk. unfold getFromMemory. rewrite Hm, truthy_null.
    unfold getFromFile. rewrite Hd, Hf.
    replace (isExpired _ _ _) with false by (symmetry; apply isExpired_spec; exact Hfresh).
    rewrite Hv. reflexivity. }
  rewrite Hr. cbn [fst snd]. repeat split.
  - apply lookup_insert_eq.
  - intros dt [Hdt Hdur].
    apply (get_memory_hit type params options key
             {| data := data entry; timestamp := clock w |}).
    + exact Hk.
    + apply lookup_insert_eq.
    + apply isExpired_spec. simpl. lia.
    + exact Hv.
Qed.

(** X2. [get] rejects only by rethrowing what its producer threw: neither
    tier, usable or not, makes a lookup fail. *)
Theorem get_rejects_only_with_producer type params options w e :
  fst (get type params options w) = Throw e ->
  fetcher options = Some (Throw e) /\
  fetcherCalls (snd (get type params options w)) = S (fetcherCalls w).
Proof.
  unfold get. destruct (getCacheKey type params) as [key|]; [|discriminate].
  destruct (getFromMemory key _ w) as [memoryData w1] eqn:Hmem.
  assert (Hn1 : fetcherCalls w1 = fetcherCalls w).
  { unfold getFromMemory in Hmem. destruct (memoryCache w !! key) as [em|];
      [destruct (isExpired _ _ _)|]; injection Hmem as _ <-; reflexivity. }
  destruct (truthy memoryData); [discriminate|].
  destruct (getFromFile key _ w1) as [fileData w2] eqn:Hfile.
  assert (Hn2 : fetcherCalls w2 = fetcherCalls w1).
  { unfold getFromFile in Hfile. destruct (disk_ok w1);
      [destruct (files w1 !! key) as [ef|]; [destruct (isExpired _ _ _)|]|];
      injection Hfile as _ <-; reflexivity. }
  destruct (truthy fileData); [discriminate|].
  destruct (fetcher options) as [[v|e']|]; try discriminate.
  simpl. intros [= ->]. split; [reflexivity|congruence].
Qed.

(** X3. With the cache directory unusable the cache still works from
    memory: a miss calls the producer, returns its value and keeps it in
    the memory table, where the next lookup finds it; the files are not
    touched. *)
Theorem get_survives_unusable_disk type params options key v w :
  getCacheKey type params = Some key ->
  disk_ok w = false ->
  memoryCache w !! key = None ->
  fetcher options = Some (Ok v) ->
  truthy v = true ->
  0 <= effectiveDuration type options ->
  let r := get type params options w in
  fst r = Ok v /\
  files (snd r) = files w /\
  memoryCache (snd r) !! key = Some {| data := v; timestamp := clock w |} /\
  get type params options (snd r) = (Ok v, snd r).
Proof.
  intros Hk Hd Hm Hp Hv Hdur r.
  assert (Hr : r = (Ok v, setInMemory key v (countFetch w))).
  { subst r. unfold get. rewrite Hk. unfold getFromMemory. rewrite Hm, truthy_null.
    unfold getFromFile. rewrite Hd, truthy_null, Hp.
    unfold setInFile. simpl. rewrite Hd. reflexivity. }
  rewrite Hr. cbn [fst snd]. repeat split.
  - apply lookup_insert_eq.
  - apply (get_memory_hit type params options key {| data := v; timestamp := clock w |}).
    + exact Hk.
    + apply lookup_insert_eq.
    + apply isExpired_spec. simpl. lia.
    + exact Hv.
Qed.



(** A key of the forecast type is never the key of the station list, so
    writing forecast data, under any parameters, changes nothing of what a
    lookup of the station list returns. *)
Lemma forecast_writes_leave_stations params params' options v w :
  getCacheKey forecast params <> getCacheKey stations params' /\
  fst (get stations params' options (set forecast v params w))
    = fst (get stations params' options w).
Proof.
  assert (Hne : getCacheKey forecast params <> getCacheKey stations params').
  { simpl. intros [= Heq]. }
  split; [exact Hne|].
  destruct (getCacheKey forecast params) as [fkey|] eqn:Hfk; [|discriminate].
  assert (Hkeys : "stations_list"%string <> fkey).
  { intros Heq. subst fkey. apply Hne. reflexivity. }
  unfold set. rewrite Hfk. unfold get. simpl getCacheKey. cbv iota beta.
  set (d := effectiveDuration stations options).
  unfold getFromMemory, setInFile, setInMemory. simpl.
  destruct (disk_ok w) eqn:Hd; simpl;
    rewrite lookup_insert_ne by congruence;
    (destruct (memoryCache w !! "stations_list"%string) as [em|];
      [destruct (isExpired (clock w) (timestamp em) d);
        [|destruct (truthy (data em)); [reflexivity|]]|]);
    simpl; rewrite ?truthy_null; unfold getFromFile; simpl; rewrite Hd;
    rewrite ?lookup_insert_ne by congruence;
    try (destruct (files w !! "stations_list"%string) as [ef|];
          [destruct (isExpired (clock w) (timestamp ef) d);
            [|destruct (truthy (data ef)); [reflexivity|]]|]);
    simpl; rewrite ?truthy_null;
    destruct (fetcher options) as [[d'|e]|]; reflexivity.
Qed.

End Generic.

Import Fixtures MoreFixtures.

Lemma file_hit_refreshes_memory_witness :
  let r := get stations noParams noOptions (restartedWorld 1000) in
  fst r = Ok (JArr [JNum 178]) /\
  fst (get stations noParams noOptions (advance (CACHE_DURATIONS stations) (snd r)))
    = Ok (JArr [JNum 178]).
Proof.
  assert (Hfresh : clock (restartedWorld 1000) - 0
                   <= effectiveDuration stations (@noOptions json))
    by (vm_compute; discriminate).
  pose proof (file_hit_refreshes_memory stations noParams noOptions "stations_list"
                {| data := JArr [JNum 178]; timestamp := 0 |} (restartedWorld 1000)
                eq_refl eq_refl eq_refl eq_refl eq_refl Hfresh) as (Hr & _ & _ & _ & Hlater).
  split; [exact Hr|].
  assert (Hwin : 0 <= CACHE_DURATIONS stations <= effectiveDuration stations (@noOptions json))
    by (vm_compute; split; discriminate).
  rewrite (Hlater _ Hwin). reflexivity.
Defined.

Lemma get_rejects_only_with_producer_witness :
  fetcher (failing "upstream down") = Some (Throw "upstream down"%string) /\
  fetcherCalls (snd (get stations noParams (failing "upstream down") (emptyWorld 1000)))
    = 1%nat.
Proof.
  assert (Hthrown : fst (get stations noParams (failing "upstream down") (emptyWorld 1000))
                    = Throw "upstream down"%string) by (vm_compute; reflexivity).
  exact (get_rejects_only_with_producer stations noParams (failing "upstream down")
           (emptyWorld 1000) "upstream down" Hthrown).
Defined.

Lemma get_survives_unusable_disk_witness :
  let r := get stations noParams (producing (JArr [])) (disklessWorld 1000) in
  fst r = Ok (JArr []) /\ files (snd r) = ∅.
Proof.
  assert (Hdur : 0 <= effectiveDuration stations (producing (JArr [])))
    by (vm_compute; discriminate).
  pose proof (get_survives_unusable_disk stations noParams (producing (JArr []))
                "stations_list" (JArr []) (disklessWorld 1000)
                eq_refl eq_refl eq_refl eq_refl eq_refl Hdur) as (Hr & Hf & _).
  split; [exact Hr|exact Hf].
Defined.


End CacheExtras.

(** ** More on aggregation: buckets, averages and order *)

Module AggregationExtras.
Import JS ImsApi Utils Readings Buckets AggregationFacts.

Lemma dictGet_None_keys {A} (k : string) (o : Dict A) :
  dictGet k o = None <-> ~ In k (map fst o).
Proof.
  induction o as [|[k' a] o IH]; simpl; [tauto|].
  destruct (String.eqb k' k) eqn:Hk.
  - apply String.eqb_eq in Hk. split; [discriminate|]. intros Hn. exfalso. auto.
  - apply String.eqb_neq in Hk. rewrite IH. tauto.
Qed.

Lemma dictGet_Some_keys {A} (k : string) (o : Dict A) :
  dictGet k o <> None -> In k (map fst o).
Proof.
  induction o as [|[k' a] o IH]; simpl; [congruence|].
  destruct (String.eqb k' k) eqn:Hk.
  - apply String.eqb_eq in Hk. auto.
  - auto.
Qed.

Lemma dictUpdate_keys {A} (key : string) (f : A -> A) (o : Dict A) :
  map fst (dictUpdate key f o) = map fst o.
Proof.
  unfold dictUpdate. rewrite map_map. apply map_ext. intros [k a].
  destruct (String.eqb k key); reflexivity.
Qed.

Lemma dictEnsure_keys {A} (key : string) (fresh : A) (o : Dict A) :
  map fst (dictEnsure key fresh o) =
    match dictGet key o with
    | Some _ => map fst o
    | None => map fst o ++ [key]
    end.
Proof.
  unfold dictEnsure. destruct (dictGet key o); [reflexivity|].
  rewrite map_app. reflexivity.
Qed.

Section Generic.
Context {E A : Type}.
Variable key : E -> string.
Variable apply : E -> A -> A.
Variable fresh : string -> A.

Lemma bucketOf_snoc (k : string) (evs : list E) (ev : E) :
  bucketOf key apply fresh k (evs ++ [ev]) =
    if String.eqb (key ev) k then apply ev (bucketOf key apply fresh k evs)
    else bucketOf key apply fresh k evs.
Proof. unfold bucketOf. rewrite fold_left_app. reflexivity. Qed.

Lemma bucketOf_absent (k : string) (evs : list E) :
  (forall ev, In ev evs -> key ev <> k) -> bucketOf key apply fresh k evs = fresh k.
Proof.
  induction evs as [|ev evs IH] using rev_ind; intros Habs; [reflexivity|].
  rewrite bucketOf_snoc.
  replace (String.eqb (key ev) k) with false
    by (symmetry; apply String.eqb_neq, Habs, in_or_app; right; left; reflexivity).
  apply IH. intros ev' Hin. apply Habs, in_or_app. left. exact Hin.
Qed.

(** The dictionary built by the visit: one key per bucket met, each
    holding the bucket of its key. *)
Lemma fold_buckets (evs : list E) :
  let D := fold_left (foldStep key apply fresh) evs [] in
  (forall k a, In (k, a) D -> a = bucketOf key apply fresh k evs) /\
  (forall k, In k (map fst D) <-> exists ev, In ev evs /\ key ev = k) /\
  List.NoDup (map fst D).
Proof.
  induction evs as [|ev evs IH] using rev_ind; cbn zeta.
  - simpl. split; [intros k a []|]. split; [|constructor].
    intros k. split; [intros []|intros (ev & [] & _)].
  - rewrite fold_left_app. cbn [fold_left]. cbn zeta in IH.
    set (D := fold_left (foldStep key apply fresh) evs []) in *.
    destruct IH as (IH1 & IH2 & IH3). unfold foldStep at 1 2 3.
    assert (Hkeys : map fst (dictUpdate (key ev) (apply ev)
                               (dictEnsure (key ev) (fresh (key ev)) D)) =
                    match dictGet (key ev) D with
                    | Some _ => map fst D
                    | None => map fst D ++ [key ev]
                    end).
    { rewrite dictUpdate_keys, dictEnsure_keys. destruct (dictGet (key ev) D); reflexivity. }
    split; [|split].
    + intros k a Hin.
      apply In_dictUpdate in Hin as [a0 [Hin ->]].
      rewrite bucketOf_snoc, (String.eqb_sym (key ev) k).
      apply In_dictEnsure in Hin as [Hin|(-> & -> & Hnone)].
      * rewrite (IH1 k a0 Hin). reflexivity.
      * rewrite String.eqb_refl, bucketOf_absent; [reflexivity|].
        intros ev' Hin' Heq. apply dictGet_None_keys in Hnone. apply Hnone.
        apply IH2. exists ev'. auto.
    + intros k. rewrite Hkeys. destruct (dictGet (key ev) D) eqn:Hget.
      * rewrite IH2. split.
        -- intros (ev' & Hin & Hk). exists ev'. split; [apply in_or_app; auto|exact Hk].
        -- intros (ev' & Hin & Hk). apply in_app_or in Hin as [Hin|[<-|[]]]; [eauto|].
           apply IH2. rewrite <- Hk. apply dictGet_Some_keys. congruence.
      * rewrite in_app_iff, IH2. simpl. split.
        -- intros [(ev' & Hin & Hk)|[<-|[]]].
           ++ exists ev'. split; [apply in_or_app; auto|exact Hk].
           ++ exists ev. split; [apply in_or_app; right; left|]; reflexivity.
        -- intros (ev' & Hin & Hk). apply in_app_or in Hin as [Hin|[<-|[]]]; eauto.
    + rewrite Hkeys. destruct (dictGet (key ev) D) eqn:Hget; [exact IH3|].
      apply List.NoDup_app; [exact IH3|constructor; [intros []|constructor]|].
      intros k Hk [<-|[]]. apply dictGet_None_keys in Hget. contradiction.
Qed.

End Generic.

(** *** The sort *)

Section Sorting.
Context {A : Type}.
Variable key : A -> string.

Lemma insertBy_perm (x : A) (l : list A) : Permutation (insertBy key x l) (x :: l).
Proof.
  induction l as [|y l IH]; simpl; [reflexivity|].
  destruct (String.leb (key y) (key x)); [|reflexivity].
  rewrite IH. apply perm_swap.
Qed.

Lemma sortBy_perm (l : list A) : Permutation (sortBy key l) l.
Proof.
  unfold sortBy. induction l as [|x l IH]; simpl; [reflexivity|].
  rewrite insertBy_perm. apply perm_skip. exact IH.
Qed.

Lemma insertBy_sorted (x : A) (l : list A) :
  Sorted (fun a b => String.leb (key a) (key b) = true) l ->
  Sorted (fun a b => String.leb (key a) (key b) = true) (insertBy key x l).
Proof.
  induction l as [|y l IH]; simpl; intros Hs.
  - repeat constructor.
  - inversion Hs as [|? ? Hs' Hhd]; subst.
    destruct (String.leb (key y) (key x)) eqn:Hle.
    + constructor; [apply IH; exact Hs'|].
      destruct l as [|z l]; simpl.
      * constructor. exact Hle.
      * destruct (String.leb (key z) (key x)).
        -- inversion Hhd; subst. constructor. assumption.
        -- constructor. exact Hle.
    + constructor; [exact Hs|]. constructor.
      destruct (String.leb_total (key x) (key y)) as [H1|H1]; congruence.
Qed.

Lemma sortBy_sorted (l : list A) :
  Sorted (fun a b => String.leb (key a) (key b) = true) (sortBy key l).
Proof.
  unfold sortBy. induction l as [|x l IH]; simpl; [constructor|].
  apply insertBy_sorted. exact IH.
Qed.

Lemma leb_distinct_ltb (s1 s2 : string) :
  String.leb s1 s2 = true -> s1 <> s2 -> String.ltb s1 s2 = true.
Proof.
  unfold String.leb, String.ltb. intros Hle Hne.
  destruct (String.compare s1 s2) eqn:Hc; try reflexivity; try discriminate.
  apply String.compare_eq_iff in Hc. contradiction.
Qed.

Lemma sorted_distinct_ascending (l : list A) :
  Sorted (fun a b => String.leb (key a) (key b) = true) l ->
  List.NoDup (map key l) ->
  ascendingBy key l.
Proof.
  unfold ascendingBy. induction 1 as [|x l Hs IH Hhd]; intros Hnd; [constructor|].
  simpl in Hnd. inversion Hnd as [|? ? Hnotin Hnd']; subst.
  constructor; [apply IH; exact Hnd'|].
  destruct Hhd as [|y l' Hle]; constructor.
  apply leb_distinct_ltb; [exact Hle|].
  intros Heq. apply Hnotin. simpl. left. symmetry. exact Heq.
Qed.

(** A dictionary whose buckets carry their own key, finished and
    sorted: the keys of the output are the keys of the dictionary, each
    once, in ascending order. *)
Lemma sorted_values_keys {B : Type} (finish : B -> A) (D : Dict B) :
  (forall k b, In (k, b) D -> key (finish b) = k) ->
  List.NoDup (map fst D) ->
  let out := sortBy key (map finish (dictValues D)) in
  (forall k, In k (map key out) <-> In k (map fst D)) /\
  List.NoDup (map key out) /\
  ascendingBy key out.
Proof.
  intros Hown Hnd out.
  assert (Hkeys : map key (map finish (dictValues D)) = map fst D).
  { unfold dictValues. rewrite !map_map. apply map_ext_in.
    intros [k b] Hin. simpl. apply (Hown k b Hin). }
  assert (Hperm : Permutation (map key out) (map fst D)).
  { subst out. rewrite <- Hkeys. apply Permutation_map, sortBy_perm. }
  assert (Hnd' : List.NoDup (map key out)).
  { eapply Permutation_NoDup; [symmetry; exact Hperm|exact Hnd]. }
  split; [|split].
  - intros k. split; intros Hin.
    + eapply Permutation_in; [exact Hperm|exact Hin].
    + eapply Permutation_in; [symmetry; exact Hperm|exact Hin].
  - exact Hnd'.
  - apply sorted_distinct_ascending; [apply sortBy_sorted|exact Hnd'].
Qed.

End Sorting.

(** *** The hourly pass *)

Section Hourly.
Variable tz : Z -> Z.

Lemma hourlyChannel_events (channels : list ChannelDataItem.t)
    (D : Dict HourlyDataAccumulator.t) :
  fold_left (hourlyChannel tz) channels D =
    fold_left (foldStep (hourOf tz) applyHourly freshHour) (events channels) D.
Proof.
  revert D. induction channels as [|channel channels IH]; intros D; [reflexivity|].
  unfold events. simpl. rewrite fold_left_app. fold (events channels).
  rewrite <- IH. f_equal. unfold hourlyChannel.
  destruct (ChannelDataItem.data channel) as [response|]; [|reflexivity].
  destruct (StationDataResponse.data response) as [readings|]; [|reflexivity].
  rewrite fold_left_map_arg. apply fold_left_ext_in. intros acc r _.
  unfold hourlyReading, foldStep, applyHourly, hourOf. simpl.
  destruct (ImsApi.channels r); [symmetry; apply dictUpdate_id|reflexivity].
Qed.

(** The lists an hour's bucket holds, read off the readings of that hour. *)
Lemma hourly_bucket_fields (k : string) (evs : list (Z * DataReading)) :
  let a := bucketOf (hourOf tz) applyHourly freshHour k evs in
  HourlyDataAccumulator.time a = k /\
  HourlyDataAccumulator.temp a = valuesIn (hourOf tz) 7 k evs /\
  HourlyDataAccumulator.humidity a = valuesIn (hourOf tz) 8 k evs /\
  HourlyDataAccumulator.windSpeed a = valuesIn (hourOf tz) 4 k evs /\
  HourlyDataAccumulator.windDir a = valuesIn (hourOf tz) 5 k evs /\
  HourlyDataAccumulator.rain a = valuesIn (hourOf tz) 1 k evs.
Proof.
  induction evs as [|ev evs IH] using rev_ind; cbn zeta.
  - repeat split.
  - cbn zeta in IH. destruct IH as (Ht & H7 & H8 & H4 & H5 & H1).
    rewrite bucketOf_snoc. unfold valuesIn. rewrite !flat_map_app. cbn [flat_map].
    rewrite !app_nil_r. fold (valuesIn (hourOf tz) 7 k evs).
    fold (valuesIn (hourOf tz) 8 k evs). fold (valuesIn (hourOf tz) 4 k evs).
    fold (valuesIn (hourOf tz) 5 k evs). fold (valuesIn (hourOf tz) 1 k evs).
    set (a := bucketOf (hourOf tz) applyHourly freshHour k evs) in *. clearbody a.
    destruct (String.eqb (hourOf tz ev) k) eqn:Hk;
      [|rewrite !andb_false_r, !app_nil_r; auto 10].
    rewrite !andb_true_r. unfold applyHourly.
    destruct (ImsApi.channels (snd ev)) as [|first rest].
    { destruct (fst ev =? 7), (fst ev =? 8), (fst ev =? 4), (fst ev =? 5), (fst ev =? 1);
        rewrite !app_nil_r; auto 10. }
    destruct a as [time temp humidity windSpeed windDir rain].
    simpl in Ht, H7, H8, H4, H5, H1. subst. unfold pushHourly.
    destruct (fst ev =? 7) eqn:E7;
      [apply Z.eqb_eq in E7; rewrite ?E7; simpl; rewrite !app_nil_r; auto 10|].
    destruct (fst ev =? 8) eqn:E8;
      [apply Z.eqb_eq in E8; rewrite ?E8; simpl; rewrite !app_nil_r; auto 10|].
    destruct (fst ev =? 4) eqn:E4;
      [apply Z.eqb_eq in E4; rewrite ?E4; simpl; rewrite !app_nil_r; auto 10|].
    destruct (fst ev =? 5) eqn:E5;
      [apply Z.eqb_eq in E5; rewrite ?E5; simpl; rewrite !app_nil_r; auto 10|].
    destruct (fst ev =? 1) eqn:E1;
      [apply Z.eqb_eq in E1; rewrite ?E1; simpl; rewrite !app_nil_r; auto 10|].
    simpl. rewrite !app_nil_r. auto 10.
Qed.


(** X7. [aggregateHourly] returns one entry for each clock hour in which a
    reading arrived, whatever its channel and whether or not it carries a
    value; the entries are in ascending order of their hour and no hour
    occurs twice. Without readings the result is empty. *)
Theorem aggregateHourly_buckets (channels : list ChannelDataItem.t) :
  let out := aggregateHourly tz channels in
  (forall k, In k (map HourlyForecast.time out) <->
             exists ev, In ev (events channels) /\ hourOf tz ev = k) /\
  List.NoDup (map HourlyForecast.time out) /\
  ascendingBy HourlyForecast.time out /\
  (out = [] <-> events channels = []).
Proof.
  intros out.
  destruct (fold_buckets (hourOf tz) applyHourly freshHour (events channels))
    as (Hbucket & Hkeys & Hnd). cbn zeta in Hbucket, Hkeys, Hnd.
  destruct (sorted_values_keys HourlyForecast.time finishHour
              (fold_left (foldStep (hourOf tz) applyHourly freshHour) (events channels) []))
    as (Hsame & Hnd' & Hasc); [|exact Hnd|].
  { intros k b Hin. rewrite (Hbucket k b Hin). unfold finishHour. simpl.
    apply (proj1 (hourly_bucket_fields k (events channels))). }
  cbn zeta in Hsame, Hnd', Hasc.
  assert (Hout : out = sortBy HourlyForecast.time
                         (map finishHour
                            (dictValues (fold_left (foldStep (hourOf tz) applyHourly freshHour)
                                           (events channels) [])))).
  { subst out. unfold aggregateHourly. rewrite hourlyChannel_events. reflexivity. }
  rewrite Hout. split; [|split; [exact Hnd'|split; [exact Hasc|]]].
  - intros k. rewrite Hsame. apply Hkeys.
  - rewrite <- Hout. split.
    + intros Hempty. destruct (events channels) as [|ev evs] eqn:Hev; [reflexivity|].
      exfalso. assert (Hin : In (hourOf tz ev) (map HourlyForecast.time out)).
      { rewrite Hout. apply Hsame. apply Hkeys. exists ev. split; [left|]; reflexivity. }
      rewrite Hempty in Hin. exact Hin.
    + intros Hev. rewrite Hout, Hev. reflexivity.
Qed.

End Hourly.

(** *** The daily pass *)

Section Daily.
Variable tz : Z -> Z.

Lemma daily_fold_buckets (channels : list ChannelDataItem.t) :
  fold_left (dailyChannel tz) channels [] =
    fold_left (foldStep (keyOf tz) applyReading freshDay) (events channels) [].
Proof.
  rewrite dailyChannel_events. apply fold_left_ext_in. intros D ev _.
  apply dailyStep_eq.
Qed.

(** The lists a day's bucket holds besides the temperatures. *)
Lemma daily_bucket_fields (k : string) (evs : list (Z * DataReading)) :
  let a := bucketOf (keyOf tz) applyReading freshDay k evs in
  DailyDataAccumulator.date a = k /\
  DailyDataAccumulator.humidity a = valuesIn (keyOf tz) 8 k evs /\
  DailyDataAccumulator.windSpeed a = valuesIn (keyOf tz) 4 k evs /\
  DailyDataAccumulator.rain a = valuesIn (keyOf tz) 1 k evs.
Proof.
  induction evs as [|ev evs IH] using rev_ind; cbn zeta.
  - repeat split.
  - cbn zeta in IH. destruct IH as (Hd & H8 & H4 & H1).
    rewrite bucketOf_snoc. unfold valuesIn. rewrite !flat_map_app. cbn [flat_map].
    rewrite !app_nil_r. fold (valuesIn (keyOf tz) 8 k evs).
    fold (valuesIn (keyOf tz) 4 k evs). fold (valuesIn (keyOf tz) 1 k evs).
    set (a := bucketOf (keyOf tz) applyReading freshDay k evs) in *. clearbody a.
    destruct (String.eqb (keyOf tz ev) k) eqn:Hk;
      [|rewrite !andb_false_r, !app_nil_r; auto].
    rewrite !andb_true_r. unfold applyReading.
    destruct (ImsApi.channels (snd ev)) as [|first rest].
    { destruct (fst ev =? 8), (fst ev =? 4), (fst ev =? 1); rewrite !app_nil_r; auto. }
    destruct a as [date temps lastTemp lastTempTime humidity windSpeed rain].
    simpl in Hd, H8, H4, H1. subst. unfold pushDaily.
    destruct (fst ev =? 7) eqn:E7.
    { apply Z.eqb_eq in E7. rewrite ?E7. simpl.
      destruct (isLater _ _); simpl; rewrite !app_nil_r; auto. }
    destruct (fst ev =? 8) eqn:E8;
      [apply Z.eqb_eq in E8; rewrite ?E8; simpl; rewrite !app_nil_r; auto|].
    destruct (fst ev =? 4) eqn:E4;
      [apply Z.eqb_eq in E4; rewrite ?E4; simpl; rewrite !app_nil_r; auto|].
    destruct (fst ev =? 1) eqn:E1;
      [apply Z.eqb_eq in E1; rewrite ?E1; simpl; rewrite !app_nil_r; auto|].
    simpl. rewrite !app_nil_r. auto.
Qed.


(** X9. [aggregateDaily] returns one bucket for each calendar day on which
    a reading arrived, whatever its channel and whether or not it carries
    a value; the buckets are in ascending order of their date and no date
    occurs twice. Without readings the result is empty. *)
Theorem aggregateDaily_buckets (channels : list ChannelDataItem.t) :
  let out := aggregateDaily tz channels in
  (forall k, In k (map DailyForecast.date out) <->
             exists ev, In ev (events channels) /\ keyOf tz ev = k) /\
  List.NoDup (map DailyForecast.date out) /\
  ascendingBy DailyForecast.date out /\
  (out = [] <-> events channels = []).
Proof.
  intros out.
  destruct (fold_buckets (keyOf tz) applyReading freshDay (events channels))
    as (Hbucket & Hkeys & Hnd). cbn zeta in Hbucket, Hkeys, Hnd.
  destruct (sorted_values_keys DailyForecast.date finishDay
              (fold_left (foldStep (keyOf tz) applyReading freshDay) (events channels) []))
    as (Hsame & Hnd' & Hasc); [|exact Hnd|].
  { intros k b Hin. rewrite (Hbucket k b Hin). unfold finishDay. simpl.
    apply (proj1 (daily_bucket_fields k (events channels))). }
  cbn zeta in Hsame, Hnd', Hasc.
  assert (Hout : out = sortBy DailyForecast.date
                         (map finishDay
                            (dictValues (fold_left (foldStep (keyOf tz) applyReading freshDay)
                                           (events channels) [])))).
  { subst out. unfold aggregateDaily. rewrite daily_fold_buckets. reflexivity. }
  rewrite Hout. split; [|split; [exact Hnd'|split; [exact Hasc|]]].
  - intros k. rewrite Hsame. apply Hkeys.
  - rewrite <- Hout. split.
    + intros Hempty. destruct (events channels) as [|ev evs] eqn:Hev; [reflexivity|].
      exfalso. assert (Hin : In (keyOf tz ev) (map DailyForecast.date out)).
      { rewrite Hout. apply Hsame. apply Hkeys. exists ev. split; [left|]; reflexivity. }
      rewrite Hempty in Hin. exact Hin.
    + intros Hev. rewrite Hout, Hev. reflexivity.
Qed.

End Daily.

Import Fixtures MoreFixtures.



End AggregationExtras.

(** ** More on the fallback generator *)

Module FallbackExtras.
Import JS Utils FallbackForecast Stamps FallbackFacts.

Section Hourly.
Variable Math_sin : Q -> Q.
Variable Math_PI : Q.

Lemma hourlyEntry_fields (currentHour : Z) (baseTemp : Q) (g : Rng) :
  let entry := fst (hourlyEntry Math_sin Math_PI currentHour baseTemp g) in
  HourlyForecast.time entry = hourStamp currentHour /\
  HourlyForecast.temp entry <> None /\
  HourlyForecast.humidity entry <> None /\
  HourlyForecast.windSpeed entry <> None /\
  HourlyForecast.windDir entry <> None.
Proof.
  unfold hourlyEntry, random. cbn [draws position].
  destruct (Qle_bool _ _); cbn [fst HourlyForecast.time HourlyForecast.temp
    HourlyForecast.humidity HourlyForecast.windSpeed HourlyForecast.windDir];
    repeat split; discriminate.
Qed.

Lemma hourlyLoop_entries (n : nat) :
  forall (currentHour to : Z) (baseTemp : Q) (g : Rng) (forecasts : list HourlyForecast.t),
    currentHour + Z.of_nat n * msPerHour = to + 1000 ->
    exists pushed g',
      hourlyLoop Math_sin Math_PI n currentHour to baseTemp g forecasts
        = Some (forecasts ++ pushed, g') /\
      length pushed = n /\
      forall i, (i < n)%nat ->
        exists entry,
          nth_error pushed i = Some entry /\
          HourlyForecast.time entry = hourStamp (currentHour + Z.of_nat i * msPerHour) /\
          HourlyForecast.temp entry <> None /\
          HourlyForecast.humidity entry <> None /\
          HourlyForecast.windSpeed entry <> None /\
          HourlyForecast.windDir entry <> None.
Proof.
  induction n as [|n IH]; intros currentHour to baseTemp g forecasts Hn.
  - exists [], g. simpl.
    replace (currentHour <=? to) with false
      by (symmetry; apply Z.leb_gt; unfold msPerHour in Hn; lia).
    rewrite app_nil_r. repeat split. intros i Hi. inversion Hi.
  - cbn [hourlyLoop].
    replace (currentHour <=? to) with true
      by (symmetry; apply Z.leb_le; unfold msPerHour in Hn; lia).
    destruct (hourlyEntry Math_sin Math_PI currentHour baseTemp g) as [entry g1] eqn:Hentry.
    destruct (IH (currentHour + msPerHour) to baseTemp g1 (forecasts ++ [entry]))
      as (pushed & g' & Hloop & Hlen & Hnth); [lia|].
    exists (entry :: pushed), g'. rewrite Hloop, <- app_assoc. simpl.
    split; [reflexivity|]. split; [congruence|].
    intros [|i] Hi.
    + exists entry. split; [reflexivity|].
      pose proof (hourlyEntry_fields currentHour baseTemp g) as Hf.
      rewrite Hentry in Hf. cbn [fst] in Hf. cbn zeta in Hf.
      replace (currentHour + Z.of_nat 0 * msPerHour) with currentHour by lia. exact Hf.
    + destruct (Hnth i ltac:(lia)) as (e & He & Htime & Hrest).
      exists e. simpl. split; [exact He|]. split; [|exact Hrest].
      rewrite Htime. f_equal. lia.
Qed.

(** X10. The hourly generator, on a window that does not end before it
    starts, returns 24 entries for each day of the window: the i-th one is
    stamped with the i-th hour after the start of the first day, and its
    temperature, humidity, wind speed and wind direction are set. *)
Theorem generateFallbackHourlyForecast_covers (fromDate toDate : Z) (baseTemp : Q) (g : Rng) :
  fromDate <= toDate ->
  exists points g',
    generateFallbackHourlyForecast Math_sin Math_PI fromDate toDate baseTemp g
      = Some (points, g') /\
    Z.of_nat (length points) = 24 * (toDate - fromDate + 1) /\
    forall i, 0 <= i < 24 * (toDate - fromDate + 1) ->
      exists entry,
        nth_error points (Z.to_nat i) = Some entry /\
        HourlyForecast.time entry = hourStamp (dateOfDay fromDate + i * msPerHour) /\
        HourlyForecast.temp entry <> None /\
        HourlyForecast.humidity entry <> None /\
        HourlyForecast.windSpeed entry <> None /\
        HourlyForecast.windDir entry <> None.
Proof.
  intros Hwin. unfold generateFallbackHourlyForecast.
  destruct (hourlyLoop_entries (Z.to_nat ((toDate - fromDate + 1) * 24))
              (dateOfDay fromDate) (dateOfDay toDate + msPerDay - 1000) baseTemp g [])
    as (pushed & g' & Hloop & Hlen & Hnth).
  { unfold dateOfDay, msPerDay, msPerHour. lia. }
  exists pushed, g'. split; [exact Hloop|]. split; [lia|].
  intros i Hi. destruct (Hnth (Z.to_nat i) ltac:(lia)) as (e & He & Htime & Hrest).
  exists e. split; [exact He|]. split; [|exact Hrest].
  rewrite Htime, Z2Nat.id by lia. reflexivity.
Qed.

(** X11. On a window that ends before it starts both generators return an
    empty series without drawing a single random number. *)
Theorem generateFallback_inverted_window (period : string) (fromDate toDate : Z)
    (baseTemp : Q) (g : Rng) :
  toDate < fromDate ->
  generateFallbackDailyForecast Math_sin fromDate toDate baseTemp g = Some ([], g) /\
  generateFallbackHourlyForecast Math_sin Math_PI fromDate toDate baseTemp g = Some ([], g) /\
  exists forecast,
    generateFallbackForecast Math_sin Math_PI period fromDate toDate baseTemp g
      = Some (forecast, g) /\
    forecastLength forecast = 0.
Proof.
  intros Hinv.
  assert (Hd : generateFallbackDailyForecast Math_sin fromDate toDate baseTemp g
               = Some ([], g)).
  { unfold generateFallbackDailyForecast.
    replace (Z.to_nat (toDate - fromDate + 1)) with 0%nat by lia.
    simpl. rewrite dateOfDay_leb.
    replace (fromDate <=? toDate) with false by (symmetry; apply Z.leb_gt; lia).
    reflexivity. }
  assert (Hh : generateFallbackHourlyForecast Math_sin Math_PI fromDate toDate baseTemp g
               = Some ([], g)).
  { unfold generateFallbackHourlyForecast.
    replace (Z.to_nat ((toDate - fromDate + 1) * 24)) with 0%nat by lia.
    simpl.
    replace (dateOfDay fromDate <=? dateOfDay toDate + msPerDay - 1000) with false
      by (symmetry; apply Z.leb_gt; unfold dateOfDay, msPerDay; lia).
    reflexivity. }
  split; [exact Hd|]. split; [exact Hh|].
  unfold generateFallbackForecast. rewrite Hd, Hh.
  destruct (String.eqb period "today"); simpl; eexists; split; reflexivity.
Qed.

End Hourly.

Lemma generateFallbackHourlyForecast_covers_witness :
  exists points g',
    generateFallbackHourlyForecast (fun _ => 0%Q) (355 # 113) 20495 20496 20
      {| draws := fun _ => 1 # 2; position := 0 |} = Some (points, g') /\
    length points = 48%nat.
Proof.
  destruct (generateFallbackHourlyForecast_covers (fun _ => 0%Q) (355 # 113) 20495 20496 20
              {| draws := fun _ => 1 # 2; position := 0 |} ltac:(lia))
    as (points & g' & Hgen & Hlen & _).
  exists points, g'. split; [exact Hgen|lia].
Defined.

Lemma generateFallback_inverted_window_witness :
  generateFallbackDailyForecast (fun _ => 0%Q) 20496 20495 20
    {| draws := fun _ => 1 # 2; position := 0 |}
  = Some ([], {| draws := fun _ => 1 # 2; position := 0 |}).
Proof.
  exact (proj1 (generateFallback_inverted_window (fun _ => 0%Q) (355 # 113) "week"
                  20496 20495 20 {| draws := fun _ => 1 # 2; position := 0 |}
                  ltac:(lia))).
Defined.

End FallbackExtras.

(** ** More on the feed adapter *)

Module AdapterExtras.
Import JS Utils FallbackForecast ForecastAdapter Stamps.

Lemma orElse_filled (a : option string) (b : string) :
  b <> ""%string -> orElse a b <> ""%string.
Proof.
  intros Hb. unfold orElse. destruct a as [s|]; [|exact Hb].
  destruct (String.eqb s "") eqn:E; [exact Hb|].
  apply String.eqb_neq. exact E.
Qed.

Lemma isoDateOfMs_filled (ms : Z) : isoDateOfMs ms <> ""%string.
Proof.
  unfold isoDateOfMs. destruct (isoYear (getUTCFullYear ms)); discriminate.
Qed.

Section Adapter.
Variable extractForecastData : ParsedForecast -> ExtractedForecastData.

(** X12. For [today] and a feed with at least one item the hourly series
    has 48 entries, stamped hour by hour from the current instant; the
    measured fields of every entry are those read from the first item, so
    they are the same in all 48 entries and never null, and the items
    after the first are not looked at. *)
Theorem convertToHourlyFormat_replicates (now : Z) (first : ParsedForecast)
    (rest : list ParsedForecast) :
  let points := convertToHourlyFormat extractForecastData now (first :: rest) (Some "today") in
  length points = 48%nat /\
  points = convertToHourlyFormat extractForecastData now [first] (Some "today") /\
  (forall i, (i < 48)%nat ->
     exists entry,
       nth_error points i = Some entry /\
       HourlyForecast.time entry = isoHourStamp (now + Z.of_nat i * msPerHour)) /\
  (forall a b, In a points -> In b points ->
     HourlyForecast.temp a = HourlyForecast.temp b /\
     HourlyForecast.humidity a = HourlyForecast.humidity b /\
     HourlyForecast.windSpeed a = HourlyForecast.windSpeed b /\
     HourlyForecast.windDir a = HourlyForecast.windDir b /\
     HourlyForecast.rain a = HourlyForecast.rain b) /\
  (forall a, In a points ->
     HourlyForecast.temp a <> None /\
     HourlyForecast.humidity a <> None /\
     HourlyForecast.windSpeed a <> None /\
     HourlyForecast.windDir a <> None /\
     HourlyForecast.rain a <> None).
Proof.
  cbv zeta. unfold convertToHourlyFormat. cbn [String.eqb Ascii.eqb Bool.eqb].
  split; [rewrite length_map, length_seq; reflexivity|].
  split; [reflexivity|].
  split.
  - intros i Hi.
    exists (hourlyEntryAt (extractForecastData first) now i). split.
    + rewrite nth_error_map, nth_error_seq.
      replace (i <? 48)%nat with true by (symmetry; apply Nat.ltb_lt; exact Hi).
      reflexivity.
    + unfold hourlyEntryAt, isoHourStamp, msPerHour. cbn [HourlyForecast.time].
      replace (now + Z.of_nat i * 60 * 60 * 1000) with (now + Z.of_nat i * (1000 * 60 * 60))
        by lia.
      reflexivity.
  - split.
    + intros a b [i [<- _]]%in_map_iff [j [<- _]]%in_map_iff.
      repeat split; reflexivity.
    + intros a [i [<- _]]%in_map_iff.
      repeat split; discriminate.
Qed.

(** The answer built from a feed holds 48 entries for [today] when the
    feed has items and none when it has not; for every other period,
    a missing one included, it holds one entry for each item of the
    feed. *)
Lemma formatForecastResponse_length (now : Z) (stationId cityId cityName : string)
    (period : option string) (dateRange : DateRange) (forecasts : list ParsedForecast) :
  forecastLength
    (forecast (formatForecastResponse extractForecastData now stationId cityId cityName
                 period dateRange forecasts))
  = match period with
    | Some p =>
        if String.eqb p "today"
        then match forecasts with [] => 0 | _ :: _ => 48 end
        else Z.of_nat (length forecasts)
    | None => Z.of_nat (length forecasts)
    end.
Proof.
  unfold formatForecastResponse. cbn [forecast].
  destruct period as [p|].
  - destruct (String.eqb p "today") eqn:E.
    + apply String.eqb_eq in E. subst p. destruct forecasts; reflexivity.
    + assert (Hd : match p with
                   | "today"%string =>
                       Hourly (convertToHourlyFormat extractForecastData now forecasts (Some p))
                   | _ => Daily (convertToDailyFormat extractForecastData now forecasts)
                   end = Daily (convertToDailyFormat extractForecastData now forecasts)).
      { destruct (string_dec p "today") as [->|Hne]; [discriminate E|].
        repeat match goal with
               | |- context [match ?x with _ => _ end] =>
                   is_var x; destruct x; try reflexivity
               end; congruence. }
      rewrite Hd. unfold convertToDailyFormat. cbn. rewrite length_map. reflexivity.
  - unfold convertToDailyFormat. cbn. rewrite length_map. reflexivity.
Qed.

(** X13. The daily series has one entry for each item of the feed, in the
    order of the feed. No entry has an empty date or a null field, and
    where nothing was read for the minimum or the maximum temperature
    the entry repeats its current temperature there. *)
Theorem convertToDailyFormat_entries (now : Z) (forecasts : list ParsedForecast) :
  let days := convertToDailyFormat extractForecastData now forecasts in
  length days = length forecasts /\
  forall i item,
    nth_error forecasts i = Some item ->
    exists entry,
      nth_error days i = Some entry /\
      DailyForecast.date entry <> ""%string /\
      DailyForecast.tempMin entry <> None /\
      DailyForecast.tempMax entry <> None /\
      DailyForecast.tempCurrent entry <> None /\
      DailyForecast.humidity entry <> None /\
      DailyForecast.windSpeed entry <> None /\
      DailyForecast.rain entry <> None /\
      (tempMin (extractForecastData item) = None ->
       DailyForecast.tempMin entry = DailyForecast.tempCurrent entry) /\
      (tempMax (extractForecastData item) = None ->
       DailyForecast.tempMax entry = DailyForecast.tempCurrent entry).
Proof.
  cbv zeta. unfold convertToDailyFormat. split; [apply length_map|].
  intros i item Hitem. rewrite nth_error_map, Hitem. cbn [option_map].
  eexists. split; [reflexivity|].
  cbn [DailyForecast.date DailyForecast.tempMin DailyForecast.tempMax
       DailyForecast.tempCurrent DailyForecast.humidity DailyForecast.windSpeed
       DailyForecast.rain].
  split; [apply orElse_filled, orElse_filled, isoDateOfMs_filled|].
  repeat (split; [discriminate|]).
  split; intros ->; reflexivity.
Qed.

End Adapter.

Lemma convertToDailyFormat_entries_witness :
  exists entry,
    nth_error (convertToDailyFormat Fixtures.noExtraction 0
                 [{| title := "Tel Aviv"; description := "Partly cloudy";
                     pubDate := "2026-02-11T06:00:00Z" |}]) 0 = Some entry /\
    DailyForecast.date entry <> ""%string.
Proof.
  destruct (convertToDailyFormat_entries Fixtures.noExtraction 0
              [{| title := "Tel Aviv"; description := "Partly cloudy";
                  pubDate := "2026-02-11T06:00:00Z" |}]) as [_ Hentries].
  destruct (Hentries 0%nat _ eq_refl) as (entry & Hnth & Hdate & _).
  exists entry. split; [exact Hnth|exact Hdate].
Defined.

End AdapterExtras.

(** ** More on the forecast route *)

Module RouteExtras.
Import JS ImsApi Utils FallbackForecast ForecastAdapter Server.


Lemma aggregateHourly_nil (tz : Z -> Z) : aggregateHourly tz [] = [].
Proof. reflexivity. Qed.

Lemma omap_all_fail (upstream : Upstream) (stationId : option Z) (fromDate toDate : Z)
    (channelIds : list Z) :
  (forall channelId, In channelId channelIds ->
     exists e, upstream stationId channelId fromDate toDate = Throw e) ->
  omap (fun channelId =>
          match upstream stationId channelId fromDate toDate with
          | Ok data => Some {| ChannelDataItem.channelId := channelId;
                               ChannelDataItem.data := Some data |}
          | Throw _ => None
          end) channelIds = [].
Proof.
  induction channelIds as [|c cs IH]; intros Hall; [reflexivity|].
  cbn [omap list_omap]. destruct (Hall c (or_introl eq_refl)) as [e ->].
  apply IH. intros c' Hc'. apply Hall. right. exact Hc'.
Qed.



(** For [today] the answer from the station is never generated: it is
    the hourly aggregate of whatever the upstream returned. *)
Lemma stationForecast_today_not_generated (env : Env) (sid : string)
    (dateRange : DateRange) :
  exists channels,
    getStationDataMultiChannel (getStationData env) (parseInt sid) channelIds
      (from dateRange) (to dateRange) = Ok channels /\
    stationForecast env sid (Some "today") dateRange
      = Ok (Some (Hourly (aggregateHourly (tz env) channels))).
Proof.
  unfold stationForecast.
  rewrite ImsApiFacts.getStationDataMultiChannel_resolves. cbn [bind].
  eexists. split; reflexivity.
Qed.

(** X16. With no usable feed and an upstream that fails on every channel,
    a [today] request for a known station is still answered as coming
    from the station, with an empty forecast. *)
Theorem forecastRoute_today_outage (env : Env) (sid : string)
    (stations : option (list Station.t)) (station : Station.t) :
  sid <> ""%string ->
  stationsLookup env = Ok stations ->
  findStation stations sid = Some station ->
  tryXmlForecast env
    (findNearestCity env (Station.latitude station) (Station.longitude station)) = None ->
  (forall channelId fromDate toDate,
     exists e, getStationData env (parseInt sid) channelId fromDate toDate = Throw e) ->
  exists body,
    forecastRoute env (Some sid) (Some "today") = Some (Json body) /\
    source body = "station"%string /\
    forecast body = Hourly [].
Proof.
  intros Hsid Hlookup Hfind Hxml Hdown.
  unfold forecastRoute.
  apply String.eqb_neq in Hsid. rewrite Hsid, Hlookup, Hfind, Hxml.
  unfold stationForecast.
  rewrite ImsApiFacts.getStationDataMultiChannel_resolves. cbn [bind].
  rewrite omap_all_fail by (intros; apply Hdown).
  cbn [insufficient isToday String.eqb Ascii.eqb Bool.eqb negb andb aggregateFor].
  eexists. split; [reflexivity|]. split; reflexivity.
Qed.

(** X17. A request without a period (or with an empty one) whose daily
    aggregate is too short gets an hourly generated series, 24 entries
    for each day of the window, since the generator is asked for
    [period || 'today']. *)
Theorem stationForecast_unnamed_period (env : Env) (sid : string) (period : option string)
    (dateRange : DateRange) (channels : list ChannelDataItem.t) :
  period = None \/ period = Some ""%string ->
  from dateRange <= to dateRange ->
  getStationDataMultiChannel (getStationData env) (parseInt sid) channelIds
    (from dateRange) (to dateRange) = Ok channels ->
  Z.of_nat (length (aggregateDaily (tz env) channels)) < Z.min 3 (expectedDays dateRange) ->
  exists points,
    stationForecast env sid period dateRange = Ok (Some (Hourly points)) /\
    Z.of_nat (length points) = 24 * (to dateRange - from dateRange + 1).
Proof.
  intros Hperiod Hwin Hchannels Hshort.
  unfold stationForecast. rewrite Hchannels. cbn [bind].
  assert (Htoday : isToday period = false) by (destruct Hperiod as [->| ->]; reflexivity).
  assert (Hor : orToday period = "today"%string) by (destruct Hperiod as [->| ->]; reflexivity).
  unfold insufficient, aggregateFor. rewrite Htoday, Hor. cbn [negb andb forecastLength].
  replace (_ <? _) with true by (symmetry; apply Z.ltb_lt; exact Hshort).
  unfold generateFallbackForecast. cbn [String.eqb Ascii.eqb Bool.eqb].
  unfold generateFallbackHourlyForecast.
  destruct (FallbackFacts.hourlyLoop_runs (Math_sin env) (Math_PI env)
              (Z.to_nat ((to dateRange - from dateRange + 1) * 24))
              (dateOfDay (from dateRange)) (dateOfDay (to dateRange) + msPerDay - 1000)
              20 (rng env) [])
    as (pushed & g' & Hloop & Hlen).
  { unfold dateOfDay, msPerDay, msPerHour. lia. }
  rewrite Hloop. cbn. exists pushed. split; [reflexivity|lia].
Qed.

Import Fixtures.



Lemma forecastRoute_today_outage_witness :
  exists body,
    forecastRoute (envWith upstreamDown) (Some "178") (Some "today") = Some (Json body) /\
    source body = "station"%string /\
    forecast body = Hourly [].
Proof.
  apply (forecastRoute_today_outage (envWith upstreamDown) "178"
           (Some [station178]) station178);
    [discriminate|reflexivity|reflexivity|reflexivity|].
  intros channelId fromDate toDate. eexists. reflexivity.
Defined.

Lemma stationForecast_unnamed_period_witness :
  exists points,
    stationForecast (envWith upstreamDown) "178" None {| from := day0; to := day0 + 1 |}
      = Ok (Some (Hourly points)) /\
    Z.of_nat (length points) = 48.
Proof.
  apply (stationForecast_unnamed_period (envWith upstreamDown) "178" None
           {| from := day0; to := day0 + 1 |} []);
    [left; reflexivity|cbn; lia|reflexivity|vm_compute; reflexivity].
Defined.

End RouteExtras.

(** ** The nearest-neighbour searches *)

Module SearchExtras.
Import JS ImsApi Floats CityStationMapping ServerRoutes.

Lemma lt_finite (a b : Num) : lt a b = true -> exists q, a = Finite q.
Proof. destruct a as [|q|]; try discriminate. eauto. Qed.

Lemma lt_irrefl (a : Num) : lt a a = false.
Proof.
  destruct a as [|q|]; try reflexivity. simpl.
  apply negb_false_iff, Qle_bool_iff, Qle_refl.
Qed.

Lemma lt_Qlt (x y : Q) : lt (Finite x) (Finite y) = true <-> (x < y)%Q.
Proof.
  simpl. rewrite negb_true_iff. split.
  - intros H. apply Qnot_le_lt. intros Hle. apply Qle_bool_iff in Hle. congruence.
  - intros H. destruct (Qle_bool y x) eqn:E; [|reflexivity].
    apply Qle_bool_iff in E. exfalso. exact (Qlt_not_le _ _ H E).
Qed.

Lemma lt_Qle (x y : Q) : lt (Finite x) (Finite y) = false <-> (y <= x)%Q.
Proof.
  simpl. rewrite negb_false_iff. apply Qle_bool_iff.
Qed.

(** Below the running minimum: below everything that was not. *)
Lemma lt_below (a d z : Num) :
  lt a d = true -> lt z d = false -> z <> NaN -> lt a z = true.
Proof.
  intros Had Hzd Hz. destruct (lt_finite _ _ Had) as [p ->].
  destruct z as [|r|]; [congruence| |reflexivity].
  destruct d as [|q|]; [discriminate|  |discriminate].
  apply lt_Qlt in Had. apply lt_Qle in Hzd. apply lt_Qlt.
  eapply Qlt_le_trans; eassumption.
Qed.

Lemma lt_not_below (a d z : Num) :
  lt a d = true -> lt z d = false -> lt z a = false.
Proof.
  intros Had Hzd. destruct (lt_finite _ _ Had) as [p ->].
  destruct z as [|r|]; [reflexivity| |reflexivity].
  destruct d as [|q|]; [discriminate|  |discriminate].
  apply lt_Qlt in Had. apply lt_Qle in Hzd. apply lt_Qle.
  apply Qlt_le_weak. eapply Qlt_le_trans; eassumption.
Qed.

Section Scan.
Context {A : Type}.
Variable ok : A -> bool.
Variable dist : A -> Num.

(** What both search loops compute: the first item, among those that
    pass the test, whose distance is below every earlier one and above
    none. *)
Lemma scan_spec (l : list A) :
  match fold_left
          (fun acc x =>
             if ok x then (if lt (dist x) (snd acc) then (Some x, dist x) else acc) else acc)
          l (None, Infinity) with
  | (None, d) =>
      d = Infinity /\
      forall x, In x l -> ok x = true -> lt (dist x) Infinity = false
  | (Some y, d) =>
      exists before after q,
        l = before ++ y :: after /\
        ok y = true /\
        d = dist y /\
        d = Finite q /\
        (forall x, In x before -> ok x = true -> dist x <> NaN -> lt d (dist x) = true) /\
        (forall x, In x l -> ok x = true -> lt (dist x) d = false)
  end.
Proof.
  induction l as [|x l IH] using rev_ind.
  - simpl. split; [reflexivity|]. intros x [].
  - rewrite fold_left_app. cbn [fold_left].
    destruct (fold_left _ l (None, Infinity)) as [r d].
    destruct (ok x) eqn:Hok.
    + cbn [snd]. destruct (lt (dist x) d) eqn:Hlt.
      * destruct (lt_finite _ _ Hlt) as [q Hq].
        assert (Hprev : forall z, In z l -> ok z = true -> lt (dist z) d = false).
        { destruct r as [y|].
          - destruct IH as (_ & _ & _ & _ & _ & _ & _ & _ & Hall). exact Hall.
          - destruct IH as [-> Hall]. exact Hall. }
        exists l, [], q. split; [reflexivity|]. split; [exact Hok|].
        split; [reflexivity|]. split; [exact Hq|]. split.
        -- intros z Hz Hokz Hnan. eapply lt_below; eauto.
        -- intros z [Hz|[<-|[]]]%in_app_iff Hokz.
           ++ eapply lt_not_below; eauto.
           ++ apply lt_irrefl.
      * destruct r as [y|].
        -- destruct IH as (before & after & q & -> & Hoky & Hd & Hq & Hbefore & Hall).
           exists before, (after ++ [x]), q.
           split; [rewrite <- app_assoc; reflexivity|].
           split; [exact Hoky|]. split; [exact Hd|]. split; [exact Hq|].
           split; [exact Hbefore|].
           intros z [Hz|[<-|[]]]%in_app_iff Hokz; [apply Hall; assumption|exact Hlt].
        -- destruct IH as [-> Hall]. split; [reflexivity|].
           intros z [Hz|[<-|[]]]%in_app_iff Hokz; [apply Hall; assumption|exact Hlt].
    + destruct r as [y|].
      * destruct IH as (before & after & q & -> & Hoky & Hd & Hq & Hbefore & Hall).
        exists before, (after ++ [x]), q.
        split; [rewrite <- app_assoc; reflexivity|].
        split; [exact Hoky|]. split; [exact Hd|]. split; [exact Hq|].
        split; [exact Hbefore|].
        intros z [Hz|[<-|[]]]%in_app_iff Hokz; [apply Hall; assumption|congruence].
      * destruct IH as [-> Hall]. split; [reflexivity|].
        intros z [Hz|[<-|[]]]%in_app_iff Hokz; [apply Hall; assumption|congruence].
Qed.

End Scan.

Section Stations.
Variable parseFloat : string -> Num.
Variable calculateDistance : Num -> Num -> Q -> Q -> Num.

(** The distance the route computes for a station. *)
Local Abbreviation distanceTo lat lon station :=
  (calculateDistance (parseFloat lat) (parseFloat lon)
     (Station.latitude station) (Station.longitude station)).

(** X18. The station the route returns has two non-zero coordinates and a
    finite distance, which is the one reported, with two decimals. It is
    strictly closer than every station before it in the list and at
    least as close as every other one (stations with a zero coordinate
    and distances that are not numbers aside). *)
Theorem nearestStationRoute_closest (lat lon : option string)
    (stationsLookup : result (option (list Station.t)))
    (station : Station.t) (distance : string) :
  nearestStationRoute parseFloat calculateDistance lat lon stationsLookup
    = NearestJson station distance ->
  exists lat' lon' before after q,
    lat = Some lat' /\ lon = Some lon' /\
    stationsLookup = Ok (Some (before ++ station :: after)) /\
    located station = true /\
    distanceTo lat' lon' station = Finite q /\
    distance = toFixed 2 q /\
    (forall other, In other before -> located other = true ->
       distanceTo lat' lon' other <> NaN ->
       lt (Finite q) (distanceTo lat' lon' other) = true) /\
    (forall other, In other (before ++ station :: after) -> located other = true ->
       lt (distanceTo lat' lon' other) (Finite q) = false).
Proof.
  unfold nearestStationRoute.
  destruct lat as [lat'|]; [|discriminate].
  destruct lon as [lon'|]; [|discriminate].
  destruct (missing (Some lat') || missing (Some lon')); [discriminate|].
  destruct stationsLookup as [[stationList|]|e]; try discriminate.
  pose proof (scan_spec located (fun s => distanceTo lat' lon' s) stationList) as Hscan.
  change (fold_left _ stationList (None, Infinity))
    with (fold_left (visitStation calculateDistance (parseFloat lat') (parseFloat lon'))
            stationList (None, Infinity)) in Hscan.
  destruct (fold_left _ stationList (None, Infinity)) as [[nearest|] minDistance];
    [|discriminate].
  intros [= <- <-].
  destruct Hscan as (before & after & q & -> & Hok & Hd & Hq & Hbefore & Hall).
  exists lat', lon', before, after, q.
  rewrite Hq in *. repeat split; auto.
Qed.

(** X19. The route answers with an error status in three cases only: 400
    when a coordinate is missing or empty, 500 when the station list
    cannot be obtained or is null, 404 when no station of the list has
    two non-zero coordinates and a distance below infinity. *)
Theorem nearestStationRoute_error_causes (lat lon : option string)
    (stationsLookup : result (option (list Station.t))) (code : Z) (message : string) :
  nearestStationRoute parseFloat calculateDistance lat lon stationsLookup
    = NearestStatus code message ->
  (code = 400 /\ (missing lat = true \/ missing lon = true)) \/
  (code = 500 /\ ((exists e, stationsLookup = Throw e) \/ stationsLookup = Ok None)) \/
  (code = 404 /\
   exists lat' lon' stationList,
     lat = Some lat' /\ lon = Some lon' /\
     stationsLookup = Ok (Some stationList) /\
     forall station, In station stationList -> located station = true ->
       lt (distanceTo lat' lon' station) Infinity = false).
Proof.
  unfold nearestStationRoute.
  destruct lat as [lat'|];
    [|intros [= <- _]; left; split; [reflexivity|left; reflexivity]].
  destruct lon as [lon'|];
    [|intros [= <- _]; left; split; [reflexivity|right; reflexivity]].
  destruct (missing (Some lat') || missing (Some lon')) eqn:Hmissing.
  { intros [= <- _]. left. split; [reflexivity|]. apply orb_true_iff. exact Hmissing. }
  destruct stationsLookup as [[stationList|]|e].
  - pose proof (scan_spec located (fun s => distanceTo lat' lon' s) stationList) as Hscan.
    change (fold_left _ stationList (None, Infinity))
      with (fold_left (visitStation calculateDistance (parseFloat lat') (parseFloat lon'))
              stationList (None, Infinity)) in Hscan.
    destruct (fold_left _ stationList (None, Infinity)) as [[nearest|] minDistance];
      [discriminate|].
    intros [= <- _]. right. right. split; [reflexivity|].
    exists lat', lon', stationList. destruct Hscan as [_ Hall]. auto.
  - intros [= <- _]. right. left. split; [reflexivity|right; reflexivity].
  - intros [= <- _]. right. left. split; [reflexivity|left; eauto].
Qed.

End Stations.

Lemma getCityById_listed (city : City) :
  In city CITIES -> getCityById (id city) = Some city.
Proof.
  intros Hin. unfold CITIES in Hin. cbn [In] in Hin.
  repeat (destruct Hin as [<-|Hin]; [reflexivity|]). contradiction.
Qed.

Lemma getCityById_found (cityId : string) (city : City) :
  getCityById cityId = Some city -> In city CITIES /\ id city = cityId.
Proof.
  unfold getCityById. intros Hfind. apply find_some in Hfind as [Hin Heq].
  split; [exact Hin|]. apply String.eqb_eq. exact Heq.
Qed.

Section Cities.
Variable calculateDistance : Num -> Num -> Q -> Q -> Num.

Local Abbreviation distanceOf lat lon city :=
  (calculateDistance lat lon (latitude city) (longitude city)).

(** X20. [findNearestCity] always returns one of the 15 cities, one that
    [getCityById] finds again under its id, and no city of the table is
    closer than the distance returned. *)
Theorem findNearestCity_known (lat lon : Num) :
  exists city minDistance,
    findNearestCity calculateDistance lat lon = (Some city, minDistance) /\
    In city CITIES /\
    getCityById (id city) = Some city /\
    forall other, In other CITIES -> lt (distanceOf lat lon other) minDistance = false.
Proof.
  unfold findNearestCity.
  pose proof (scan_spec (fun _ : City => true) (fun c => distanceOf lat lon c) CITIES)
    as Hscan.
  change (fold_left _ CITIES (None, Infinity))
    with (fold_left (visitCity calculateDistance lat lon) CITIES (None, Infinity)) in Hscan.
  destruct (fold_left _ CITIES (None, Infinity)) as [[city|] minDistance].
  - destruct Hscan as (before & after & q & Hsplit & _ & _ & _ & _ & Hall).
    assert (Hin : In city CITIES).
    { rewrite Hsplit. apply in_app_iff. right. left. reflexivity. }
    exists city, minDistance. split; [reflexivity|]. split; [exact Hin|].
    split; [apply getCityById_listed; exact Hin|]. auto.
  - destruct Hscan as [-> Hall].
    eexists _, Infinity. split; [reflexivity|].
    split; [right; left; reflexivity|]. split; [reflexivity|]. auto.
Qed.

(** X21. When no distance compares below infinity, as with coordinates
    that are not numbers, the answer is Tel Aviv at an infinite
    distance. *)
Theorem findNearestCity_fallback (lat lon : Num) :
  (forall city, In city CITIES -> lt (distanceOf lat lon city) Infinity = false) ->
  exists city,
    findNearestCity calculateDistance lat lon = (Some city, Infinity) /\
    id city = "telaviv"%string /\
    name city = "Tel Aviv"%string.
Proof.
  intros Hnone. unfold findNearestCity.
  pose proof (scan_spec (fun _ : City => true) (fun c => distanceOf lat lon c) CITIES)
    as Hscan.
  change (fold_left _ CITIES (None, Infinity))
    with (fold_left (visitCity calculateDistance lat lon) CITIES (None, Infinity)) in Hscan.
  destruct (fold_left _ CITIES (None, Infinity)) as [[city|] minDistance].
  - exfalso.
    destruct Hscan as (before & after & q & Hsplit & _ & Hd & Hq & _ & _).
    assert (Hin : In city CITIES).
    { rewrite Hsplit. apply in_app_iff. right. left. reflexivity. }
    specialize (Hnone city Hin). rewrite <- Hd, Hq in Hnone. discriminate.
  - destruct Hscan as [-> _]. eexists. split; [reflexivity|]. split; reflexivity.
Qed.

End Cities.

(** X22. The city route answers 404 exactly when the id it is given is not
    empty and is not the id of one of the 15 cities, whether or not a
    download is at hand. *)
Theorem cityForecastRoute_unknown_city (cityId : string)
    (getMostRecentDownloadDir : option string)
    (getCityForecast : string -> string -> result (list ForecastAdapter.ParsedForecast)) :
  cityForecastRoute (Some cityId) getMostRecentDownloadDir getCityForecast
    = CityForecastStatus 404 "City not found"
  <-> cityId <> ""%string /\ forall city, In city CITIES -> id city <> cityId.
Proof.
  unfold cityForecastRoute. destruct (String.eqb cityId "") eqn:Hempty.
  { apply String.eqb_eq in Hempty. split; [discriminate|]. intros [Hne _]. congruence. }
  apply String.eqb_neq in Hempty.
  destruct (getCityById cityId) as [cityInfo|] eqn:Hfind.
  - apply getCityById_found in Hfind as [Hin Hid]. split.
    + destruct getMostRecentDownloadDir as [downloadDir|]; [|discriminate].
      destruct (String.eqb downloadDir ""); [discriminate|].
      destruct (getCityForecast cityId downloadDir); discriminate.
    + intros [_ Hnone]. exfalso. exact (Hnone cityInfo Hin Hid).
  - split; [|reflexivity]. intros _. split; [exact Hempty|].
    intros city Hin Hid. rewrite <- Hid, (getCityById_listed city Hin) in Hfind.
    discriminate.
Qed.

Import Fixtures.

Lemma nearestStationRoute_closest_witness :
  exists q,
    nearestStationRoute (fun _ => Finite 32) (fun _ _ lat' _ => Finite (lat' - 32))
      (Some "32") (Some "34.8") (Ok (Some [station178]))
      = NearestJson station178 "0.06" /\
    toFixed 2 q = "0.06"%string.
Proof.
  destruct (nearestStationRoute_closest (fun _ => Finite 32)
              (fun _ _ lat' _ => Finite (lat' - 32))
              (Some "32") (Some "34.8") (Ok (Some [station178])) station178 "0.06"
              eq_refl)
    as (lat' & lon' & before & after & q & _ & _ & _ & _ & _ & Hfixed & _).
  exists q. split; [reflexivity|]. symmetry. exact Hfixed.
Defined.

Lemma nearestStationRoute_error_causes_witness :
  nearestStationRoute (fun _ => NaN) (fun _ _ _ _ => NaN)
    (Some "north") (Some "east") (Ok (Some [station178]))
    = NearestStatus 404 "No stations found" /\
  exists stationList,
    @Ok (option (list Station.t)) (Some [station178]) = Ok (Some stationList) /\
    forall station, In station stationList -> located station = true ->
      lt NaN Infinity = false.
Proof.
  assert (Hroute : nearestStationRoute (fun _ => NaN) (fun _ _ _ _ => NaN)
                     (Some "north") (Some "east") (Ok (Some [station178]))
                   = NearestStatus 404 "No stations found") by reflexivity.
  split; [exact Hroute|].
  destruct (nearestStationRoute_error_causes _ _ _ _ _ _ _ Hroute)
    as [[H400 _]|[[H500 _]|[_ (lat' & lon' & stationList & _ & _ & Hlookup & Hall)]]];
    [discriminate H400|discriminate H500|].
  exists stationList. split; [exact Hlookup|exact Hall].
Defined.

Lemma findNearestCity_fallback_witness :
  exists city,
    findNearestCity (fun _ _ _ _ => NaN) NaN NaN = (Some city, Infinity) /\
    id city = "telaviv"%string /\
    name city = "Tel Aviv"%string.
Proof.
  apply (findNearestCity_fallback (fun _ _ _ _ => NaN) NaN NaN).
  intros city _. reflexivity.
Defined.

End SearchExtras.

(** ** The downloaded feeds: which directory is used, and how old it is *)

Module XmlExtras.
Import JS Floats XmlDownloader XmlDataManager.

Lemma ascii_compare_le_trans (a b c : ascii) :
  Ascii.compare a b <> Gt -> Ascii.compare b c <> Gt -> Ascii.compare a c <> Gt.
Proof.
  unfold Ascii.compare. rewrite !N.compare_le_iff. apply N.le_trans.
Qed.

Lemma ascii_compare_lt_trans (a b c : ascii) :
  Ascii.compare a b = Lt -> Ascii.compare b c <> Gt -> Ascii.compare a c = Lt.
Proof.
  unfold Ascii.compare. rewrite N.compare_le_iff, !N.compare_lt_iff.
  apply N.lt_le_trans.
Qed.

Lemma ascii_compare_le_lt_trans (a b c : ascii) :
  Ascii.compare a b <> Gt -> Ascii.compare b c = Lt -> Ascii.compare a c = Lt.
Proof.
  unfold Ascii.compare. rewrite N.compare_le_iff, !N.compare_lt_iff.
  apply N.le_lt_trans.
Qed.

Lemma string_compare_trans (s1 : string) :
  forall s2 s3,
    String.compare s1 s2 <> Gt -> String.compare s2 s3 <> Gt ->
    String.compare s1 s3 <> Gt.
Proof.
  induction s1 as [|c1 s1 IH]; intros [|c2 s2] [|c3 s3]; cbn [String.compare];
    try congruence.
  destruct (Ascii.compare c1 c2) eqn:E12; [|  |congruence].
  - apply Ascii.compare_eq_iff in E12. subst c2.
    destruct (Ascii.compare c1 c3) eqn:E13; [apply IH|congruence|congruence].
  - intros _ H23.
    assert (Hle : Ascii.compare c2 c3 <> Gt).
    { destruct (Ascii.compare c2 c3); congruence. }
    rewrite (ascii_compare_lt_trans c1 c2 c3 E12 Hle). congruence.
Qed.

Lemma leb_trans (s1 s2 s3 : string) :
  String.leb s1 s2 = true -> String.leb s2 s3 = true -> String.leb s1 s3 = true.
Proof.
  unfold String.leb. intros H12 H23.
  pose proof (string_compare_trans s1 s2 s3) as Htrans.
  destruct (String.compare s1 s2); try discriminate;
    destruct (String.compare s2 s3); try discriminate;
    destruct (String.compare s1 s3); try reflexivity;
    exfalso; apply Htrans; congruence.
Qed.

Lemma leb_refl (s : string) : String.leb s s = true.
Proof. destruct (String.leb_total s s); assumption. Qed.

(** The last item of a sorted list is above all of them. *)
Lemma sorted_last (l : list string) (h : string) :
  Sorted (fun a b => String.leb a b = true) (l ++ [h]) ->
  forall x, In x (l ++ [h]) -> String.leb x h = true.
Proof.
  intros Hsorted.
  apply Sorted_StronglySorted in Hsorted; [|intros a b c; apply leb_trans].
  induction l as [|a l IH]; intros x Hx.
  - destruct Hx as [<-|[]]. apply leb_refl.
  - cbn [app] in Hsorted. apply StronglySorted_inv in Hsorted as [Hrest Hall].
    destruct Hx as [<-|Hx]; [|exact (IH Hrest x Hx)].
    rewrite List.Forall_forall in Hall. apply Hall. apply in_app_iff. right. left. reflexivity.
Qed.

Lemma newestFirst_head (test : string -> bool) (names : list string) (h : string)
    (rest : list string) :
  newestFirst test names = h :: rest ->
  In h names /\ test h = true /\
  forall name, In name names -> test name = true -> String.leb name h = true.
Proof.
  unfold newestFirst. intros Hrev.
  assert (Hsorted : sortBy (fun name => name) (List.filter test names) = rev rest ++ [h]).
  { apply rev_inj. rewrite Hrev, rev_unit, rev_involutive. reflexivity. }
  assert (Hin : forall x, In x (rev rest ++ [h]) <-> In x names /\ test x = true).
  { intros x. rewrite <- Hsorted, <- filter_In. split; intros Hx.
    - eapply Permutation_in; [apply AggregationExtras.sortBy_perm|exact Hx].
    - eapply Permutation_in;
        [apply Permutation_sym, AggregationExtras.sortBy_perm|exact Hx]. }
  assert (Hh : In h (rev rest ++ [h])) by (apply in_app_iff; right; left; reflexivity).
  apply Hin in Hh as [Hnames Htest].
  split; [exact Hnames|]. split; [exact Htest|].
  intros name Hname Htest'.
  apply (sorted_last (rev rest) h).
  - rewrite <- Hsorted. apply (AggregationExtras.sortBy_sorted (fun name => name)).
  - apply Hin. split; assumption.
Qed.

Lemma newestFirst_nil (test : string -> bool) (names : list string) :
  newestFirst test names = [] <-> forall name, In name names -> test name = false.
Proof.
  unfold newestFirst. split.
  - intros Hrev name Hname. destruct (test name) eqn:Htest; [|reflexivity].
    assert (Hin : In name (sortBy (fun name => name) (List.filter test names))).
    { eapply Permutation_in; [apply Permutation_sym, AggregationExtras.sortBy_perm|].
      apply filter_In. split; assumption. }
    apply in_rev in Hin. rewrite Hrev in Hin. destruct Hin.
  - intros Hnone.
    assert (Hfilter : List.filter test names = []).
    { induction names as [|n names IH]; [reflexivity|]. cbn [List.filter].
      rewrite (Hnone n (or_introl eq_refl)). apply IH.
      intros name Hname. apply Hnone. right. exact Hname. }
    rewrite Hfilter. reflexivity.
Qed.

Lemma In_names (entries : gmap string (option (list string))) (name : string) :
  In name (map fst (map_to_list entries)) <-> is_Some (entries !! name).
Proof.
  rewrite in_map_iff. split.
  - intros [[n inside] [<- Hin]]. apply list_elem_of_In, elem_of_map_to_list in Hin.
    cbn [fst]. eauto.
  - intros [inside Hlookup]. exists (name, inside). split; [reflexivity|].
    apply list_elem_of_In, elem_of_map_to_list. exact Hlookup.
Qed.

(** X23. The directory returned is the time-named directory with the
    greatest name inside the date-named entry with the greatest name. *)
Theorem getMostRecentDownloadDir_latest (dataPath : string)
    (entries : gmap string (option (list string))) (downloadDir : string) :
  getMostRecentDownloadDir dataPath (Some entries) = Ok (Some downloadDir) ->
  exists date time inside,
    downloadDir = (dataPath +:+ "/" +:+ date) +:+ "/" +:+ time /\
    entries !! date = Some (Some inside) /\
    isDateName date = true /\
    (forall other, is_Some (entries !! other) -> isDateName other = true ->
       String.leb other date = true) /\
    In time inside /\
    isTimeName time = true /\
    (forall other, In other inside -> isTimeName other = true ->
       String.leb other time = true).
Proof.
  unfold getMostRecentDownloadDir.
  destruct (newestFirst isDateName _) as [|date olderDates] eqn:Hdates; [discriminate|].
  apply newestFirst_head in Hdates as (Hdate & HisDate & HmaxDate).
  destruct (entries !! date) as [[inside|]|] eqn:Hlookup; try discriminate.
  destruct (newestFirst isTimeName inside) as [|time olderTimes] eqn:Htimes; [discriminate|].
  apply newestFirst_head in Htimes as (Htime & HisTime & HmaxTime).
  intros [= <-]. exists date, time, inside.
  repeat split; auto.
  intros other Hother. apply HmaxDate, In_names. exact Hother.
Qed.

(** X24. When the date-named directory with the greatest name holds no
    time-named directory, nothing is returned, whatever the older
    directories hold. *)
Theorem getMostRecentDownloadDir_hidden (dataPath : string)
    (entries : gmap string (option (list string))) (date : string) (inside : list string) :
  entries !! date = Some (Some inside) ->
  isDateName date = true ->
  (forall other, is_Some (entries !! other) -> isDateName other = true ->
     String.leb other date = true) ->
  (forall name, In name inside -> isTimeName name = false) ->
  getMostRecentDownloadDir dataPath (Some entries) = Ok None.
Proof.
  intros Hlookup HisDate Hmax Hnone. unfold getMostRecentDownloadDir.
  destruct (newestFirst isDateName _) as [|latest olderDates] eqn:Hdates; [reflexivity|].
  apply newestFirst_head in Hdates as (Hlatest & HisLatest & HmaxLatest).
  assert (Heq : latest = date).
  { apply String.leb_antisym.
    - apply Hmax; [apply In_names; exact Hlatest|exact HisLatest].
    - apply HmaxLatest; [apply In_names; eauto|exact HisDate]. }
  subst latest. rewrite Hlookup.
  rewrite (proj2 (newestFirst_nil isTimeName inside) Hnone). reflexivity.
Qed.

Lemma age_above (now lastUpdate' hours : Z) :
  negb (Qle_bool (inject_Z (now - lastUpdate') / inject_Z (1000 * 60 * 60))
          (inject_Z hours)) = true
  <-> hours * msPerHour < now - lastUpdate'.
Proof.
  rewrite negb_true_iff. unfold msPerHour.
  assert (Hle : (inject_Z (now - lastUpdate') / inject_Z (1000 * 60 * 60)
                 <= inject_Z hours)%Q
                <-> now - lastUpdate' <= hours * (1000 * 60 * 60)).
  { change (1000 * 60 * 60) with 3600000.
    unfold Qle, Qdiv, Qmult, Qinv, inject_Z. cbn [Qnum Qden].
    rewrite !Pos.mul_1_l. lia. }
  split.
  - intros Hfalse. apply Z.lt_nge. intros Hge. apply Hle, Qle_bool_iff in Hge. congruence.
  - intros Hlt. destruct (Qle_bool _ _) eqn:E; [|reflexivity].
    apply Qle_bool_iff, Hle in E. lia.
Qed.

(** X25. With a readable time of download, the data is stale exactly when
    it is more than six hours old and needs an urgent refresh exactly
    when it is more than twelve hours old, to the millisecond; so what
    needs an urgent refresh is stale. A time of download in the future
    counts as fresh. *)
Theorem getDataStatus_thresholds (now lastUpdate' : Z) (dir : string) :
  dir <> ""%string ->
  let status := getDataStatus now (Some dir) (Timestamp (Some lastUpdate')) in
  (isStale status = true <-> 6 * msPerHour < now - lastUpdate') /\
  (needsUrgentRefresh status = true <-> 12 * msPerHour < now - lastUpdate') /\
  (needsUrgentRefresh status = true -> isStale status = true) /\
  (now <= lastUpdate' -> isStale status = false /\ staleSinceHours status = Finite 0).
Proof.
  intros Hdir. cbv zeta. unfold getDataStatus.
  apply String.eqb_neq in Hdir. rewrite Hdir.
  unfold needsUrgentRefresh, STALE_THRESHOLD_HOURS.
  cbn [isStale exists' age staleSinceHours negb orb].
  pose proof (age_above now lastUpdate' 6) as H6.
  pose proof (age_above now lastUpdate' 12) as H12.
  change (inject_Z 6) with 6%Q in H6. change (inject_Z 12) with 12%Q in H12.
  split; [exact H6|]. split; [exact H12|]. split.
  - intros Hurgent. apply H6. apply H12 in Hurgent. unfold msPerHour in *. lia.
  - intros Hfuture.
    destruct (negb (Qle_bool _ 6)) eqn:E.
    + pose proof (proj1 H6 eq_refl) as Hlt. unfold msPerHour in Hlt. lia.
    + split; reflexivity.
Qed.

(** X26. A download whose age cannot be read (no [metadata.json], an
    unreadable one, or one without a valid time) is reported stale, with
    an unknown status, but never as needing an urgent refresh. *)
Theorem unknown_age_is_not_urgent (now : Z) (dir : string) (metadata : Metadata) :
  dir <> ""%string ->
  metadata = NoMetadata \/ metadata = Unreadable \/ metadata = Timestamp None ->
  let status := getDataStatus now (Some dir) metadata in
  exists' status = true /\
  isStale status = true /\
  staleSinceHours status = Infinity /\
  needsUrgentRefresh status = false /\
  getStatusMessage status = "XML data status unknown"%string /\
  recommendation status = "Data is stale, refresh suggested"%string.
Proof.
  intros Hdir Hmeta. cbv zeta. unfold getDataStatus.
  apply String.eqb_neq in Hdir. rewrite Hdir.
  destruct Hmeta as [->|[->| ->]]; repeat split; reflexivity.
Qed.


Import MoreFixtures.

Lemma getMostRecentDownloadDir_hidden_witness :
  getMostRecentDownloadDir "/srv/data" (Some sampleData) = Ok None.
Proof.
  apply (getMostRecentDownloadDir_hidden "/srv/data" sampleData "2026-02-11" ["notes"]).
  - reflexivity.
  - reflexivity.
  - intros other [inside Hother] HisDate.
    unfold sampleData in Hother.
    destruct (decide (other = "2026-02-10"%string)) as [->|H10]; [reflexivity|].
    destruct (decide (other = "2026-02-11"%string)) as [->|H11]; [reflexivity|].
    destruct (decide (other = "README.md"%string)) as [->|Hreadme]; [discriminate HisDate|].
    rewrite !lookup_insert_ne, lookup_singleton_ne in Hother by congruence. discriminate.
  - intros name [<-|[]]. reflexivity.
Defined.

Lemma getMostRecentDownloadDir_latest_witness :
  exists date time inside,
    "/srv/data/2026-02-10/18-00-00"%string = ("/srv/data" +:+ "/" +:+ date) +:+ "/" +:+ time /\
    olderData !! date = Some (Some inside) /\
    isDateName date = true.
Proof.
  destruct (getMostRecentDownloadDir_latest "/srv/data" olderData
              "/srv/data/2026-02-10/18-00-00" ltac:(vm_compute; reflexivity))
    as (date & time & inside & Hpath & Hlookup & HisDate & _).
  exists date, time, inside. split; [exact Hpath|]. split; [exact Hlookup|exact HisDate].
Defined.

Lemma getDataStatus_thresholds_witness :
  isStale (getDataStatus (7 * msPerHour) (Some "/srv/data/2026-02-10/18-00-00")
             (Timestamp (Some 0))) = true.
Proof.
  apply (proj1 (getDataStatus_thresholds (7 * msPerHour) 0 "/srv/data/2026-02-10/18-00-00"
                  ltac:(discriminate))).
  vm_compute. reflexivity.
Defined.

Lemma unknown_age_is_not_urgent_witness :
  needsUrgentRefresh (getDataStatus 0 (Some "/srv/data/2026-02-10/18-00-00") Unreadable)
    = false.
Proof.
  exact (proj1 (proj2 (proj2 (proj2
           (unknown_age_is_not_urgent 0 "/srv/data/2026-02-10/18-00-00" Unreadable
              ltac:(discriminate) ltac:(right; left; reflexivity)))))).
Defined.

End XmlExtras.

(** ** The station-data route and the cache *)

Module StationDataExtras.
Import JS Cache ImsApi Utils ServerRoutes.

Lemma get_with_producer (type : CacheType) (params : CacheParams) (v : Cached)
    (d : option Z) (w : World Cached) :
  truthy v = true ->
  exists data w',
    Cache.get type params {| fetcher := Some (Ok v); duration := d |} w = (Ok data, w') /\
    truthy data = true.
Proof.
  intros Hv. unfold Cache.get.
  destruct (getCacheKey type params) as [key|] eqn:Hkey.
  2:{ destruct type; discriminate Hkey. }
  destruct (getFromMemory key _ w) as [memoryData w1].
  destruct (truthy memoryData) eqn:Hmemory; [eauto|].
  destruct (getFromFile key _ w1) as [fileData w2].
  destruct (truthy fileData) eqn:Hfile; [eauto|].
  cbn [fetcher]. eauto.
Qed.

Lemma same_day_within (c dt : Z) :
  0 <= dt -> todayOf (c + dt) = todayOf c -> dt < msPerDay.
Proof.
  unfold todayOf, msPerDay. intros Hdt Hday.
  pose proof (Z.div_mod c (1000 * 60 * 60 * 24) ltac:(lia)) as Hc.
  pose proof (Z.div_mod (c + dt) (1000 * 60 * 60 * 24) ltac:(lia)) as Hcd.
  pose proof (Z.mod_pos_bound c (1000 * 60 * 60 * 24) ltac:(lia)) as Hb.
  pose proof (Z.mod_pos_bound (c + dt) (1000 * 60 * 60 * 24) ltac:(lia)) as Hbd.
  rewrite Hday in Hcd. lia.
Qed.

Section Route.
Variable getStationData : Upstream.

(** X28. With a station id the route always answers with data: a failing
    upstream leaves it with fewer channels, never with an error. *)
Theorem stationDataRoute_always_answers (sid : string) (period : option string)
    (w : World Cached) :
  sid <> ""%string ->
  exists data w',
    stationDataRoute getStationData (Some sid) period w
      = (StationDataJson (Some data) (Server.orToday period), w').
Proof.
  intros Hsid. unfold stationDataRoute.
  apply String.eqb_neq in Hsid. rewrite Hsid. cbv zeta.
  unfold fetchStationData.
  rewrite ImsApiFacts.getStationDataMultiChannel_resolves. cbn [bind].
  match goal with
  | |- context [Cache.get _ ?params {| fetcher := Some (Ok ?v); duration := _ |} _] =>
      destruct (get_with_producer forecast params v None w eq_refl)
        as (data & w' & -> & Htruthy)
  end.
  destruct data as [data|]; [|discriminate Htruthy]. eauto.
Qed.

End Route.

(** A first request on a cache that holds nothing for it, and the
    same request again later on the same UTC day, whatever the upstream
    has become by then. *)
Lemma cold_then_warm (first again : Upstream) (sid : string) (period : option string)
    (key : string) (w : World Cached) (dt : Z) :
  sid <> ""%string ->
  getCacheKey forecast
    (cacheParamsOf sid (getDateRange (clock w) (Server.orToday period))) = Some key ->
  memoryCache w !! key = None ->
  files w !! key = None ->
  0 <= dt ->
  todayOf (clock w + dt) = todayOf (clock w) ->
  exists channels w1,
    getStationDataMultiChannel first (parseInt sid) Server.channelIds
      (from (getDateRange (clock w) (Server.orToday period)))
      (to (getDateRange (clock w) (Server.orToday period))) = Ok channels /\
    let answer :=
      StationDataJson
        (Some {| StationData.stationId := sid;
                 StationData.dateRange := getDateRange (clock w) (Server.orToday period);
                 StationData.channels := channels |})
        (Server.orToday period) in
    stationDataRoute first (Some sid) period w = (answer, w1) /\
    fetcherCalls w1 = S (fetcherCalls w) /\
    stationDataRoute again (Some sid) period (advance dt w1) = (answer, advance dt w1).
Proof.
  intros Hsid Hkey Hmemory Hfiles Hdt Hday.
  pose proof (same_day_within _ _ Hdt Hday) as Hwithin.
  apply String.eqb_neq in Hsid.
  set (dateRange := getDateRange (clock w) (Server.orToday period)) in *.
  pose proof (ImsApiFacts.getStationDataMultiChannel_resolves first (parseInt sid)
                Server.channelIds (from dateRange) (to dateRange)) as Hfirst.
  set (channels := omap _ Server.channelIds) in Hfirst.
  set (v := Some {| StationData.stationId := sid; StationData.dateRange := dateRange;
                    StationData.channels := channels |} : Cached).
  exists channels, (setInFile key v (setInMemory key v (countFetch w))).
  split; [exact Hfirst|]. cbv zeta.
  assert (Hroute : stationDataRoute first (Some sid) period w
                   = (StationDataJson v (Server.orToday period),
                      setInFile key v (setInMemory key v (countFetch w)))).
  { unfold stationDataRoute. rewrite Hsid. cbv zeta. fold dateRange.
    rewrite (CacheFacts.get_cold_miss forecast (cacheParamsOf sid dateRange)
               {| fetcher := Some (fetchStationData first sid dateRange); duration := None |}
               key (fetchStationData first sid dateRange) w Hkey Hmemory Hfiles eq_refl).
    unfold fetchStationData. rewrite Hfirst. reflexivity. }
  split; [exact Hroute|].
  split.
  { unfold setInFile. destruct (disk_ok _); reflexivity. }
  set (w1 := setInFile key v (setInMemory key v (countFetch w))).
  assert (Hclock : clock w1 = clock w).
  { unfold w1, setInFile. destruct (disk_ok _); reflexivity. }
  assert (Hentry : memoryCache w1 !! key = Some {| data := v; timestamp := clock w |}).
  { unfold w1, setInFile. destruct (disk_ok _); cbn; apply lookup_insert_eq. }
  unfold stationDataRoute. rewrite Hsid. cbv zeta.
  assert (Hrange : getDateRange (clock (advance dt w1)) (Server.orToday period) = dateRange).
  { unfold dateRange, getDateRange. cbn [clock advance]. rewrite Hclock, Hday. reflexivity. }
  rewrite Hrange.
  rewrite (CacheFacts.get_memory_hit forecast (cacheParamsOf sid dateRange)
             {| fetcher := Some (fetchStationData again sid dateRange); duration := None |}
             key {| data := v; timestamp := clock w |} (advance dt w1) Hkey).
  - reflexivity.
  - exact Hentry.
  - apply CacheFacts.isExpired_spec. cbn [clock advance timestamp]. rewrite Hclock.
    unfold effectiveDuration, CACHE_DURATIONS. cbn [duration].
    unfold msPerDay in Hwithin. lia.
  - reflexivity.
Qed.

(** X29. After a first request that found nothing cached, the same
    request made again later on the same UTC day gets the same answer
    from the cache: the state does not change and the upstream, whatever
    it would answer by then, is not asked. In particular an outage is
    cached: when the upstream failed on every channel during the first
    request, both answers hold no channel, even with an upstream that
    has recovered. *)
Theorem stationDataRoute_repeat (first again : Upstream) (sid : string)
    (period : option string) (key : string) (w : World Cached) (dt : Z) :
  sid <> ""%string ->
  getCacheKey forecast
    (cacheParamsOf sid (getDateRange (clock w) (Server.orToday period))) = Some key ->
  memoryCache w !! key = None ->
  files w !! key = None ->
  0 <= dt ->
  todayOf (clock w + dt) = todayOf (clock w) ->
  exists channels w1,
    let answer :=
      StationDataJson
        (Some {| StationData.stationId := sid;
                 StationData.dateRange := getDateRange (clock w) (Server.orToday period);
                 StationData.channels := channels |})
        (Server.orToday period) in
    stationDataRoute first (Some sid) period w = (answer, w1) /\
    fetcherCalls w1 = S (fetcherCalls w) /\
    stationDataRoute again (Some sid) period (advance dt w1) = (answer, advance dt w1) /\
    ((forall channelId fromDate toDate,
        exists e, first (parseInt sid) channelId fromDate toDate = Throw e) ->
     channels = []).
Proof.
  intros Hsid Hkey Hmemory Hfiles Hdt Hday.
  destruct (cold_then_warm first again sid period key w dt Hsid Hkey Hmemory Hfiles Hdt Hday)
    as (channels & w1 & Hchannels & Hroute & Hcalls & Hagain).
  exists channels, w1. cbv zeta.
  split; [exact Hroute|]. split; [exact Hcalls|].
  split; [exact Hagain|].
  intros Hdown.
  rewrite ImsApiFacts.getStationDataMultiChannel_resolves in Hchannels.
  rewrite RouteExtras.omap_all_fail in Hchannels by (intros; apply Hdown).
  injection Hchannels as <-. reflexivity.
Qed.

Import Fixtures MoreFixtures.

Lemma stationDataRoute_always_answers_witness :
  exists data w',
    stationDataRoute upstreamDown (Some "178") (Some "week") (coldStart (day0 * msPerDay))
      = (StationDataJson (Some data) "week", w').
Proof.
  apply (stationDataRoute_always_answers upstreamDown "178" (Some "week")
           (coldStart (day0 * msPerDay))).
  discriminate.
Defined.

Lemma stationDataRoute_repeat_witness :
  exists w1,
    stationDataRoute upstreamThreeDays (Some "178") (Some "week") (advance msPerHour w1)
    = (StationDataJson
         (Some {| StationData.stationId := "178";
                  StationData.dateRange := {| from := day0 - 7; to := day0 |};
                  StationData.channels := [] |}) "week",
       advance msPerHour w1).
Proof.
  destruct (stationDataRoute_repeat upstreamDown upstreamThreeDays "178" (Some "week")
              "forecast_178_2026-02-04_2026-02-11" (coldStart (day0 * msPerDay)) msPerHour
              ltac:(discriminate) ltac:(vm_compute; reflexivity) eq_refl eq_refl
              ltac:(unfold msPerHour; lia) ltac:(vm_compute; reflexivity))
    as (channels & w1 & _ & _ & Hagain & Hdown).
  rewrite (Hdown ltac:(intros; eexists; reflexivity)) in Hagain.
  exists w1. exact Hagain.
Defined.

End StationDataExtras.

(** ** The alert feeds *)

Module AlertExtras.
Import JS XmlParser.

Section Alerts.
Variable existsSync : string -> bool.
Variable readAlertFeed : string -> result (list ParsedAlert).
Variable trim : string -> string.

(** A file contributes its alerts when it exists, is read and parsed,
    and the description of its first alert is not blank. *)
Local Abbreviation contributes downloadDir filename alerts :=
  (existsSync (downloadDir +:+ "/" +:+ filename) = true /\
   readAlertFeed (downloadDir +:+ "/" +:+ filename) = Ok alerts /\
   exists first rest, alerts = first :: rest /\ trim (description first) <> ""%string).

Lemma visitAlertFile_spec (downloadDir : string) (allAlerts : list ParsedAlert)
    (filename : string) :
  (exists alerts,
     contributes downloadDir filename alerts /\
     visitAlertFile existsSync readAlertFeed trim downloadDir allAlerts filename
       = allAlerts ++ alerts) \/
  ((forall alerts, ~ contributes downloadDir filename alerts) /\
   visitAlertFile existsSync readAlertFeed trim downloadDir allAlerts filename = allAlerts).
Proof.
  unfold visitAlertFile. cbv zeta.
  destruct (existsSync _) eqn:Hexists.
  2:{ right. split; [|reflexivity]. intros alerts (Habsurd & _). congruence. }
  destruct (readAlertFeed _) as [alerts|e] eqn:Hread; cbn [bind try_catch].
  2:{ right. split; [|reflexivity]. intros alerts (_ & Habsurd & _). congruence. }
  destruct alerts as [|first rest].
  { right. split; [|reflexivity].
    intros alerts (_ & Hread' & first & rest & -> & _). congruence. }
  destruct (String.eqb (trim (description first)) "") eqn:Hblank; cbn [negb].
  - right. split; [|reflexivity].
    intros alerts (_ & Hread' & first' & rest' & -> & Hfilled).
    injection Hread' as <- <-. apply String.eqb_eq in Hblank. congruence.
  - left. exists (first :: rest). split; [|reflexivity].
    split; [reflexivity|]. split; [reflexivity|].
    exists first, rest. split; [reflexivity|]. apply String.eqb_neq. exact Hblank.
Qed.

Lemma fold_visitAlertFile (downloadDir : string) (files : list string) :
  forall (allAlerts : list ParsedAlert) (alert : ParsedAlert),
    In alert (fold_left (visitAlertFile existsSync readAlertFeed trim downloadDir)
                files allAlerts)
    <-> In alert allAlerts \/
        exists filename alerts,
          In filename files /\ contributes downloadDir filename alerts /\ In alert alerts.
Proof.
  induction files as [|filename files IH]; intros allAlerts alert; cbn [fold_left].
  - split; [auto|]. intros [Hin|(filename & alerts & [] & _)]. exact Hin.
  - rewrite IH.
    destruct (visitAlertFile_spec downloadDir allAlerts filename)
      as [(alerts & Hcontributes & ->)|[Hnone ->]].
    + rewrite in_app_iff. split.
      * intros [[Hin|Hin]|(f & a & Hf & Hc & Ha)].
        -- left. exact Hin.
        -- right. exists filename, alerts. split; [left; reflexivity|]. split; assumption.
        -- right. exists f, a. split; [right; exact Hf|]. split; assumption.
      * intros [Hin|(f & a & [<-|Hf] & Hc & Ha)].
        -- left. left. exact Hin.
        -- destruct Hc as (_ & Hread & _). destruct Hcontributes as (_ & Hread' & _).
           rewrite Hread in Hread'. injection Hread' as <-. left. right. exact Ha.
        -- right. exists f, a. split; [exact Hf|]. split; assumption.
    + split.
      * intros [Hin|(f & a & Hf & Hc & Ha)]; [left; exact Hin|].
        right. exists f, a. split; [right; exact Hf|]. split; assumption.
      * intros [Hin|(f & a & [<-|Hf] & Hc & Ha)]; [left; exact Hin| |].
        -- exfalso. exact (Hnone a Hc).
        -- right. exists f, a. split; [exact Hf|]. split; assumption.
Qed.

(** X30. The alerts returned are exactly those of the twelve alert files
    that exist, can be read and parsed, and start with an alert whose
    description is not blank. A file that is missing or broken takes
    nothing away from the others, and a feed whose first alert is blank
    is left out as a whole. *)
Theorem getAllAlerts_sources (downloadDir : string) (alert : ParsedAlert) :
  In alert (getAllAlerts existsSync readAlertFeed trim downloadDir)
  <-> exists filename alerts first rest,
        In filename alertFiles /\
        existsSync (downloadDir +:+ "/" +:+ filename) = true /\
        readAlertFeed (downloadDir +:+ "/" +:+ filename) = Ok alerts /\
        alerts = first :: rest /\
        trim (description first) <> ""%string /\
        In alert alerts.
Proof.
  unfold getAllAlerts. rewrite fold_visitAlertFile. split.
  - intros [[]|(filename & alerts & Hf & (He & Hr & first & rest & Ha & Hb) & Hin)].
    exists filename, alerts, first, rest. repeat split; assumption.
  - intros (filename & alerts & first & rest & Hf & He & Hr & Ha & Hb & Hin).
    right. exists filename, alerts. split; [exact Hf|]. split; [|exact Hin].
    split; [exact He|]. split; [exact Hr|]. exists first, rest. split; assumption.
Qed.

End Alerts.
End AlertExtras.
